(** * PowerShuffler1: telemetry wire protocol and charge controller

    A shallow embedding of the two ATtiny firmware images of the
    PowerShuffler1 board:

    - [Master]: [ATTINY_master_mcu::main.c], the receiving node.  Its three
      interrupt service routines form the telemetry decoder
      (Idle, VerifyTrigger, Reading, Timeout, Error) and its main loop is
      the hysteretic charge controller.
    - [Client]: [ATTINY_client_mcu::main.c], the weak-cell node, which
      drives the single data wire.
    - [Wire]: the receiving node's interrupt hardware (INT0 sense logic and
      16-bit Timer0 behind a divide-by-256 prescaler), clocked cycle by
      cycle against the sender's waveform.

    All C globals and the I/O registers the code touches are fields of one
    record per node; registers are integers manipulated with the same bit
    operations as the source. *)

From Stdlib Require Import ZArith NArith List Bool Lia.
Import ListNotations.
Local Open Scope Z_scope.

(** [_BV(n)] of avr-libc. *)
Definition _BV (n : Z) : Z := Z.shiftl 1 n.

(** Width of [unsigned int] and [unsigned short] on AVR (16 bits) and of an
    I/O register (8 bits). *)
Definition u16 (x : Z) : Z := x mod 65536.
Definition u8 (x : Z) : Z := x mod 256.

(** C truth value of an integer. *)
Definition truthy (x : Z) : bool := negb (x =? 0).

(** One analog conversion as the environment performs it: how many times
    the busy loop runs before [ADSC] clears, and the content of [ADCL]. *)
Record conversion : Set := mkConversion {
  wait_spins : N;
  ADCL : Z
}.

(** Both images define [F_CPU] as 8 MHz. *)
Definition F_CPU : N := 8000000.

(** ** The master node *)
Module Master.

Definition VERIFYTRIGGERTIMEOUT : Z := 4.
Definition READINGTIMEOUT : Z := 15625.
Definition MAXTIMEOUT : Z := 0xFFFF.
Definition MAXTIMEOUTCOUNT : Z := 5.
Definition BRIEFBLINKDELAYCOUNT : N := 0xFFFF.
Definition SLEEPDELAYCOUNT : N := 30.
Definition ADCITERATIONS : Z := 4.
Definition ADCTHRESHOLDHI : Z := 7.
Definition ADCTHRESHOLDLOW : Z := 4.
Definition MAXVOLTAGEADCVALUE : Z := 232.
Definition MINVOLTAGEADCVALUE : Z := 163.
Definition BLINKTOGGLEVALUE : Z := 16384.
Definition CLIENTDEBOUNCEDELAY : N := 0xFFFF.

Inductive ReadDataState : Set :=
| Read_Idle
| Read_VerifyTrigger
| Read_Reading
| Read_Timeout
| Read_Error.

Definition ReadDataState_eqb (a b : ReadDataState) : bool :=
  match a, b with
  | Read_Idle, Read_Idle
  | Read_VerifyTrigger, Read_VerifyTrigger
  | Read_Reading, Read_Reading
  | Read_Timeout, Read_Timeout
  | Read_Error, Read_Error => true
  | _, _ => false
  end.

(** The globals of [main.c] followed by the I/O registers it reads or
    writes after initialisation. *)
Record mcu : Set := mkMcu {
  g_readDataState : ReadDataState;
  g_incomingCount : Z;
  g_ledBlinkCount : Z;
  g_adcThreshold : Z;
  g_idleTimeoutCount : Z;
  PORTB : Z;
  DDRB : Z;
  PUEB : Z;
  TCNT0 : Z;
  OCR0A : Z;
  TCCR0B : Z;
  EICRA : Z;
  EIMSK : Z;
  ADCSRA : Z;
  PRR : Z
}.

(** Field updates. *)
Definition set_g_readDataState (v : ReadDataState) (s : mcu) : mcu :=
  mkMcu v (g_incomingCount s) (g_ledBlinkCount s) (g_adcThreshold s)
    (g_idleTimeoutCount s) (PORTB s) (DDRB s) (PUEB s) (TCNT0 s) (OCR0A s)
    (TCCR0B s) (EICRA s) (EIMSK s) (ADCSRA s) (PRR s).
Definition set_g_incomingCount (v : Z) (s : mcu) : mcu :=
  mkMcu (g_readDataState s) v (g_ledBlinkCount s) (g_adcThreshold s)
    (g_idleTimeoutCount s) (PORTB s) (DDRB s) (PUEB s) (TCNT0 s) (OCR0A s)
    (TCCR0B s) (EICRA s) (EIMSK s) (ADCSRA s) (PRR s).
Definition set_g_ledBlinkCount (v : Z) (s : mcu) : mcu :=
  mkMcu (g_readDataState s) (g_incomingCount s) v (g_adcThreshold s)
    (g_idleTimeoutCount s) (PORTB s) (DDRB s) (PUEB s) (TCNT0 s) (OCR0A s)
    (TCCR0B s) (EICRA s) (EIMSK s) (ADCSRA s) (PRR s).
Definition set_g_adcThreshold (v : Z) (s : mcu) : mcu :=
  mkMcu (g_readDataState s) (g_incomingCount s) (g_ledBlinkCount s) v
    (g_idleTimeoutCount s) (PORTB s) (DDRB s) (PUEB s) (TCNT0 s) (OCR0A s)
    (TCCR0B s) (EICRA s) (EIMSK s) (ADCSRA s) (PRR s).
Definition set_g_idleTimeoutCount (v : Z) (s : mcu) : mcu :=
  mkMcu (g_readDataState s) (g_incomingCount s) (g_ledBlinkCount s)
    (g_adcThreshold s) v (PORTB s) (DDRB s) (PUEB s) (TCNT0 s) (OCR0A s)
    (TCCR0B s) (EICRA s) (EIMSK s) (ADCSRA s) (PRR s).
Definition set_PORTB (v : Z) (s : mcu) : mcu :=
  mkMcu (g_readDataState s) (g_incomingCount s) (g_ledBlinkCount s)
    (g_adcThreshold s) (g_idleTimeoutCount s) v (DDRB s) (PUEB s) (TCNT0 s)
    (OCR0A s) (TCCR0B s) (EICRA s) (EIMSK s) (ADCSRA s) (PRR s).
Definition set_DDRB (v : Z) (s : mcu) : mcu :=
  mkMcu (g_readDataState s) (g_incomingCount s) (g_ledBlinkCount s)
    (g_adcThreshold s) (g_idleTimeoutCount s) (PORTB s) v (PUEB s) (TCNT0 s)
    (OCR0A s) (TCCR0B s) (EICRA s) (EIMSK s) (ADCSRA s) (PRR s).
Definition set_PUEB (v : Z) (s : mcu) : mcu :=
  mkMcu (g_readDataState s) (g_incomingCount s) (g_ledBlinkCount s)
    (g_adcThreshold s) (g_idleTimeoutCount s) (PORTB s) (DDRB s) v (TCNT0 s)
    (OCR0A s) (TCCR0B s) (EICRA s) (EIMSK s) (ADCSRA s) (PRR s).
Definition set_TCNT0 (v : Z) (s : mcu) : mcu :=
  mkMcu (g_readDataState s) (g_incomingCount s) (g_ledBlinkCount s)
    (g_adcThreshold s) (g_idleTimeoutCount s) (PORTB s) (DDRB s) (PUEB s) v
    (OCR0A s) (TCCR0B s) (EICRA s) (EIMSK s) (ADCSRA s) (PRR s).
Definition set_OCR0A (v : Z) (s : mcu) : mcu :=
  mkMcu (g_readDataState s) (g_incomingCount s) (g_ledBlinkCount s)
    (g_adcThreshold s) (g_idleTimeoutCount s) (PORTB s) (DDRB s) (PUEB s)
    (TCNT0 s) v (TCCR0B s) (EICRA s) (EIMSK s) (ADCSRA s) (PRR s).
Definition set_TCCR0B (v : Z) (s : mcu) : mcu :=
  mkMcu (g_readDataState s) (g_incomingCount s) (g_ledBlinkCount s)
    (g_adcThreshold s) (g_idleTimeoutCount s) (PORTB s) (DDRB s) (PUEB s)
    (TCNT0 s) (OCR0A s) v (EICRA s) (EIMSK s) (ADCSRA s) (PRR s).
Definition set_EICRA (v : Z) (s : mcu) : mcu :=
  mkMcu (g_readDataState s) (g_incomingCount s) (g_ledBlinkCount s)
    (g_adcThreshold s) (g_idleTimeoutCount s) (PORTB s) (DDRB s) (PUEB s)
    (TCNT0 s) (OCR0A s) (TCCR0B s) v (EIMSK s) (ADCSRA s) (PRR s).
Definition set_EIMSK (v : Z) (s : mcu) : mcu :=
  mkMcu (g_readDataState s) (g_incomingCount s) (g_ledBlinkCount s)
    (g_adcThreshold s) (g_idleTimeoutCount s) (PORTB s) (DDRB s) (PUEB s)
    (TCNT0 s) (OCR0A s) (TCCR0B s) (EICRA s) v (ADCSRA s) (PRR s).
Definition set_ADCSRA (v : Z) (s : mcu) : mcu :=
  mkMcu (g_readDataState s) (g_incomingCount s) (g_ledBlinkCount s)
    (g_adcThreshold s) (g_idleTimeoutCount s) (PORTB s) (DDRB s) (PUEB s)
    (TCNT0 s) (OCR0A s) (TCCR0B s) (EICRA s) (EIMSK s) v (PRR s).
Definition set_PRR (v : Z) (s : mcu) : mcu :=
  mkMcu (g_readDataState s) (g_incomingCount s) (g_ledBlinkCount s)
    (g_adcThreshold s) (g_idleTimeoutCount s) (PORTB s) (DDRB s) (PUEB s)
    (TCNT0 s) (OCR0A s) (TCCR0B s) (EICRA s) (EIMSK s) (ADCSRA s) v.

(** State after [initializeRegisters]: the globals' initialisers, the
    threshold set to its high value, every register at its reset value
    except those the routine writes. *)
Definition initializeRegisters : mcu :=
  {| g_readDataState := Read_Idle;
     g_incomingCount := 0;
     g_ledBlinkCount := 0;
     g_adcThreshold := ADCTHRESHOLDHI;
     g_idleTimeoutCount := 0;
     PORTB := 0;
     DDRB := _BV 1;
     PUEB := _BV 3;
     TCNT0 := 0;
     OCR0A := MAXTIMEOUT;
     TCCR0B := 0;
     EICRA := 0;
     EIMSK := 0x01;
     ADCSRA := 0x83;
     PRR := 0 |}.

Definition resetAndStartTimer (s : mcu) : mcu :=
  let s := set_TCNT0 0 s in
  set_TCCR0B (Z.lor (TCCR0B s) 0x04) s.

Definition stopTimer (s : mcu) : mcu :=
  set_TCCR0B (Z.land (TCCR0B s) 0xFB) s.

Definition resetReadStateToIdle (s : mcu) : mcu :=
  let s := set_g_idleTimeoutCount 0 s in
  let s := set_g_readDataState Read_Idle s in
  let s := set_OCR0A MAXTIMEOUT s in
  let s := set_EICRA 0x00 s in
  set_EIMSK 0x01 s.

Definition toggleLed (s : mcu) : mcu :=
  if truthy (Z.land (PORTB s) (_BV 1))
  then set_PORTB (Z.land (PORTB s) (Z.lnot (_BV 1))) s
  else set_PORTB (Z.lor (PORTB s) (_BV 1)) s.

Definition turnOnLed (s : mcu) : mcu :=
  set_PORTB (Z.lor (PORTB s) (_BV 1)) s.

Definition turnOffLed (s : mcu) : mcu :=
  set_PORTB (Z.land (PORTB s) (Z.lnot (_BV 1))) s.

Definition incrementAndBlinkLed (s : mcu) : mcu :=
  let s := set_g_ledBlinkCount (u16 (g_ledBlinkCount s + 1)) s in
  if g_ledBlinkCount s mod BLINKTOGGLEVALUE =? 0 then toggleLed s else s.

(** A busy loop whose body is one call of [incrementAndBlinkLed]. *)
Definition spin (n : N) (s : mcu) : mcu := N.iter n incrementAndBlinkLed s.

Definition turnOnClient (s : mcu) : mcu :=
  let s := set_PUEB (Z.land (PUEB s) (Z.lnot (_BV 3))) s in
  let s := set_DDRB (Z.lor (DDRB s) (_BV 3)) s in
  spin CLIENTDEBOUNCEDELAY s.

Definition turnOffClient (s : mcu) : mcu :=
  let s := set_PUEB (Z.lor (PUEB s) (_BV 3)) s in
  set_DDRB (Z.land (DDRB s) (Z.lnot (_BV 3))) s.

(** [readPinB2]: the caller supplies the content of the input register
    [PINB] at the moment of the read. *)
Definition readPinB2 (pinb : Z) : Z := Z.land pinb (_BV 2).

(** *** The decoder: interrupt service routines *)

Definition ISR_INT0 (s : mcu) : mcu :=
  match g_readDataState s with
  | Read_Idle =>
      let s := stopTimer s in
      let s := set_EIMSK 0x00 s in
      let s := set_g_readDataState Read_VerifyTrigger s in
      let s := set_OCR0A VERIFYTRIGGERTIMEOUT s in
      resetAndStartTimer s
  | Read_Reading => set_g_incomingCount (u16 (g_incomingCount s + 1)) s
  | _ => s
  end.

Definition ISR_TIM0_COMPA (pinb : Z) (s : mcu) : mcu :=
  match g_readDataState s with
  | Read_VerifyTrigger =>
      let s := stopTimer s in
      let s :=
        if truthy (readPinB2 pinb)
        then resetReadStateToIdle s
        else
          let s := set_g_incomingCount 0 s in
          let s := set_g_readDataState Read_Reading s in
          let s := set_OCR0A READINGTIMEOUT s in
          let s := set_EICRA 0x02 s in
          set_EIMSK 0x01 s in
      resetAndStartTimer s
  | Read_Reading =>
      let s := stopTimer s in
      let s :=
        set_g_readDataState
          (if truthy (readPinB2 pinb) then Read_Timeout else Read_Error) s in
      set_EIMSK 0x00 s
  | _ => s
  end.

(** [wdt_reset()] only restarts the watchdog counter, which is not part of
    the record. *)
Definition ISR_TIM0_OVF (s : mcu) : mcu :=
  match g_readDataState s with
  | Read_Idle =>
      let s := set_g_idleTimeoutCount (u16 (g_idleTimeoutCount s + 1)) s in
      if g_idleTimeoutCount s >? MAXTIMEOUTCOUNT
      then
        let s := stopTimer s in
        let s := set_g_readDataState Read_Error s in
        let s := set_g_idleTimeoutCount 0 s in
        set_EIMSK 0x00 s
      else s
  | _ => s
  end.

Definition ISR_WDT (s : mcu) : mcu := s.

(** The interrupt requests the decoder can be handed.  A compare-match
    request carries the content of [PINB] at the time it is served. *)
Inductive irq : Set :=
| INT0_vect
| TIM0_COMPA_vect (pinb : Z)
| TIM0_OVF_vect
| WDT_vect.

Definition serve (e : irq) (s : mcu) : mcu :=
  match e with
  | INT0_vect => ISR_INT0 s
  | TIM0_COMPA_vect pinb => ISR_TIM0_COMPA pinb s
  | TIM0_OVF_vect => ISR_TIM0_OVF s
  | WDT_vect => ISR_WDT s
  end.

Definition serve_all (es : list irq) (s : mcu) : mcu :=
  fold_left (fun s e => serve e s) es s.

(** The transitions section 4.3 of the design gives the decoder: a line
    request in Idle or Reading, a compare match in VerifyTrigger or
    Reading, an overflow in Idle. *)
Definition defined_transition (e : irq) (st : ReadDataState) : bool :=
  match e, st with
  | INT0_vect, (Read_Idle | Read_Reading) => true
  | TIM0_COMPA_vect _, (Read_VerifyTrigger | Read_Reading) => true
  | TIM0_OVF_vect, Read_Idle => true
  | _, _ => false
  end.

Definition is_overflow (e : irq) : bool :=
  match e with TIM0_OVF_vect => true | _ => false end.

Definition is_line_request (e : irq) : bool :=
  match e with INT0_vect => true | _ => false end.

(** Number of timer overflows among the requests. *)
Definition overflows (es : list irq) : nat :=
  length (filter is_overflow es).

(** The sender stays silent: the line never raises INT0. *)
Definition silent (es : list irq) : bool :=
  forallb (fun e => negb (is_line_request e)) es.

(** How many times the decoder enters [Read_Error] while serving [es]. *)
Fixpoint error_entries (es : list irq) (s : mcu) : nat :=
  match es with
  | [] => O
  | e :: es =>
      let s' := serve e s in
      ((if negb (ReadDataState_eqb (g_readDataState s) Read_Error)
           && ReadDataState_eqb (g_readDataState s') Read_Error
        then 1 else 0)
       + error_entries es s')%nat
  end.

(** A low pulse that is over when the verification timer expires: INT0,
    then a compare match that reads PB2 high. *)
Definition glitch : list irq := [INT0_vect; TIM0_COMPA_vect (_BV 2)].

(** Rounds of idling: round [k] is [k] timer overflows followed by one
    glitch; after the last round come [tail] more overflows. *)
Definition glitchy_idle (rounds : list nat) (tail : nat) : list irq :=
  flat_map (fun k => repeat TIM0_OVF_vect k ++ glitch) rounds
  ++ repeat TIM0_OVF_vect tail.

(** A request list read by itself, for a decoder that starts in Idle.
    A pulse is open from a line request to the next compare match;
    [idle] is the number of overflows that came with no pulse open since
    the decoder last started listening.  The list passes when every
    compare match that closes a pulse reads PB2 high, so that every pulse
    is a glitch, and when the overflows between two glitches never number
    more than [MAXTIMEOUTCOUNT].  Nothing else is asked of it: compare
    matches with no pulse open, watchdog requests, and line requests or
    overflows while a pulse is open may come anywhere, and [PINB] may read
    anything as long as bit 2 is set when a pulse closes. *)
Fixpoint glitches_in_time (pulse : bool) (idle : nat) (es : list irq)
    : bool :=
  match es with
  | [] => true
  | e :: es =>
      match e, pulse with
      | INT0_vect, false => glitches_in_time true idle es
      | TIM0_COMPA_vect pinb, true =>
          truthy (readPinB2 pinb) && glitches_in_time false O es
      | TIM0_OVF_vect, false =>
          (Z.of_nat (S idle) <=? MAXTIMEOUTCOUNT)
          && glitches_in_time false (S idle) es
      | _, _ => glitches_in_time pulse idle es
      end
  end.

(** What [glitches_in_time] tracks is what the decoder holds: with a pulse
    open it is in VerifyTrigger, otherwise in Idle with [idle] in its
    idle-timeout count. *)
Definition tracked (pulse : bool) (idle : nat) (s : mcu) : Prop :=
  if pulse
  then g_readDataState s = Read_VerifyTrigger
  else g_readDataState s = Read_Idle
       /\ g_idleTimeoutCount s = Z.of_nat idle
       /\ Z.of_nat idle <= MAXTIMEOUTCOUNT.

(** *** The charge controller: one pass of the [while (1)] body *)

Definition startADC (s : mcu) : mcu :=
  set_ADCSRA (Z.lor (ADCSRA s) 0x40) s.

Definition adcInProgress (s : mcu) : Z := Z.land (ADCSRA s) 0x40.

(** [ADCL] is an 8-bit register. *)
Definition adcValue (c : conversion) : Z := u8 (ADCL c).

(** The loop ends when the converter clears [ADSC]. *)
Definition getAdcValueBusyWait (c : conversion) (s : mcu) : Z * mcu :=
  let s := startADC s in
  let s := spin (wait_spins c) s in
  let s := set_ADCSRA (Z.land (ADCSRA s) (Z.lnot 0x40)) s in
  (adcValue c, s).

(** [k] remaining passes of the averaging loop, the next one being pass
    [i]; [convs i] is the conversion the environment performs in pass [i]. *)
Fixpoint adc_loop (k i : nat) (convs : nat -> conversion) (adcvalue : Z)
    (s : mcu) : Z * mcu :=
  match k with
  | O => (adcvalue, s)
  | S k =>
      let '(v, s) := getAdcValueBusyWait (convs i) s in
      adc_loop k (S i) convs (u16 (adcvalue + v)) s
  end.

Definition getAdcValueBusyWaitWithAveraging (convs : nat -> conversion)
    (s : mcu) : Z * mcu :=
  let '(adcvalue, s) := adc_loop (Z.to_nat ADCITERATIONS) 0 convs 0 s in
  (adcvalue / ADCITERATIONS, s).

(** What happens while [main] busy-waits for the decoder: passes of the
    loop body interleaved with served interrupt requests. *)
Inductive wait_step : Set :=
| Spin
| Irq (e : irq).

Definition reading_done (s : mcu) : bool :=
  ReadDataState_eqb (g_readDataState s) Read_Timeout
  || ReadDataState_eqb (g_readDataState s) Read_Error.

(** [while (state != Read_Timeout && state != Read_Error)]: [None] when
    the schedule ends with the loop still running. *)
Fixpoint busy_wait (sched : list wait_step) (s : mcu) : option mcu :=
  if reading_done s then Some s
  else
    match sched with
    | [] => None
    | Spin :: sched => busy_wait sched (incrementAndBlinkLed s)
    | Irq e :: sched => busy_wait sched (serve e s)
    end.

(** The path a pass of the loop body takes. *)
Inductive branch : Set :=
| KeepCharging   (* [continue]: the loop restarts at once *)
| StopCharging   (* Timeout, comparison failed *)
| Fault          (* decoder ended in Error *)
| LowInput.      (* input voltage not above the minimum *)

(** Lines after the [if]/[else]: switch the client off, power down, sleep
    through [SLEEPDELAYCOUNT] watchdog periods with a heartbeat blip,
    restore power. *)
Definition heartbeat (s : mcu) : mcu := toggleLed (toggleLed (ISR_WDT s)).

Definition sleep_tail (s : mcu) : mcu :=
  let s := turnOffClient s in
  let s := set_ADCSRA (Z.land (ADCSRA s) 0x7F) s in
  let s := set_PRR 0x03 s in
  let s := N.iter SLEEPDELAYCOUNT heartbeat s in
  let s := set_PRR 0x00 s in
  set_ADCSRA (Z.lor (ADCSRA s) 0x80) s.

(** The statements under [if (getAdcValueBusyWait() > MINVOLTAGEADCVALUE)]
    up to the busy wait. *)
Definition start_listening (s : mcu) : mcu :=
  let s := turnOnClient s in
  let s := resetReadStateToIdle s in
  resetAndStartTimer s.

(** The statements after the busy wait, for a decoder that has finished. *)
Definition conclude (convs : nat -> conversion) (s : mcu) : branch * mcu :=
  if ReadDataState_eqb (g_readDataState s) Read_Timeout
  then
    let '(adc, s) := getAdcValueBusyWaitWithAveraging convs s in
    if (g_incomingCount s <? u16 (adc + g_adcThreshold s))
       && (g_incomingCount s <? MAXVOLTAGEADCVALUE)
    then (KeepCharging, set_g_adcThreshold ADCTHRESHOLDHI s)
    else
      let s := set_g_adcThreshold ADCTHRESHOLDLOW s in
      let s := turnOffLed s in
      (StopCharging, sleep_tail s)
  else
    let s := turnOnLed s in
    (Fault, sleep_tail s).

(** The [else] branch of the input-voltage test. *)
Definition double_blink (s : mcu) : mcu :=
  let s := turnOffLed s in
  N.iter 4 toggleLed s.

(** Everything the environment contributes to one pass. *)
Record pass_env : Type := mkPassEnv {
  input_read : conversion;
  schedule : list wait_step;
  reference_reads : nat -> conversion
}.

Definition main_pass (env : pass_env) (s : mcu) : option (branch * mcu) :=
  let '(adc, s) := getAdcValueBusyWait (input_read env) s in
  if adc >? MINVOLTAGEADCVALUE
  then
    match busy_wait (schedule env) (start_listening s) with
    | Some s => Some (conclude (reference_reads env) s)
    | None => None
    end
  else Some (LowInput, sleep_tail (double_blink s)).

(** Successive passes of [while (1)]; the result lists, for each pass, the
    branch taken and the state it leaves. *)
Fixpoint main_loop (envs : list pass_env) (s : mcu)
    : option (list (branch * mcu)) :=
  match envs with
  | [] => Some []
  | env :: envs =>
      match main_pass env s with
      | None => None
      | Some (b, s') =>
          match main_loop envs s' with
          | None => None
          | Some h => Some ((b, s') :: h)
          end
      end
  end.

(** PB3 driven as an output switches the client's supply on. *)
Definition client_on (s : mcu) : bool := Z.testbit (DDRB s) 3.

Definition led_on (s : mcu) : bool := Z.testbit (PORTB s) 1.

(** The decoder's variables and the timer and INT0 registers it programs. *)
Definition decoder_view (s : mcu)
    : ReadDataState * Z * Z * Z * Z * Z * Z * Z :=
  (g_readDataState s, g_incomingCount s, g_idleTimeoutCount s,
   TCNT0 s, OCR0A s, TCCR0B s, EICRA s, EIMSK s).

(** The state with the LED bookkeeping and the converter's registers
    blanked: what the blinking and sampling helpers leave alone. *)
Definition control (s : mcu) : mcu :=
  set_g_ledBlinkCount 0 (set_PORTB 0 (set_ADCSRA 0 (set_PRR 0 s))).

(** The passes of a run as (state before, branch, state after). *)
Fixpoint transitions (s : mcu) (h : list (branch * mcu))
    : list (mcu * branch * mcu) :=
  match h with
  | [] => []
  | (b, s') :: h => (s, b, s') :: transitions s' h
  end.

(** What the hysteresis asks of one pass, from the state [s] it starts in
    to the state [s'] it leaves, given the branch [b] it took. *)
Definition hysteresis_step (t : mcu * branch * mcu) : Prop :=
  let '(s, b, s') := t in
  (b = KeepCharging ->
     g_adcThreshold s' = ADCTHRESHOLDHI /\ client_on s' = true)
  /\ (g_adcThreshold s = ADCTHRESHOLDHI -> b <> StopCharging ->
      g_adcThreshold s' = ADCTHRESHOLDHI)
  /\ (g_adcThreshold s' = ADCTHRESHOLDLOW ->
      g_adcThreshold s <> ADCTHRESHOLDLOW ->
      b = StopCharging /\ client_on s' = false).

(** *** Sample environments *)

(** The requests a frame of [v] ticks raises when the verification timer
    expires during the trigger and the reading timer after the last tick. *)
Definition frame_irqs (v : nat) : list irq :=
  [INT0_vect; TIM0_COMPA_vect 0] ++ repeat INT0_vect v
  ++ [TIM0_COMPA_vect (_BV 2)].

(** A pass with input reading [vin], the requests [es] during the busy
    wait, and every reference conversion reading [r]. *)
Definition sample_pass (vin : Z) (es : list irq) (r : Z) : pass_env :=
  {| input_read := mkConversion 2 vin;
     schedule := map Irq es;
     reference_reads := fun _ => mkConversion 2 r |}.

Definition sample_run : list pass_env :=
  [ sample_pass 200 (frame_irqs 109) 104;
    sample_pass 200 (frame_irqs 120) 104;
    sample_pass 150 [] 104;
    sample_pass 200 (frame_irqs 109) 104 ].

Definition history_of (r : option (list (branch * mcu)))
    : list (branch * mcu) :=
  match r with
  | Some h => h
  | None => []
  end.

Definition history_of_pass (r : option (branch * mcu)) : branch * mcu :=
  match r with
  | Some p => p
  | None => (LowInput, initializeRegisters)
  end.

Definition sample_history : list (branch * mcu) :=
  Eval vm_compute in history_of (main_loop sample_run initializeRegisters).

(** *** Register discipline of the decoder *)

(** How the decoder's registers stand in each state: INT0 enabled on low
    level with the timer running to [MAXTIMEOUT] in Idle, INT0 masked with
    the timer running to the verification timeout in VerifyTrigger, INT0
    enabled on falling edges with the timer running to the reading timeout
    in Reading, INT0 masked and the timer stopped in Timeout and Error; the
    counters within their ranges throughout. *)
Definition well_configured (s : mcu) : Prop :=
  0 <= g_incomingCount s < 65536
  /\ 0 <= g_idleTimeoutCount s <= MAXTIMEOUTCOUNT
  /\ match g_readDataState s with
     | Read_Idle =>
         EIMSK s = 0x01 /\ EICRA s = 0x00 /\ OCR0A s = MAXTIMEOUT
         /\ TCCR0B s = 0x04
     | Read_VerifyTrigger =>
         EIMSK s = 0x00 /\ OCR0A s = VERIFYTRIGGERTIMEOUT /\ TCCR0B s = 0x04
     | Read_Reading =>
         EIMSK s = 0x01 /\ EICRA s = 0x02 /\ OCR0A s = READINGTIMEOUT
         /\ TCCR0B s = 0x04
     | Read_Timeout | Read_Error =>
         EIMSK s = 0x00 /\ TCCR0B s = 0x00
     end.

End Master.

(** ** The client node *)
Module Client.

Definition TRIGGERTIMEOUTCOUNT : N := 256.
Definition TRANSMITDELAYCOUNT : N := 128.
Definition ADCITERATIONS : Z := 3.
Definition ADCREADDELAYMS : N := 10.
Definition BRIEFBLINKDELAYMS : N := 50.
Definition MAXVOLTAGEADCVALUE : Z := 237.
Definition BLINKTOGGLEVALUE : Z := 16384.

(** Time passes in the busy loops, counted in passes of the loop body, and
    in [_delay_ms], counted in milliseconds. *)
Inductive span : Set :=
| Passes (n : N)
| Millis (n : N).

(** One stretch of the data wire: the level of PB2 and how long it lasts. *)
Definition hold : Set := (bool * span)%type.

(** The globals and registers of the client's [main.c]; [wire] records,
    oldest first, what the delays of the program leave on PB2. *)
Record mcu : Set := mkMcu {
  g_ledBlinkCount : Z;
  PORTB : Z;
  ADCSRA : Z;
  PRR : Z;
  wire : list hold
}.

Definition set_g_ledBlinkCount (v : Z) (s : mcu) : mcu :=
  mkMcu v (PORTB s) (ADCSRA s) (PRR s) (wire s).
Definition set_PORTB (v : Z) (s : mcu) : mcu :=
  mkMcu (g_ledBlinkCount s) v (ADCSRA s) (PRR s) (wire s).
Definition set_ADCSRA (v : Z) (s : mcu) : mcu :=
  mkMcu (g_ledBlinkCount s) (PORTB s) v (PRR s) (wire s).
Definition set_PRR (v : Z) (s : mcu) : mcu :=
  mkMcu (g_ledBlinkCount s) (PORTB s) (ADCSRA s) v (wire s).
Definition set_wire (v : list hold) (s : mcu) : mcu :=
  mkMcu (g_ledBlinkCount s) (PORTB s) (ADCSRA s) (PRR s) v.

(** Level of the data output PB2. *)
Definition line (s : mcu) : bool := Z.testbit (PORTB s) 2.

Definition led_on (s : mcu) : bool := Z.testbit (PORTB s) 1.

(** State after [initializeRegisters]: PB2 high, nothing sent yet. *)
Definition initializeRegisters : mcu :=
  {| g_ledBlinkCount := 0;
     PORTB := _BV 2;
     ADCSRA := 0x83;
     PRR := 0;
     wire := [] |}.

Definition elapse (d : span) (s : mcu) : mcu :=
  set_wire (wire s ++ [(line s, d)]) s.

Definition _delay_ms (ms : N) (s : mcu) : mcu := elapse (Millis ms) s.

Definition toggleLed (s : mcu) : mcu :=
  if truthy (Z.land (PORTB s) (_BV 1))
  then set_PORTB (Z.land (PORTB s) (Z.lnot (_BV 1))) s
  else set_PORTB (Z.lor (PORTB s) (_BV 1)) s.

Definition turnOnLed (s : mcu) : mcu :=
  set_PORTB (Z.lor (PORTB s) (_BV 1)) s.

Definition turnOffLed (s : mcu) : mcu :=
  set_PORTB (Z.land (PORTB s) (Z.lnot (_BV 1))) s.

Definition incrementAndBlinkLed (s : mcu) : mcu :=
  let s := set_g_ledBlinkCount (u16 (g_ledBlinkCount s + 1)) s in
  if negb (truthy (g_ledBlinkCount s mod BLINKTOGGLEVALUE))
  then toggleLed s else s.

(** [for (i = 0; i < n; i++) incrementAndBlinkLed();] *)
Definition spin (n : N) (s : mcu) : mcu :=
  elapse (Passes n) (N.iter n incrementAndBlinkLed s).

Definition startADC (s : mcu) : mcu :=
  set_ADCSRA (Z.lor (ADCSRA s) 0x40) s.

Definition adcValue (c : conversion) : Z := u8 (ADCL c).

Definition getAdcValueBusyWait (c : conversion) (s : mcu) : Z * mcu :=
  let s := startADC s in
  let s := spin (wait_spins c) s in
  let s := set_ADCSRA (Z.land (ADCSRA s) (Z.lnot 0x40)) s in
  (adcValue c, s).

Definition transmitOneTick (s : mcu) : mcu :=
  let s := set_PORTB (Z.land (PORTB s) (Z.lnot (_BV 2))) s in
  let s := spin TRANSMITDELAYCOUNT s in
  let s := set_PORTB (Z.lor (PORTB s) (_BV 2)) s in
  spin TRANSMITDELAYCOUNT s.

Definition triggerRead (s : mcu) : mcu :=
  let s := set_PORTB (Z.land (PORTB s) (Z.lnot (_BV 2))) s in
  let s := spin TRIGGERTIMEOUTCOUNT s in
  let s := set_PORTB (Z.lor (PORTB s) (_BV 2)) s in
  spin TRANSMITDELAYCOUNT s.

Definition outputDataError (s : mcu) : mcu :=
  let s := set_PORTB (Z.land (PORTB s) (Z.lnot (_BV 2))) s in
  let s := turnOffLed s in
  let s := _delay_ms BRIEFBLINKDELAYMS s in
  turnOnLed s.

Definition resetAndStart (s : mcu) : mcu := turnOffLed s.

(** The sampling loop at the top of [while (1)]. *)
Fixpoint adc_loop (k i : nat) (convs : nat -> conversion) (adcvalue : Z)
    (s : mcu) : Z * mcu :=
  match k with
  | O => (adcvalue, s)
  | S k =>
      let s := if (0 <? i)%nat then _delay_ms ADCREADDELAYMS s else s in
      let '(v, s) := getAdcValueBusyWait (convs i) s in
      adc_loop k (S i) convs (u16 (adcvalue + v)) s
  end.

Definition sample (convs : nat -> conversion) (s : mcu) : Z * mcu :=
  let '(adcvalue, s) := adc_loop (Z.to_nat ADCITERATIONS) 0 convs 0 s in
  (adcvalue / ADCITERATIONS, s).

(** The test on the averaged sample. *)
Definition invalid (adcvalue : Z) : bool :=
  (adcvalue >? MAXVOLTAGEADCVALUE) || (adcvalue =? 0).

(** The [else] branch: trigger, one tick per count, short LED blink. *)
Definition transmit (adcvalue : Z) (s : mcu) : mcu :=
  let s := triggerRead s in
  let s := N.iter (Z.to_N adcvalue) transmitOneTick s in
  let s := turnOnLed s in
  let s := _delay_ms BRIEFBLINKDELAYMS s in
  turnOffLed s.

Definition report (adcvalue : Z) (s : mcu) : mcu :=
  if invalid adcvalue then outputDataError s else transmit adcvalue s.

(** Power down and sleep until the watchdog wakes the node; the ports keep
    their levels meanwhile. *)
Definition sleep_tail (s : mcu) : mcu :=
  let s := set_ADCSRA (Z.land (ADCSRA s) 0x7F) s in
  let s := set_PRR 0x03 s in
  let s := set_PRR 0x00 s in
  set_ADCSRA (Z.lor (ADCSRA s) 0x80) s.

Definition main_pass (convs : nat -> conversion) (s : mcu) : mcu :=
  let s := resetAndStart s in
  let '(adcvalue, s) := sample convs s in
  let s := report adcvalue s in
  sleep_tail s.

(** The frame of [n] ticks as a waveform: trigger hold, return to high,
    [n] low/high pairs, and the high level held during the closing LED
    blink. *)
Definition tick_wave : list hold :=
  [(false, Passes TRANSMITDELAYCOUNT); (true, Passes TRANSMITDELAYCOUNT)].

Definition frame_wave (n : nat) : list hold :=
  [(false, Passes TRIGGERTIMEOUTCOUNT); (true, Passes TRANSMITDELAYCOUNT)]
  ++ concat (repeat tick_wave n)
  ++ [(true, Millis BRIEFBLINKDELAYMS)].

(** Falling and rising edges in a waveform that follows a wire at level
    [prev]. *)
Fixpoint falling_edges (prev : bool) (w : list hold) : nat :=
  match w with
  | [] => O
  | (l, _) :: w =>
      ((if prev && negb l then 1 else 0) + falling_edges l w)%nat
  end.

Fixpoint rising_edges (prev : bool) (w : list hold) : nat :=
  match w with
  | [] => O
  | (l, _) :: w =>
      ((if negb prev && l then 1 else 0) + rising_edges l w)%nat
  end.

End Client.

(** ** The receiving node's interrupt hardware against the wire

    The routines of [Master] run when the ATtiny's hardware raises their
    requests.  This module is that environment: INT0 as [EICRA] and
    [EIMSK] program it, and Timer0 in normal mode behind the clk/256
    prescaler that [TCCR0B] selects, advanced one CPU clock at a time
    while the wire holds a level.  Interrupt latency and the run time of
    the routines are not counted. *)
Module Wire.

Import Master.

(** The decoder's processor together with the two pieces of hardware
    state its interrupts depend on: the free-running prescaler that
    divides the CPU clock by 256 for Timer0, and the level INT0's edge
    detector saw on the previous clock. *)
Record receiver : Set := mkReceiver {
  cpu : mcu;
  prescaler : Z;
  last_level : bool
}.

(** [PINB] as read while the wire is at [level] (PB2 is the data input). *)
Definition PINB_at (level : bool) : Z := if level then _BV 2 else 0.

(** [TCCR0B |= 0x04] selects clk/256: the timer counts while CS0[2:0] is
    100. *)
Definition timer_running (s : mcu) : bool :=
  Z.land (TCCR0B s) 0x07 =? 0x04.

(** INT0 sense control, [EICRA] bits 1:0. *)
Definition int0_sense (level : bool) (r : receiver) : bool :=
  match Z.land (EICRA (cpu r)) 0x03 with
  | 0 => negb level
  | 1 => xorb (last_level r) level
  | 2 => last_level r && negb level
  | _ => negb (last_level r) && level
  end.

(** An INT0 request is raised when the interrupt is enabled in [EIMSK]
    and the sense condition holds. *)
Definition int0_fires (level : bool) (r : receiver) : bool :=
  Z.testbit (EIMSK (cpu r)) 0 && int0_sense level r.

(** The timer's share of a CPU clock on which the prescaler shows [p]:
    when it has wrapped with the timer running TCNT0 counts, an overflow
    to 0 raises TIM0_OVF and equality with OCR0A raises TIM0_COMPA. *)
Definition timer_clock (level : bool) (p : Z) (s : mcu) : mcu :=
  if timer_running s && (p =? 0)
  then
    let s := set_TCNT0 (u16 (TCNT0 s + 1)) s in
    let s := if TCNT0 s =? 0 then ISR_TIM0_OVF s else s in
    if TCNT0 s =? OCR0A s then ISR_TIM0_COMPA (PINB_at level) s else s
  else s.

(** One CPU clock with the wire at [level]: a raised INT0 request is
    served, the prescaler advances, the timer takes its share. *)
Definition clock (level : bool) (r : receiver) : receiver :=
  let s := if int0_fires level r then ISR_INT0 (cpu r) else cpu r in
  let p := (prescaler r + 1) mod 256 in
  {| cpu := timer_clock level p s; prescaler := p; last_level := level |}.

Definition hold_for (n : N) (level : bool) (r : receiver) : receiver :=
  N.iter n (clock level) r.

(** CPU clocks in a stretch of the sender's program, when one pass of its
    busy loop takes [c] clocks. *)
Definition clocks (c : N) (d : Client.span) : N :=
  match d with
  | Client.Passes n => (n * c)%N
  | Client.Millis ms => (ms * (F_CPU / 1000))%N
  end.

Definition receive (c : N) (w : list Client.hold) (r : receiver)
    : receiver :=
  fold_left (fun r h => hold_for (clocks c (snd h)) (fst h) r) w r.

(** A receiver waiting in Idle as [resetReadStateToIdle] leaves it. *)
Definition listening (r : receiver) : Prop :=
  g_readDataState (cpu r) = Read_Idle
  /\ EIMSK (cpu r) = 0x01
  /\ EICRA (cpu r) = 0x00
  /\ (TCCR0B (cpu r) = 0x00 \/ TCCR0B (cpu r) = 0x04)
  /\ 0 <= prescaler r < 256.

(** Clocks the timer has counted since it was last reset: TCNT0 and the
    prescaler read as one number. *)
Definition elapsed (r : receiver) : Z := TCNT0 (cpu r) * 256 + prescaler r.

(** The receiver [n] clocks on when no interrupt is raised meanwhile: the
    timer has counted on and the edge detector has seen [level]. *)
Definition coasted (n : Z) (level : bool) (r : receiver) : receiver :=
  {| cpu := set_TCNT0 ((elapsed r + n) / 256) (cpu r);
     prescaler := (elapsed r + n) mod 256;
     last_level := level |}.

(** INT0 cannot be raised by the wire going to, or staying at, [level]:
    it is masked, or it senses falling edges and there is none. *)
Definition int0_blocked (level : bool) (r : receiver) : Prop :=
  EIMSK (cpu r) = 0x00
  \/ (EIMSK (cpu r) = 0x01 /\ EICRA (cpu r) = 0x02
      /\ (last_level r = false \/ level = true)).

Definition timer_counting (r : receiver) : Prop :=
  TCCR0B (cpu r) = 0x04
  /\ 0 <= TCNT0 (cpu r)
  /\ 0 <= prescaler r < 256
  /\ 0 < OCR0A (cpu r) <= 0xFFFF.

(** The decoder in VerifyTrigger, [t] clocks into the verification window. *)
Definition verifying (t : Z) (r : receiver) : Prop :=
  g_readDataState (cpu r) = Read_VerifyTrigger
  /\ EIMSK (cpu r) = 0x00
  /\ OCR0A (cpu r) = VERIFYTRIGGERTIMEOUT
  /\ TCCR0B (cpu r) = 0x04
  /\ 0 <= TCNT0 (cpu r)
  /\ 0 <= prescaler r < 256
  /\ elapsed r = t.

(** The decoder in Reading, [t] clocks into the reading window, having
    counted [count] edges, the wire last seen at [level]. *)
Definition reading (count t : Z) (level : bool) (r : receiver) : Prop :=
  g_readDataState (cpu r) = Read_Reading
  /\ g_incomingCount (cpu r) = count
  /\ EIMSK (cpu r) = 0x01
  /\ EICRA (cpu r) = 0x02
  /\ OCR0A (cpu r) = READINGTIMEOUT
  /\ TCCR0B (cpu r) = 0x04
  /\ 0 <= TCNT0 (cpu r)
  /\ 0 <= prescaler r < 256
  /\ elapsed r = t
  /\ last_level r = level.

(** Nominal timing, for a sender whose busy-loop pass takes [c] clocks:
    the trigger is held at least as long as the verification window, and
    the longest frame (the maximum count) fits in the reading window. *)
Definition nominal_timing (c : N) : Prop :=
  VERIFYTRIGGERTIMEOUT * 256 <= Z.of_N (Client.TRIGGERTIMEOUTCOUNT * c)
  /\ Z.of_N ((Client.TRIGGERTIMEOUTCOUNT + Client.TRANSMITDELAYCOUNT
              + 2 * Client.TRANSMITDELAYCOUNT
                * Z.to_N Client.MAXVOLTAGEADCVALUE) * c)
     <= READINGTIMEOUT * 256.

(** The decoder done with the cycle: timer stopped, INT0 masked. *)
Definition finished (st : ReadDataState) (count : Z) (r : receiver) : Prop :=
  g_readDataState (cpu r) = st
  /\ g_incomingCount (cpu r) = count
  /\ EIMSK (cpu r) = 0x00
  /\ TCCR0B (cpu r) = 0x00.

(** Clocks between two overflows of the 16-bit timer behind the
    prescaler. *)
Definition overflow_period : Z := 65536 * 256.

(** The decoder in Idle with [k] overflows counted, [t] clocks after the
    timer last started from zero. *)
Definition idling (k t : Z) (r : receiver) : Prop :=
  g_readDataState (cpu r) = Read_Idle
  /\ g_idleTimeoutCount (cpu r) = k
  /\ EIMSK (cpu r) = 0x01
  /\ EICRA (cpu r) = 0x00
  /\ OCR0A (cpu r) = MAXTIMEOUT
  /\ TCCR0B (cpu r) = 0x04
  /\ 0 <= TCNT0 (cpu r)
  /\ 0 <= prescaler r < 256
  /\ elapsed r = t.

End Wire.

(** * Properties *)

(** Discharge the first premise of [H] with [tac]. *)
Ltac feed H tac :=
  match type of H with
  | ?A -> _ =>
      let h := fresh "premise" in
      assert (h : A) by tac; specialize (H h); clear h
  end.

(** ** The decoder's interrupt service routines *)
Section Decoder.

Import Master.

Lemma ReadDataState_eqb_eq (a b : ReadDataState) :
  ReadDataState_eqb a b = true <-> a = b.
Proof. destruct a, b; simpl; split; congruence. Qed.

Lemma error_is_absorbing (es : list irq) (s : mcu) :
  g_readDataState s = Read_Error ->
  serve_all es s = s /\ error_entries es s = O.
Proof.
  intros Herr. induction es as [|e es IH]; simpl; [now split|].
  assert (Hs : serve e s = s).
  { destruct e; unfold serve, ISR_INT0, ISR_TIM0_COMPA, ISR_TIM0_OVF, ISR_WDT;
      now rewrite ?Herr. }
  rewrite Hs, Herr. simpl. exact IH.
Qed.

Lemma silence_counts (es : list irq) :
  forall s : mcu,
    g_readDataState s = Read_Idle ->
    0 <= g_idleTimeoutCount s <= MAXTIMEOUTCOUNT ->
    silent es = true ->
    let n := g_idleTimeoutCount s + Z.of_nat (overflows es) in
    let s' := serve_all es s in
    (n <= MAXTIMEOUTCOUNT ->
       g_readDataState s' = Read_Idle /\ g_idleTimeoutCount s' = n
       /\ error_entries es s = O)
    /\ (MAXTIMEOUTCOUNT < n ->
         g_readDataState s' = Read_Error /\ g_idleTimeoutCount s' = 0
         /\ error_entries es s = 1%nat).
Proof.
  unfold MAXTIMEOUTCOUNT.
  induction es as [|e es IH]; intros s Hidle Hk Hsil; simpl in Hsil |- *.
  - unfold overflows; simpl. split; intros; [repeat split; trivial; lia | lia].
  - apply andb_true_iff in Hsil. destruct Hsil as [He Hsil].
    destruct e; simpl in He; try discriminate.
    + (* compare match in Idle *)
      assert (Hs : ISR_TIM0_COMPA pinb s = s)
        by (unfold ISR_TIM0_COMPA; now rewrite Hidle).
      unfold overflows in *; simpl. rewrite Hs, Hidle; simpl.
      exact (IH s Hidle Hk Hsil).
    + (* overflow *)
      unfold overflows in *. cbn [filter is_overflow length].
      rewrite Nat2Z.inj_succ. rewrite Hidle. cbn [ReadDataState_eqb negb andb].
      destruct s as [st ic lc th it pb dd pu tc oc tb ea em ad pr].
      simpl in Hidle, Hk. subst st.
      cbn [serve_all fold_left error_entries serve].
      unfold ISR_TIM0_OVF; simpl. unfold u16, MAXTIMEOUTCOUNT.
      rewrite Z.mod_small by lia.
      destruct (it + 1 >? 5) eqn:Hgt.
      * apply Z.gtb_lt in Hgt.
        match goal with |- context [serve_all es ?t] =>
          destruct (error_is_absorbing es t eq_refl) as [Hfix Hent] end.
        simpl. rewrite Hfix, Hent. simpl.
          split; intros; [lia | now repeat split].
      * assert (Hle : it + 1 <= 5)
          by (rewrite Z.gtb_ltb in Hgt; apply Z.ltb_ge in Hgt; lia).
        match goal with |- context [serve_all es ?t] =>
          specialize (IH t eq_refl) end.
        simpl in IH. specialize (IH ltac:(lia) Hsil).
        simpl. destruct IH as [IH1 IH2].
        split; intros Hn.
        -- destruct IH1 as (A & B & C); [lia|]. repeat split; trivial; lia.
        -- destruct IH2 as (A & B & C); [lia|]. now repeat split.
    + (* watchdog *)
      unfold overflows in *; simpl. unfold ISR_WDT. rewrite Hidle; simpl.
      exact (IH s Hidle Hk Hsil).
Qed.

Lemma done_is_absorbing (e : irq) (s : mcu) :
  reading_done s = true -> serve e s = s.
Proof.
  unfold reading_done. intros H. apply orb_true_iff in H.
  destruct H as [H|H]; apply ReadDataState_eqb_eq in H;
    destruct e; unfold serve, ISR_INT0, ISR_TIM0_COMPA, ISR_TIM0_OVF, ISR_WDT;
    now rewrite ?H.
Qed.

Lemma busy_wait_serves (es : list irq) :
  forall s : mcu,
    reading_done (serve_all es s) = true ->
    busy_wait (map Irq es) s = Some (serve_all es s).
Proof.
  induction es as [|e es IH]; intros s Hdone; simpl in *.
  - now rewrite Hdone.
  - destruct (reading_done s) eqn:Hs.
    + rewrite (done_is_absorbing e s Hs) in *.
      assert (Hfix : forall l, serve_all l s = s).
      { induction l as [|x l IHl]; simpl; trivial.
        now rewrite (done_is_absorbing x s Hs). }
      unfold serve_all in Hfix. now rewrite Hfix.
    + now apply IH.
Qed.

Lemma serve_all_app (l1 l2 : list irq) (s : mcu) :
  serve_all (l1 ++ l2) s = serve_all l2 (serve_all l1 s).
Proof. unfold serve_all. apply fold_left_app. Qed.

Lemma glitch_from_idle (pinb : Z) (s : mcu) :
  g_readDataState s = Read_Idle ->
  truthy (readPinB2 pinb) = true ->
  let s' := serve_all [INT0_vect; TIM0_COMPA_vect pinb] s in
  g_readDataState (serve INT0_vect s) = Read_VerifyTrigger
  /\ g_readDataState s' = Read_Idle
  /\ g_idleTimeoutCount s' = 0
  /\ g_incomingCount s' = g_incomingCount s
  /\ EIMSK s' = 0x01.
Proof.
  intros Hidle Hpin. simpl.
  unfold ISR_INT0. rewrite Hidle. unfold ISR_TIM0_COMPA. simpl.
  rewrite Hpin. simpl. now repeat split.
Qed.

Lemma glitchy_idle_cons (k : nat) (rounds : list nat) (tail : nat) :
  glitchy_idle (k :: rounds) tail
  = (repeat TIM0_OVF_vect k ++ glitch) ++ glitchy_idle rounds tail.
Proof.
  unfold glitchy_idle. cbn [flat_map]. now rewrite <- app_assoc.
Qed.

Lemma tracked_not_error (pulse : bool) (idle : nat) (s : mcu) :
  tracked pulse idle s ->
  (g_readDataState s = Read_Idle \/ g_readDataState s = Read_VerifyTrigger)
  /\ g_readDataState s <> Read_Error.
Proof.
  destruct pulse; cbn [tracked].
  - intros ->. split; [now right | discriminate].
  - intros (-> & _). split; [now left | discriminate].
Qed.

(** Serving a request list that passes [glitches_in_time] never leaves
    Idle and VerifyTrigger, whatever prefix of it has been served. *)
Lemma glitches_keep_listening (es : list irq) :
  forall (pulse : bool) (idle : nat) (s : mcu) (n : nat),
    tracked pulse idle s ->
    glitches_in_time pulse idle es = true ->
    exists pulse' idle', tracked pulse' idle' (serve_all (firstn n es) s).
Proof.
  induction es as [|e es IH]; intros pulse idle s n Ht Hg.
  - rewrite firstn_nil. now exists pulse, idle.
  - destruct n as [|n]; [now exists pulse, idle|].
    cbn [firstn serve_all fold_left].
    change (fold_left (fun s e => serve e s) (firstn n es) (serve e s))
      with (serve_all (firstn n es) (serve e s)).
    destruct e as [|pinb| |]; destruct pulse;
      cbn [glitches_in_time tracked serve] in Hg, Ht |- *.
    + (* line request, pulse open: ignored *)
      apply (IH true idle); trivial. cbn [tracked].
      unfold ISR_INT0. now rewrite Ht.
    + (* line request in Idle: the pulse opens *)
      destruct Ht as (Hst & _). apply (IH true idle); trivial.
      cbn [tracked]. unfold ISR_INT0. now rewrite Hst.
    + (* compare match closing the pulse: PB2 high, back to Idle *)
      apply andb_true_iff in Hg. destruct Hg as [Hpin Hg].
      apply (IH false O); trivial. cbn [tracked].
      unfold ISR_TIM0_COMPA. rewrite Ht, Hpin. cbn.
      unfold MAXTIMEOUTCOUNT. repeat split; trivial; lia.
    + (* compare match in Idle: ignored *)
      destruct Ht as (Hst & Hc & Hi). apply (IH false idle); trivial.
      cbn [tracked]. unfold ISR_TIM0_COMPA. now rewrite Hst.
    + (* overflow, pulse open: ignored *)
      apply (IH true idle); trivial. cbn [tracked].
      unfold ISR_TIM0_OVF. now rewrite Ht.
    + (* overflow in Idle: counted, still within the maximum *)
      destruct Ht as (Hst & Hc & Hi).
      apply andb_true_iff in Hg. destruct Hg as [Hle Hg].
      apply Z.leb_le in Hle.
      apply (IH false (S idle)); trivial. cbn [tracked].
      unfold ISR_TIM0_OVF. rewrite Hst, Hc.
      cbn [g_idleTimeoutCount set_g_idleTimeoutCount].
      unfold u16. rewrite Nat2Z.inj_succ in *. unfold MAXTIMEOUTCOUNT in *.
      rewrite Z.mod_small by lia.
      replace (Z.succ (Z.of_nat idle)) with (Z.of_nat idle + 1) by lia.
      replace (Z.of_nat idle + 1 >? 5) with false
        by (symmetry; rewrite Z.gtb_ltb; apply Z.ltb_ge; lia).
      cbn. repeat split; trivial; lia.
    + (* watchdog *)
      apply (IH true idle); trivial.
    + apply (IH false idle); trivial.
Qed.

(** Overflows within the maximum pass [glitches_in_time]. *)
Lemma overflows_in_time (k : nat) :
  forall (idle : nat) (rest : list irq),
    Z.of_nat (idle + k) <= MAXTIMEOUTCOUNT ->
    glitches_in_time false idle (repeat TIM0_OVF_vect k ++ rest)
    = glitches_in_time false (idle + k) rest.
Proof.
  induction k as [|k IH]; intros idle rest Hk.
  - now rewrite Nat.add_0_r.
  - cbn [repeat app glitches_in_time].
    replace (Z.of_nat (S idle) <=? MAXTIMEOUTCOUNT) with true
      by (symmetry; apply Z.leb_le; lia).
    rewrite andb_true_l, IH by lia. f_equal. lia.
Qed.

(** C8.  An interrupt request for which the decoder's current state has no
    transition (a line request in VerifyTrigger, Timeout or Error; a
    compare match in Idle, Timeout or Error; an overflow outside Idle; the
    watchdog) leaves the whole processor state as it was, hence the decoder
    state, the edge counter and the idle-timeout counter; [serve] is a
    total function, so there is no request on which it is undefined. *)
Theorem out_of_state_request_is_noop (e : irq) (s : mcu) :
  defined_transition e (g_readDataState s) = false ->
  serve e s = s
  /\ g_readDataState (serve e s) = g_readDataState s
  /\ g_incomingCount (serve e s) = g_incomingCount s
  /\ g_idleTimeoutCount (serve e s) = g_idleTimeoutCount s.
Proof.
  intros H.
  assert (Hs : serve e s = s).
  { destruct e; simpl in *;
      unfold ISR_INT0, ISR_TIM0_COMPA, ISR_TIM0_OVF, ISR_WDT;
      destruct (g_readDataState s); trivial; discriminate. }
  rewrite Hs. now repeat split.
Qed.

Lemma out_of_state_request_is_noop_witness :
  let s := set_g_readDataState Read_Timeout initializeRegisters in
  serve INT0_vect s = s
  /\ g_readDataState (serve INT0_vect s) = g_readDataState s
  /\ g_incomingCount (serve INT0_vect s) = g_incomingCount s
  /\ g_idleTimeoutCount (serve INT0_vect s) = g_idleTimeoutCount s.
Proof.
  intros s. apply (out_of_state_request_is_noop INT0_vect s). reflexivity.
Defined.

(** C5.  When the verification timer expires and PB2 reads high, the
    decoder goes from VerifyTrigger straight back to Idle with INT0
    re-armed on low level; the edge counter keeps its value and Reading is
    not entered.  Seen from Idle, the whole pulse (line request, then that
    compare match) ends in Idle with the edge counter untouched. *)
Theorem glitch_returns_to_idle (pinb : Z) (s : mcu) :
  truthy (readPinB2 pinb) = true ->
  (g_readDataState s = Read_VerifyTrigger ->
     let s' := ISR_TIM0_COMPA pinb s in
     g_readDataState s' = Read_Idle
     /\ g_incomingCount s' = g_incomingCount s
     /\ EIMSK s' = 0x01 /\ EICRA s' = 0x00)
  /\ (g_readDataState s = Read_Idle ->
      let s' := serve_all [INT0_vect; TIM0_COMPA_vect pinb] s in
      g_readDataState s' = Read_Idle
      /\ g_incomingCount s' = g_incomingCount s).
Proof.
  intros Hpin. split.
  - intros Hv. unfold ISR_TIM0_COMPA. rewrite Hv, Hpin. simpl. now repeat split.
  - intros Hidle.
    pose proof (glitch_from_idle pinb s Hidle Hpin) as (_ & Hi & _ & Hc & _).
    now split.
Qed.

Lemma glitch_returns_to_idle_witness :
  let s := set_g_incomingCount 9
             (set_g_readDataState Read_VerifyTrigger initializeRegisters) in
  g_readDataState (ISR_TIM0_COMPA 4 s) = Read_Idle
  /\ g_incomingCount (ISR_TIM0_COMPA 4 s) = 9.
Proof.
  intros s.
  destruct (glitch_returns_to_idle 4 s eq_refl) as [H _].
  destruct (H eq_refl) as (A & B & _). split; [exact A | exact B].
Defined.

(** C6.  A decoder left in Idle with its idle-timeout count at zero, as
    [resetReadStateToIdle] leaves it, and receiving no line request: while
    the timer has overflowed at most [MAXTIMEOUTCOUNT] (5) times it is still
    in Idle and the count equals the number of overflows; from the sixth
    overflow on it is in Error with the count back at zero, it has entered
    Error exactly once, and the main loop's busy wait over these requests
    returns with that state. *)
Theorem silent_sender_times_out (es : list irq) (s : mcu) :
  g_readDataState s = Read_Idle ->
  g_idleTimeoutCount s = 0 ->
  silent es = true ->
  let s' := serve_all es s in
  (Z.of_nat (overflows es) <= MAXTIMEOUTCOUNT ->
     g_readDataState s' = Read_Idle
     /\ g_idleTimeoutCount s' = Z.of_nat (overflows es)
     /\ error_entries es s = O)
  /\ (MAXTIMEOUTCOUNT < Z.of_nat (overflows es) ->
      g_readDataState s' = Read_Error
      /\ g_idleTimeoutCount s' = 0
      /\ error_entries es s = 1%nat
      /\ busy_wait (map Irq es) s = Some s').
Proof.
  intros Hidle Hzero Hsil s'. subst s'.
  destruct (silence_counts es s Hidle) as [H1 H2]; trivial.
  { rewrite Hzero. unfold MAXTIMEOUTCOUNT. lia. }
  rewrite Hzero in H1, H2. simpl in H1, H2. split.
  - exact H1.
  - intros Hn. destruct (H2 Hn) as (A & B & C). repeat split; trivial.
    apply busy_wait_serves. unfold reading_done. now rewrite A.
Qed.

Lemma silent_sender_times_out_witness :
  let s := resetAndStartTimer (resetReadStateToIdle initializeRegisters) in
  g_readDataState (serve_all (repeat TIM0_OVF_vect 5) s) = Read_Idle
  /\ g_readDataState (serve_all (repeat TIM0_OVF_vect 6) s) = Read_Error.
Proof.
  intros s. split.
  - destruct (silent_sender_times_out (repeat TIM0_OVF_vect 5) s
                eq_refl eq_refl eq_refl) as [H _].
    apply H. vm_compute. discriminate.
  - destruct (silent_sender_times_out (repeat TIM0_OVF_vect 6) s
                eq_refl eq_refl eq_refl) as [_ H].
    apply H. reflexivity.
Defined.

(** C10.  Rejecting a glitch (compare match in VerifyTrigger with PB2
    high) puts the idle-timeout count back to zero.  Hence for any list of
    requests of all four kinds, in any order and whatever [PINB] reads, in
    which every pulse is closed as a glitch and no more than
    [MAXTIMEOUTCOUNT] (5) overflows are counted between two glitches, the
    decoder, started idle with its count at zero, is in Idle or
    VerifyTrigger and so not in Error after any prefix of the requests,
    however long the list.  The rounds of [glitchy_idle] (at most 5
    overflows, then a glitch, any number of times, then at most 5 more
    overflows) are such lists. *)
Theorem glitches_starve_silence_error :
  (forall (pinb : Z) (s : mcu),
      g_readDataState s = Read_VerifyTrigger ->
      truthy (readPinB2 pinb) = true ->
      g_idleTimeoutCount (ISR_TIM0_COMPA pinb s) = 0)
  /\ (forall (es : list irq) (n : nat) (s : mcu),
        g_readDataState s = Read_Idle ->
        g_idleTimeoutCount s = 0 ->
        glitches_in_time false O es = true ->
        let s' := serve_all (firstn n es) s in
        (g_readDataState s' = Read_Idle
         \/ g_readDataState s' = Read_VerifyTrigger)
        /\ g_readDataState s' <> Read_Error)
  /\ (forall (rounds : list nat) (tail : nat),
        Forall (fun k => Z.of_nat k <= MAXTIMEOUTCOUNT) rounds ->
        Z.of_nat tail <= MAXTIMEOUTCOUNT ->
        glitches_in_time false O (glitchy_idle rounds tail) = true).
Proof.
  split; [|split].
  - intros pinb s Hv Hpin. unfold ISR_TIM0_COMPA. now rewrite Hv, Hpin.
  - intros es n s Hidle Hzero Hg s'. subst s'.
    destruct (glitches_keep_listening es false O s n) as (p & i & Ht);
      trivial.
    + cbn [tracked]. unfold MAXTIMEOUTCOUNT. repeat split; trivial; lia.
    + exact (tracked_not_error p i _ Ht).
  - intros rounds tail Hall Htail.
    induction Hall as [|k rounds Hk Hall IH].
    + unfold glitchy_idle. cbn [flat_map app].
      rewrite <- (app_nil_r (repeat TIM0_OVF_vect tail)).
      now rewrite overflows_in_time.
    + rewrite glitchy_idle_cons, <- app_assoc, overflows_in_time by exact Hk.
      unfold glitch. cbn [app glitches_in_time].
      change (truthy (readPinB2 (_BV 2))) with true. exact IH.
Qed.

Lemma glitches_starve_silence_error_witness :
  let s := resetAndStartTimer (resetReadStateToIdle initializeRegisters) in
  let es := [TIM0_COMPA_vect 0x00; TIM0_OVF_vect; WDT_vect; TIM0_OVF_vect;
             TIM0_COMPA_vect 0x0F; TIM0_OVF_vect; TIM0_OVF_vect;
             TIM0_OVF_vect; INT0_vect; TIM0_OVF_vect; INT0_vect;
             TIM0_COMPA_vect 0x04; TIM0_OVF_vect; TIM0_OVF_vect;
             TIM0_COMPA_vect 0x00; TIM0_OVF_vect; TIM0_OVF_vect;
             TIM0_OVF_vect; INT0_vect; WDT_vect; TIM0_COMPA_vect 0xFF;
             TIM0_OVF_vect] in
  g_readDataState (serve_all (firstn 22 es) s) <> Read_Error
  /\ glitches_in_time false O (glitchy_idle [5; 3; 0; 5]%nat 5) = true.
Proof.
  intros s es. destruct glitches_starve_silence_error as (_ & H & K).
  split.
  - apply (H es 22%nat s); reflexivity.
  - apply K; [repeat constructor; vm_compute; discriminate
             | vm_compute; discriminate].
Defined.

End Decoder.

(** ** The charge controller *)
Section Controller.

Import Master.

Lemma truthy_bit1 (x : Z) : truthy (Z.land x (_BV 1)) = Z.testbit x 1.
Proof.
  assert (H : Z.land x (_BV 1) = if Z.testbit x 1 then 2 else 0).
  { apply Z.bits_inj'. intros m Hm. rewrite Z.land_spec.
    change (_BV 1) with (2 ^ 1). rewrite Z.pow2_bits_eqb by lia.
    destruct (Z.eqb_spec 1 m) as [<-|Hne].
    - rewrite andb_true_r. now destruct (Z.testbit x 1).
    - rewrite andb_false_r. destruct (Z.testbit x 1).
      + change 2 with (2 ^ 1). rewrite Z.pow2_bits_eqb by lia.
        symmetry. now apply Z.eqb_neq.
      + now rewrite Z.bits_0. }
  rewrite H. now destruct (Z.testbit x 1).
Qed.

Lemma led_on_turnOnLed (s : mcu) : led_on (turnOnLed s) = true.
Proof.
  unfold led_on, turnOnLed, set_PORTB. cbn [PORTB].
  rewrite Z.lor_spec. apply orb_true_r.
Qed.

Lemma led_on_turnOffLed (s : mcu) : led_on (turnOffLed s) = false.
Proof.
  unfold led_on, turnOffLed, set_PORTB. cbn [PORTB].
  rewrite Z.land_spec. apply andb_false_r.
Qed.

Lemma led_on_toggleLed (s : mcu) : led_on (toggleLed s) = negb (led_on s).
Proof.
  unfold toggleLed, led_on. rewrite truthy_bit1.
  destruct (Z.testbit (PORTB s) 1) eqn:E; unfold set_PORTB; cbn [PORTB negb].
  - rewrite Z.land_spec. apply andb_false_r.
  - rewrite Z.lor_spec. apply orb_true_r.
Qed.

(** *** What the LED and sampling helpers leave alone *)

Lemma control_toggleLed (s : mcu) : control (toggleLed s) = control s.
Proof. unfold toggleLed. now destruct (truthy _). Qed.

Lemma control_incrementAndBlinkLed (s : mcu) :
  control (incrementAndBlinkLed s) = control s.
Proof.
  unfold incrementAndBlinkLed.
  destruct (_ =? _); [rewrite control_toggleLed|]; reflexivity.
Qed.

Lemma control_spin (n : N) (s : mcu) : control (spin n s) = control s.
Proof.
  unfold spin. apply N.iter_invariant; trivial.
  intros x Hx. now rewrite control_incrementAndBlinkLed.
Qed.

Lemma control_getAdcValueBusyWait (c : conversion) (s : mcu) :
  control (snd (getAdcValueBusyWait c s)) = control s.
Proof.
  unfold getAdcValueBusyWait. simpl.
  change (control (spin (wait_spins c) (startADC s)) = control s).
  now rewrite control_spin.
Qed.

Lemma adc_loop_spec (k : nat) :
  forall (i : nat) (convs : nat -> conversion) (acc : Z) (s : mcu),
    0 <= acc < 65536 ->
    control (snd (adc_loop k i convs acc s)) = control s
    /\ 0 <= fst (adc_loop k i convs acc s) < 65536.
Proof.
  induction k as [|k IH]; intros i convs acc s Hacc.
  - now split.
  - change (adc_loop (S k) i convs acc s)
      with (adc_loop k (S i) convs (u16 (acc + adcValue (convs i)))
              (snd (getAdcValueBusyWait (convs i) s))).
    destruct (IH (S i) convs (u16 (acc + adcValue (convs i)))
                (snd (getAdcValueBusyWait (convs i) s))) as [A B].
    + unfold u16. apply Z.mod_pos_bound. lia.
    + split; [|exact B].
      rewrite A. apply control_getAdcValueBusyWait.
Qed.

Lemma averaging_spec (convs : nat -> conversion) (s : mcu) :
  control (snd (getAdcValueBusyWaitWithAveraging convs s)) = control s
  /\ 0 <= fst (getAdcValueBusyWaitWithAveraging convs s) < 16384.
Proof.
  unfold getAdcValueBusyWaitWithAveraging.
  destruct (adc_loop_spec (Z.to_nat ADCITERATIONS) 0 convs 0 s) as [A B];
    [lia|].
  destruct (adc_loop _ _ _ _ _) as [sum s1]. simpl in *.
  split; [exact A|]. unfold ADCITERATIONS.
  split; [apply Z.div_pos; lia | apply Z.div_lt_upper_bound; lia].
Qed.

(** The readings the averaging loop takes. *)
Lemma averaging_sum (convs : nat -> conversion) (s : mcu) :
  fst (getAdcValueBusyWaitWithAveraging convs s)
  = (adcValue (convs 0%nat) + adcValue (convs 1%nat)
     + adcValue (convs 2%nat) + adcValue (convs 3%nat)) / 4.
Proof.
  assert (Hb : forall i, 0 <= adcValue (convs i) < 256)
    by (intros i; unfold adcValue, u8; apply Z.mod_pos_bound; lia).
  pose proof (Hb 0%nat). pose proof (Hb 1%nat).
  pose proof (Hb 2%nat). pose proof (Hb 3%nat).
  change (fst (getAdcValueBusyWaitWithAveraging convs s))
    with (u16 (u16 (u16 (u16 (0 + adcValue (convs 0%nat))
                         + adcValue (convs 1%nat))
                    + adcValue (convs 2%nat))
               + adcValue (convs 3%nat)) / ADCITERATIONS).
  unfold u16, ADCITERATIONS.
  rewrite (Z.mod_small (0 + _)) by lia.
  rewrite (Z.mod_small (0 + _ + _)) by lia.
  rewrite (Z.mod_small (0 + _ + _ + _)) by lia.
  rewrite (Z.mod_small (0 + _ + _ + _ + _)) by lia.
  reflexivity.
Qed.

Lemma control_double_blink (s : mcu) : control (double_blink s) = control s.
Proof.
  unfold double_blink.
  change (N.iter 4 toggleLed (turnOffLed s))
    with (toggleLed (toggleLed (toggleLed (toggleLed (turnOffLed s))))).
  now rewrite !control_toggleLed.
Qed.

Lemma led_on_double_blink (s : mcu) : led_on (double_blink s) = false.
Proof.
  unfold double_blink.
  change (N.iter 4 toggleLed (turnOffLed s))
    with (toggleLed (toggleLed (toggleLed (toggleLed (turnOffLed s))))).
  now rewrite !led_on_toggleLed, led_on_turnOffLed.
Qed.

(** From equal [control] parts to the fields. *)
Lemma control_fields (s s' : mcu) :
  control s' = control s ->
  g_adcThreshold s' = g_adcThreshold s
  /\ DDRB s' = DDRB s /\ PUEB s' = PUEB s
  /\ decoder_view s' = decoder_view s.
Proof.
  intros H.
  change (g_adcThreshold (control s') = g_adcThreshold (control s)
          /\ DDRB (control s') = DDRB (control s)
          /\ PUEB (control s') = PUEB (control s)
          /\ decoder_view (control s') = decoder_view (control s)).
  now rewrite H.
Qed.

Lemma control_count (s s' : mcu) :
  control s' = control s -> g_incomingCount s' = g_incomingCount s.
Proof.
  intros H.
  change (g_incomingCount (control s') = g_incomingCount (control s)).
  now rewrite H.
Qed.

(** *** The sleep tail *)

Lemma heartbeats_spec (n : N) (s : mcu) :
  control (N.iter n heartbeat s) = control s
  /\ led_on (N.iter n heartbeat s) = led_on s.
Proof.
  apply (N.iter_invariant n _ heartbeat
           (fun x => control x = control s /\ led_on x = led_on s));
    [|split; reflexivity].
  intros x [Hc Hl]. unfold heartbeat, ISR_WDT.
  rewrite !control_toggleLed, !led_on_toggleLed, negb_involutive.
  split; assumption.
Qed.

Lemma sleep_tail_fields (s t : mcu) :
  let s1 := turnOffClient s in
  let s2 := set_PRR 0x03 (set_ADCSRA (Z.land (ADCSRA s1) 0x7F) s1) in
  control t = control s2 ->
  led_on t = led_on s2 ->
  let r := set_ADCSRA (Z.lor (ADCSRA (set_PRR 0x00 t)) 0x80) (set_PRR 0x00 t) in
  g_adcThreshold r = g_adcThreshold s
  /\ decoder_view r = decoder_view s
  /\ client_on r = false
  /\ led_on r = led_on s.
Proof.
  intros s1 s2 Hc Hl r.
  destruct (control_fields _ _ Hc) as (A & B & C & D).
  unfold client_on, led_on, decoder_view in *.
  injection D as D1 D2 D3 D4 D5 D6 D7 D8.
  subst r. cbn -[Z.testbit Z.land Z.lor Z.lnot].
  rewrite A, B, Hl, D1, D2, D3, D4, D5, D6, D7, D8. subst s2 s1.
  cbn -[Z.testbit Z.land Z.lor Z.lnot].
  repeat split. rewrite Z.land_spec. apply andb_false_r.
Qed.

Lemma sleep_tail_spec (s : mcu) :
  g_adcThreshold (sleep_tail s) = g_adcThreshold s
  /\ decoder_view (sleep_tail s) = decoder_view s
  /\ client_on (sleep_tail s) = false
  /\ led_on (sleep_tail s) = led_on s.
Proof.
  apply (sleep_tail_fields s
           (N.iter SLEEPDELAYCOUNT heartbeat
              (set_PRR 0x03
                 (set_ADCSRA (Z.land (ADCSRA (turnOffClient s)) 0x7F)
                    (turnOffClient s)))));
    apply heartbeats_spec.
Qed.

(** *** Listening *)

Lemma serve_keeps (e : irq) (s : mcu) :
  g_adcThreshold (serve e s) = g_adcThreshold s
  /\ DDRB (serve e s) = DDRB s.
Proof.
  destruct e; unfold serve, ISR_INT0, ISR_TIM0_COMPA, ISR_TIM0_OVF, ISR_WDT;
    destruct (g_readDataState s); simpl;
    repeat match goal with |- context [if ?b then _ else _] => destruct b end;
    now split.
Qed.

Lemma busy_wait_keeps (sched : list wait_step) :
  forall s s' : mcu,
    busy_wait sched s = Some s' ->
    g_adcThreshold s' = g_adcThreshold s
    /\ DDRB s' = DDRB s
    /\ reading_done s' = true.
Proof.
  induction sched as [|w sched IH]; intros s s' H; simpl in H.
  - destruct (reading_done s) eqn:Hd; [|discriminate].
    injection H as <-. now repeat split.
  - destruct (reading_done s) eqn:Hd.
    + injection H as <-. now repeat split.
    + destruct w as [|e].
      * destruct (IH _ _ H) as (A & B & C).
        destruct (control_fields _ _ (control_incrementAndBlinkLed s))
          as (A' & B' & _).
        rewrite A, B, A', B'. now repeat split.
      * destruct (IH _ _ H) as (A & B & C).
        destruct (serve_keeps e s) as [A' B'].
        rewrite A, B, A', B'. now repeat split.
Qed.

Lemma start_listening_fields (s t : mcu) :
  let s1 :=
    set_DDRB
      (Z.lor (DDRB (set_PUEB (Z.land (PUEB s) (Z.lnot (_BV 3))) s)) (_BV 3))
      (set_PUEB (Z.land (PUEB s) (Z.lnot (_BV 3))) s) in
  control t = control s1 ->
  let r := resetAndStartTimer (resetReadStateToIdle t) in
  g_adcThreshold r = g_adcThreshold s /\ client_on r = true.
Proof.
  intros s1 Hc r.
  destruct (control_fields _ _ Hc) as (A & B & _).
  unfold client_on. subst r. cbn -[Z.testbit Z.land Z.lor Z.lnot].
  rewrite A, B. subst s1. cbn -[Z.testbit Z.land Z.lor Z.lnot].
  split; trivial. rewrite Z.lor_spec. apply orb_true_r.
Qed.

Lemma start_listening_spec (s : mcu) :
  g_adcThreshold (start_listening s) = g_adcThreshold s
  /\ client_on (start_listening s) = true.
Proof.
  apply (start_listening_fields s
           (spin CLIENTDEBOUNCEDELAY
              (set_DDRB
                 (Z.lor (DDRB (set_PUEB (Z.land (PUEB s) (Z.lnot (_BV 3))) s))
                    (_BV 3))
                 (set_PUEB (Z.land (PUEB s) (Z.lnot (_BV 3))) s)))).
  apply control_spin.
Qed.

(** *** One pass of the main loop *)

Lemma main_pass_unfold (env : pass_env) (s : mcu) :
  main_pass env s
  = let s0 := snd (getAdcValueBusyWait (input_read env) s) in
    if adcValue (input_read env) >? MINVOLTAGEADCVALUE
    then
      match busy_wait (schedule env) (start_listening s0) with
      | Some s1 => Some (conclude (reference_reads env) s1)
      | None => None
      end
    else Some (LowInput, sleep_tail (double_blink s0)).
Proof. reflexivity. Qed.

Lemma conclude_timeout (convs : nat -> conversion) (s : mcu) :
  g_readDataState s = Read_Timeout ->
  let R := fst (getAdcValueBusyWaitWithAveraging convs s) in
  let s1 := snd (getAdcValueBusyWaitWithAveraging convs s) in
  conclude convs s
  = if (g_incomingCount s <? u16 (R + g_adcThreshold s))
       && (g_incomingCount s <? MAXVOLTAGEADCVALUE)
    then (KeepCharging, set_g_adcThreshold ADCTHRESHOLDHI s1)
    else (StopCharging,
          sleep_tail (turnOffLed (set_g_adcThreshold ADCTHRESHOLDLOW s1))).
Proof.
  intros Ht R s1. unfold conclude. rewrite Ht. cbn [ReadDataState_eqb].
  destruct (averaging_spec convs s) as [Hc _].
  destruct (control_fields _ _ Hc) as (A & _).
  pose proof (control_count _ _ Hc) as D2.
  subst R s1.
  destruct (getAdcValueBusyWaitWithAveraging convs s) as [adc s'].
  cbn [fst snd] in *. now rewrite A, D2.
Qed.

Lemma conclude_error (convs : nat -> conversion) (s : mcu) :
  g_readDataState s = Read_Error ->
  conclude convs s = (Fault, sleep_tail (turnOnLed s)).
Proof. intros He. unfold conclude. now rewrite He. Qed.

Lemma some_pair_inj (b b' : branch) (x x' : mcu) :
  Some (b, x) = Some (b', x') -> b = b' /\ x = x'.
Proof. intros H. injection H as -> ->. now split. Qed.

(** The threshold and the supply switch after a pass, by branch. *)
Lemma client_on_DDRB (s s' : mcu) :
  DDRB s' = DDRB s -> client_on s' = client_on s.
Proof. unfold client_on. now intros ->. Qed.

Lemma main_pass_threshold (env : pass_env) (s s' : mcu) (b : branch) :
  main_pass env s = Some (b, s') ->
  match b with
  | KeepCharging =>
      g_adcThreshold s' = ADCTHRESHOLDHI /\ client_on s' = true
  | StopCharging =>
      g_adcThreshold s' = ADCTHRESHOLDLOW /\ client_on s' = false
  | Fault | LowInput =>
      g_adcThreshold s' = g_adcThreshold s /\ client_on s' = false
  end.
Proof.
  rewrite main_pass_unfold. cbv zeta.
  destruct (control_fields _ _ (control_getAdcValueBusyWait (input_read env) s))
    as (H0 & _).
  revert H0. generalize (snd (getAdcValueBusyWait (input_read env) s)).
  intros s0 H0.
  destruct (_ >? _).
  - destruct (start_listening_spec s0) as [A0 C0].
    revert A0 C0. generalize (start_listening s0). intros sl A0 C0.
    destruct (busy_wait (schedule env) sl) as [s1|] eqn:Hw; [|discriminate].
    destruct (busy_wait_keeps _ _ _ Hw) as (A & B & Hd).
    assert (Hon : client_on s1 = true)
      by (rewrite (client_on_DDRB _ _ B); exact C0).
    unfold reading_done in Hd. apply orb_true_iff in Hd.
    destruct Hd as [Hd|Hd]; apply ReadDataState_eqb_eq in Hd.
    + rewrite (conclude_timeout _ _ Hd). cbv zeta.
      destruct (averaging_spec (reference_reads env) s1) as [Hc _].
      destruct (control_fields _ _ Hc) as (_ & B1 & _).
      revert B1.
      generalize
          (snd (getAdcValueBusyWaitWithAveraging (reference_reads env) s1)).
      intros s2 B1.
      destruct (_ && _); intros E; apply some_pair_inj in E;
        destruct E as [<- <-].
      * split; [reflexivity|].
        rewrite <- Hon. apply client_on_DDRB. exact B1.
      * destruct (sleep_tail_spec
                    (turnOffLed (set_g_adcThreshold ADCTHRESHOLDLOW s2)))
          as (T & _ & C & _).
        revert T C. generalize (sleep_tail
          (turnOffLed (set_g_adcThreshold ADCTHRESHOLDLOW s2))).
        intros t T C. split; [rewrite T; reflexivity | exact C].
    + rewrite (conclude_error _ _ Hd). intros E; apply some_pair_inj in E.
      destruct E as [<- <-].
      destruct (sleep_tail_spec (turnOnLed s1)) as (T & _ & C & _).
      revert T C. generalize (sleep_tail (turnOnLed s1)).
      intros t T C. split; [|exact C].
      rewrite T. cbn [g_adcThreshold turnOnLed set_PORTB]. congruence.
  - intros E; apply some_pair_inj in E. destruct E as [<- <-].
    destruct (sleep_tail_spec (double_blink s0)) as (T & _ & C & _).
    destruct (control_fields _ _ (control_double_blink s0)) as (D & _).
    revert T C. generalize (sleep_tail (double_blink s0)).
    intros t T C. split; [|exact C]. congruence.
Qed.

(** C2.  A pass whose input reading is above the minimum and whose busy
    wait ends with the decoder in Timeout, holding the count V: the
    controller takes a fresh averaged reference R, the sum of the four
    8-bit readings converted after the busy wait divided by four and
    rounded down, and so a value from 0 to 255; with the threshold at
    one of its two values, if V < R + threshold and V < 232 the pass ends
    by [continue] in the state right after the sampling (no switch-off, no
    sleep tail) with the threshold at 7 and the client still powered;
    otherwise it ends through the sleep tail with the threshold at 4, the
    client switched off and the LED off.  With V = 100, R = 104 and
    threshold 7 the pass keeps charging; with V = 120 it stops. *)
Theorem timeout_decision (env : pass_env) (s s1 : mcu) :
  adcValue (input_read env) > MINVOLTAGEADCVALUE ->
  busy_wait (schedule env)
    (start_listening (snd (getAdcValueBusyWait (input_read env) s)))
        = Some s1 ->
  g_readDataState s1 = Read_Timeout ->
  (g_adcThreshold s = ADCTHRESHOLDHI \/ g_adcThreshold s = ADCTHRESHOLDLOW) ->
  let V := g_incomingCount s1 in
  let R := fst (getAdcValueBusyWaitWithAveraging (reference_reads env) s1) in
  let s2 := snd (getAdcValueBusyWaitWithAveraging (reference_reads env) s1) in
  (R = (adcValue (reference_reads env 0%nat)
        + adcValue (reference_reads env 1%nat)
        + adcValue (reference_reads env 2%nat)
        + adcValue (reference_reads env 3%nat)) / 4
   /\ 0 <= R <= 255)
  /\ (V < R + g_adcThreshold s /\ V < MAXVOLTAGEADCVALUE ->
     main_pass env s = Some (KeepCharging, set_g_adcThreshold ADCTHRESHOLDHI s2)
     /\ g_adcThreshold (set_g_adcThreshold ADCTHRESHOLDHI s2) = 7
     /\ client_on (set_g_adcThreshold ADCTHRESHOLDHI s2) = true)
  /\ (~ (V < R + g_adcThreshold s /\ V < MAXVOLTAGEADCVALUE) ->
      exists s',
        main_pass env s = Some (StopCharging, s')
        /\ g_adcThreshold s' = 4
        /\ client_on s' = false
        /\ led_on s' = false)
  /\ (V = 100 -> R = 104 -> g_adcThreshold s = 7 ->
      exists s', main_pass env s = Some (KeepCharging, s')
                 /\ g_adcThreshold s' = 7)
  /\ (V = 120 -> R = 104 -> g_adcThreshold s = 7 ->
      exists s', main_pass env s = Some (StopCharging, s')
                 /\ g_adcThreshold s' = 4).
Proof.
  intros Hin Hw Ht Hthr V R s2.
  assert (Hth1 : g_adcThreshold s1 = g_adcThreshold s).
  { destruct (busy_wait_keeps _ _ _ Hw) as (A & _ & _).
    destruct (start_listening_spec
                (snd (getAdcValueBusyWait (input_read env) s))) as [A0 _].
    destruct (control_fields _ _
                (control_getAdcValueBusyWait (input_read env) s)) as (H0 & _).
    rewrite A, A0. exact H0. }
  destruct (averaging_spec (reference_reads env) s1) as [_ HR]. fold R in HR.
  assert (Hu : u16 (R + g_adcThreshold s1) = R + g_adcThreshold s).
  { rewrite Hth1. unfold u16. apply Z.mod_small.
    unfold ADCTHRESHOLDHI, ADCTHRESHOLDLOW in Hthr. lia. }
  assert (Hmp : main_pass env s = Some (conclude (reference_reads env) s1)).
  { rewrite main_pass_unfold. cbv zeta.
    replace (adcValue (input_read env) >? MINVOLTAGEADCVALUE) with true
      by (symmetry; apply Z.gtb_lt; lia).
    rewrite Hw. reflexivity. }
  rewrite (conclude_timeout _ _ Ht) in Hmp. cbv zeta in Hmp.
  fold R s2 V in Hmp. rewrite Hu in Hmp.
  assert (Hkeep : V < R + g_adcThreshold s /\ V < MAXVOLTAGEADCVALUE ->
                  main_pass env s
                  = Some (KeepCharging, set_g_adcThreshold ADCTHRESHOLDHI s2)).
  { intros [H1 H2]. rewrite Hmp.
    apply Z.ltb_lt in H1, H2. now rewrite H1, H2. }
  assert (Hstop : ~ (V < R + g_adcThreshold s /\ V < MAXVOLTAGEADCVALUE) ->
                  main_pass env s
                  = Some (StopCharging,
                          sleep_tail
                            (turnOffLed
                               (set_g_adcThreshold ADCTHRESHOLDLOW s2)))).
  { intros Hn. rewrite Hmp.
    destruct (V <? R + g_adcThreshold s) eqn:H1;
      destruct (V <? MAXVOLTAGEADCVALUE) eqn:H2; trivial.
    exfalso. apply Hn. split; now apply Z.ltb_lt. }
  split; [|split; [|split; [|split]]].
  - assert (Hb : forall i, 0 <= adcValue (reference_reads env i) < 256)
      by (intros i; unfold adcValue, u8; apply Z.mod_pos_bound; lia).
    pose proof (Hb 0%nat). pose proof (Hb 1%nat).
    pose proof (Hb 2%nat). pose proof (Hb 3%nat).
    unfold R. rewrite averaging_sum.
    split; [reflexivity|].
    split; [apply Z.div_pos; lia | apply Z.div_le_upper_bound; lia].
  - intros Hk. rewrite (Hkeep Hk).
    pose proof (main_pass_threshold _ _ _ _ (Hkeep Hk)) as [P Q].
    now repeat split.
  - intros Hn. eexists. split; [exact (Hstop Hn)|].
    pose proof (main_pass_threshold _ _ _ _ (Hstop Hn)) as [P Q].
    destruct (sleep_tail_spec
                (turnOffLed (set_g_adcThreshold ADCTHRESHOLDLOW s2)))
      as (_ & _ & _ & L).
    rewrite L, led_on_turnOffLed. repeat split; assumption.
  - intros HV HR' Hth. eexists. split.
    + apply Hkeep. unfold MAXVOLTAGEADCVALUE. lia.
    + reflexivity.
  - intros HV HR' Hth.
    assert (Hn : ~ (V < R + g_adcThreshold s /\ V < MAXVOLTAGEADCVALUE)) by lia.
    eexists. split; [exact (Hstop Hn)|].
    now pose proof (main_pass_threshold _ _ _ _ (Hstop Hn)) as [P Q].
Qed.

Lemma timeout_decision_witness :
  let env := {| input_read := mkConversion 2 200;
                schedule := map Irq (frame_irqs 100);
                reference_reads :=
                  fun i => mkConversion 2 (nth i [102; 103; 105; 107] 0) |} in
  exists s',
    main_pass env initializeRegisters = Some (KeepCharging, s')
    /\ g_adcThreshold s' = 7.
Proof.
  intros env.
  pose proof (timeout_decision env initializeRegisters
                (serve_all (frame_irqs 100)
                   (start_listening
                      (snd (getAdcValueBusyWait (mkConversion 2 200)
                              initializeRegisters))))) as H.
  do 3 feed H ltac:(vm_compute; reflexivity).
  feed H ltac:(left; reflexivity).
  destruct H as (_ & _ & _ & K & _).
  apply K; vm_compute; reflexivity.
Defined.

(** C3.  A pass whose busy wait ends with the decoder in Error: the pass
    ends through the sleep tail with the client switched off, the
    hysteresis threshold exactly as it was when the pass began, and the
    status LED on. *)
Theorem error_outcome (env : pass_env) (s s1 : mcu) :
  adcValue (input_read env) > MINVOLTAGEADCVALUE ->
  busy_wait (schedule env)
    (start_listening (snd (getAdcValueBusyWait (input_read env) s)))
        = Some s1 ->
  g_readDataState s1 = Read_Error ->
  exists s',
    main_pass env s = Some (Fault, s')
    /\ client_on s' = false
    /\ g_adcThreshold s' = g_adcThreshold s
    /\ led_on s' = true.
Proof.
  intros Hin Hw He.
  assert (Hmp : main_pass env s = Some (Fault, sleep_tail (turnOnLed s1))).
  { rewrite main_pass_unfold. cbv zeta.
    replace (adcValue (input_read env) >? MINVOLTAGEADCVALUE) with true
      by (symmetry; apply Z.gtb_lt; lia).
    rewrite Hw, (conclude_error _ _ He). reflexivity. }
  eexists. split; [exact Hmp|].
  pose proof (main_pass_threshold _ _ _ _ Hmp) as [P Q].
  destruct (sleep_tail_spec (turnOnLed s1)) as (_ & _ & _ & L).
  rewrite L, led_on_turnOnLed. repeat split; assumption.
Qed.

Lemma error_outcome_witness :
  exists s',
    main_pass (sample_pass 200 (repeat TIM0_OVF_vect 6) 104)
      (set_g_adcThreshold ADCTHRESHOLDLOW initializeRegisters)
    = Some (Fault, s')
    /\ client_on s' = false
    /\ g_adcThreshold s'
       = g_adcThreshold (set_g_adcThreshold ADCTHRESHOLDLOW initializeRegisters)
    /\ led_on s' = true.
Proof.
  pose proof (error_outcome
                (sample_pass 200 (repeat TIM0_OVF_vect 6) 104)
                (set_g_adcThreshold ADCTHRESHOLDLOW initializeRegisters)
                (serve_all (repeat TIM0_OVF_vect 6)
                   (start_listening
                      (snd (getAdcValueBusyWait (mkConversion 2 200)
                              (set_g_adcThreshold ADCTHRESHOLDLOW
                                 initializeRegisters)))))) as H.
  do 3 feed H ltac:(vm_compute; reflexivity).
  exact H.
Defined.



(** C7.  Along any run of passes of the main loop: a pass that decides
    to keep charging leaves the threshold at its high value with the
    client powered, so the threshold stays high through consecutive such
    passes; a pass that finds the threshold high leaves it high unless it
    is a pass that stops charging; and whenever a pass leaves the threshold
    at its low value without having found it there, that pass is one that
    stops charging and has switched the client off. *)
Theorem hysteresis_monotone (envs : list pass_env) (s0 : mcu)
    (h : list (branch * mcu)) :
  main_loop envs s0 = Some h ->
  Forall hysteresis_step (transitions s0 h).
Proof.
  revert s0 h. induction envs as [|env envs IH]; intros s0 h Hrun.
  - simpl in Hrun. injection Hrun as <-. constructor.
  - cbn [main_loop] in Hrun.
    destruct (main_pass env s0) as [[b s']|] eqn:Hp; [|discriminate].
    destruct (main_loop envs s') as [h'|] eqn:Hl; [|discriminate].
    injection Hrun as <-. cbn [transitions]. constructor; [|now apply IH].
    pose proof (main_pass_threshold _ _ _ _ Hp) as Hb.
    unfold hysteresis_step, ADCTHRESHOLDHI, ADCTHRESHOLDLOW in *.
    destruct b; destruct Hb as [P Q]; repeat split;
      intros; try congruence; try discriminate; try lia.
Qed.

Lemma hysteresis_monotone_witness :
  main_loop sample_run initializeRegisters = Some sample_history
  /\ map fst sample_history
     = [KeepCharging; StopCharging; LowInput; StopCharging]
  /\ Forall hysteresis_step (transitions initializeRegisters sample_history).
Proof.
  assert (H : main_loop sample_run initializeRegisters = Some sample_history)
    by (vm_compute; reflexivity).
  split; [exact H|]. split; [vm_compute; reflexivity|].
  exact (hysteresis_monotone sample_run initializeRegisters sample_history H).
Defined.

End Controller.

(** ** The encoder *)
Section Encoder.

Import Client.

Lemma line_set_low (p : Z) : Z.testbit (Z.land p (Z.lnot (_BV 2))) 2 = false.
Proof. rewrite Z.land_spec. apply andb_false_r. Qed.

Lemma line_set_high (p : Z) : Z.testbit (Z.lor p (_BV 2)) 2 = true.
Proof. rewrite Z.lor_spec. apply orb_true_r. Qed.

Lemma line_led_off (p : Z) :
  Z.testbit (Z.land p (Z.lnot (_BV 1))) 2 = Z.testbit p 2.
Proof. rewrite Z.land_spec. apply andb_true_r. Qed.

Lemma line_led_on (p : Z) : Z.testbit (Z.lor p (_BV 1)) 2 = Z.testbit p 2.
Proof. rewrite Z.lor_spec. apply orb_false_r. Qed.

Lemma toggleLed_keeps (s : mcu) :
  line (toggleLed s) = line s /\ wire (toggleLed s) = wire s.
Proof.
  unfold toggleLed, line. destruct (truthy _); cbn [PORTB wire set_PORTB].
  - now rewrite line_led_off.
  - now rewrite line_led_on.
Qed.

Lemma incrementAndBlinkLed_keeps (s : mcu) :
  line (incrementAndBlinkLed s) = line s
  /\ wire (incrementAndBlinkLed s) = wire s.
Proof.
  unfold incrementAndBlinkLed. destruct (negb _).
  - destruct (toggleLed_keeps
                (set_g_ledBlinkCount (u16 (g_ledBlinkCount s + 1)) s)) as [A B].
    rewrite A, B. now split.
  - now split.
Qed.

Lemma spin_spec (n : N) (s : mcu) :
  line (spin n s) = line s
  /\ wire (spin n s) = wire s ++ [(line s, Passes n)].
Proof.
  assert (H : line (N.iter n incrementAndBlinkLed s) = line s
              /\ wire (N.iter n incrementAndBlinkLed s) = wire s).
  { apply (N.iter_invariant n _ incrementAndBlinkLed
             (fun x => line x = line s /\ wire x = wire s));
      [|split; reflexivity].
    intros x [A B]. destruct (incrementAndBlinkLed_keeps x) as [A' B'].
    split; congruence. }
  destruct H as [A B]. revert A B.
  unfold spin. generalize (N.iter n incrementAndBlinkLed s). intros t A B.
  unfold elapse, line in *. cbn [PORTB wire set_wire].
  now rewrite A, B.
Qed.

(** A low stretch then a high stretch, as [triggerRead] and
    [transmitOneTick] produce them. *)
Lemma low_high_spec (n m : N) (s : mcu) :
  let s' := spin m (set_PORTB (Z.lor (PORTB (spin n
                 (set_PORTB (Z.land (PORTB s) (Z.lnot (_BV 2))) s))) (_BV 2))
                 (spin n (set_PORTB (Z.land (PORTB s) (Z.lnot (_BV 2))) s))) in
  line s' = true
  /\ wire s' = wire s ++ [(false, Passes n); (true, Passes m)].
Proof.
  intros s'. subst s'.
  destruct (spin_spec n (set_PORTB (Z.land (PORTB s) (Z.lnot (_BV 2))) s))
    as [A B].
  revert A B.
  generalize (spin n (set_PORTB (Z.land (PORTB s) (Z.lnot (_BV 2))) s)).
  intros t A B.
  destruct (spin_spec m (set_PORTB (Z.lor (PORTB t) (_BV 2)) t)) as [C D].
  revert C D. generalize (spin m (set_PORTB (Z.lor (PORTB t) (_BV 2)) t)).
  intros t' C D.
  unfold line in *. cbn [PORTB wire set_PORTB] in *.
  rewrite line_set_low in *. rewrite line_set_high in *.
  rewrite C, D, B, <- app_assoc. now split.
Qed.

Lemma transmitOneTick_spec (s : mcu) :
  line (transmitOneTick s) = true
  /\ wire (transmitOneTick s) = wire s ++ tick_wave.
Proof. apply (low_high_spec TRANSMITDELAYCOUNT TRANSMITDELAYCOUNT s). Qed.

Lemma triggerRead_spec (s : mcu) :
  line (triggerRead s) = true
  /\ wire (triggerRead s)
     = wire s ++ [(false, Passes TRIGGERTIMEOUTCOUNT);
                  (true, Passes TRANSMITDELAYCOUNT)].
Proof. apply (low_high_spec TRIGGERTIMEOUTCOUNT TRANSMITDELAYCOUNT s). Qed.

Lemma ticks_spec (n : nat) (s : mcu) :
  line s = true ->
  line (N.iter (N.of_nat n) transmitOneTick s) = true
  /\ wire (N.iter (N.of_nat n) transmitOneTick s)
     = wire s ++ concat (repeat tick_wave n).
Proof.
  intros Hs. induction n as [|n [IH1 IH2]].
  - simpl. now rewrite app_nil_r.
  - rewrite Nat2N.inj_succ, N.iter_succ.
    destruct (transmitOneTick_spec (N.iter (N.of_nat n) transmitOneTick s))
      as [A B].
    split; [exact A|]. rewrite B, IH2, <- app_assoc. f_equal.
    replace (S n) with (n + 1)%nat by lia.
    rewrite repeat_app, concat_app. cbn [repeat concat].
    now rewrite app_nil_r.
Qed.

(** The wire during and after [transmit]: exactly the frame of
    [adcvalue] ticks, ending high. *)
Lemma transmit_spec (n : nat) (s : mcu) :
  line (transmit (Z.of_nat n) s) = true
  /\ wire (transmit (Z.of_nat n) s) = wire s ++ frame_wave n.
Proof.
  unfold transmit. rewrite <- nat_N_Z, N2Z.id.
  destruct (triggerRead_spec s) as [A B]. revert A B.
  generalize (triggerRead s). intros t A B.
  destruct (ticks_spec n t A) as [C D]. revert C D.
  generalize (N.iter (N.of_nat n) transmitOneTick t). intros t' C D.
  unfold turnOffLed, _delay_ms, elapse, turnOnLed, line in *.
  cbn [PORTB wire set_PORTB set_wire].
  rewrite line_led_off, !line_led_on, C, D, B.
  split; [reflexivity|]. unfold frame_wave. now rewrite <- !app_assoc.
Qed.

Lemma outputDataError_spec (s : mcu) :
  line (outputDataError s) = false
  /\ led_on (outputDataError s) = true
  /\ wire (outputDataError s) = wire s ++ [(false, Millis BRIEFBLINKDELAYMS)].
Proof.
  unfold outputDataError, turnOnLed, _delay_ms, elapse, turnOffLed,
      line, led_on.
  cbn [PORTB wire set_PORTB set_wire].
  rewrite line_led_on, !line_led_off, line_set_low.
  repeat split. rewrite Z.lor_spec. apply orb_true_r.
Qed.

Lemma sleep_tail_line (s : mcu) :
  line (sleep_tail s) = line s /\ wire (sleep_tail s) = wire s.
Proof. now split. Qed.

End Encoder.

(** ** The decoder on the wire, clock by clock *)
Section OnTheWire.

Import Master Wire.

(** Reduce record projections and updates, leaving integer arithmetic
    as written. *)
Ltac arith_cbn :=
  cbn -[Z.div Z.modulo Z.mul Z.add Z.sub Z.testbit Z.land Z.lor Z.lnot
        Z.eqb Z.ltb Z.gtb Z.leb] in *.

Lemma hold_for_add (n m : N) (level : bool) (r : receiver) :
  hold_for m level (hold_for n level r) = hold_for (n + m) level r.
Proof. unfold hold_for. now rewrite N.add_comm, N.iter_add. Qed.

Lemma hold_for_succ (n : N) (level : bool) (r : receiver) :
  hold_for (N.succ n) level r = clock level (hold_for n level r).
Proof. unfold hold_for. apply N.iter_succ. Qed.

Lemma hold_for_succ_r (n : N) (level : bool) (r : receiver) :
  hold_for (N.succ n) level r = hold_for n level (clock level r).
Proof. unfold hold_for. apply N.iter_succ_r. Qed.

Lemma receive_app (c : N) (w1 w2 : list Client.hold) (r : receiver) :
  receive c (w1 ++ w2) r = receive c w2 (receive c w1 r).
Proof. unfold receive. apply fold_left_app. Qed.

Lemma int0_blocked_fires (level : bool) (r : receiver) :
  int0_blocked level r -> int0_fires level r = false.
Proof.
  unfold int0_blocked, int0_fires, int0_sense.
  intros [->|(-> & -> & [->| ->])]; trivial.
  change (Z.land 2 3) with 2. cbn [andb negb]. now destruct (last_level r).
Qed.

(** A clock on which INT0 is served goes on like a clock without request
    from the state the routine leaves. *)
Lemma clock_served (level : bool) (r : receiver) :
  int0_fires level r = true ->
  forall r1 : receiver,
    cpu r1 = ISR_INT0 (cpu r) ->
    prescaler r1 = prescaler r ->
    int0_fires level r1 = false ->
    clock level r = clock level r1.
Proof.
  intros Hf r1 Hc Hp Hf1. unfold clock. now rewrite Hf, Hf1, Hc, Hp.
Qed.

(** One clock on which nothing fires. *)
Lemma clock_coast (level : bool) (r : receiver) :
  int0_blocked level r ->
  timer_counting r ->
  elapsed r + 1 < OCR0A (cpu r) * 256 ->
  clock level r = coasted 1 level r.
Proof.
  intros Hint Htm Hlt. unfold clock. rewrite (int0_blocked_fires _ _ Hint).
  destruct r as [s p l].
    destruct s as [st ic lc th it pb dd pu tc oc tb ea em ad pr].
  unfold timer_counting, coasted, elapsed, timer_clock, timer_running in *.
  arith_cbn.
  destruct Htm as (Htb & Htc & Hp & Hoc). subst tb.
  change (Z.land 4 7 =? 4) with true. arith_cbn.
  destruct (Z.eq_dec p 255) as [->|Hne].
  - change ((255 + 1) mod 256 =? 0) with true.
    change ((255 + 1) mod 256) with 0. arith_cbn.
    unfold u16. rewrite (Z.mod_small (tc + 1)) by lia.
    replace (tc + 1 =? 0) with false by (symmetry; apply Z.eqb_neq; lia).
    arith_cbn.
    replace (tc + 1 =? oc) with false by (symmetry; apply Z.eqb_neq; lia).
    replace ((tc * 256 + 255 + 1) / 256) with (tc + 1)
      by (apply Z.div_unique with 0; lia).
    replace ((tc * 256 + 255 + 1) mod 256) with 0
      by (apply Z.mod_unique with (tc + 1); lia).
    reflexivity.
  - rewrite (Z.mod_small (p + 1)) by lia.
    replace (p + 1 =? 0) with false by (symmetry; apply Z.eqb_neq; lia).
    replace ((tc * 256 + p + 1) / 256) with tc
      by (apply Z.div_unique with (p + 1); lia).
    replace ((tc * 256 + p + 1) mod 256) with (p + 1)
      by (apply Z.mod_unique with tc; lia).
    reflexivity.
Qed.

Lemma elapsed_coasted (n : Z) (level : bool) (r : receiver) :
  elapsed (coasted n level r) = elapsed r + n.
Proof.
  unfold coasted, elapsed at 1. cbn [cpu prescaler]. destruct (cpu r).
  cbn [set_TCNT0 TCNT0].
  pose proof (Z.div_mod (elapsed r + n) 256). lia.
Qed.

Lemma coasted_coasted (n m : Z) (l1 l2 : bool) (r : receiver) :
  coasted m l2 (coasted n l1 r) = coasted (n + m) l2 r.
Proof.
  unfold coasted at 1. rewrite elapsed_coasted, <- Z.add_assoc.
  unfold coasted. cbn [cpu]. now destruct (cpu r).
Qed.

Lemma coasted_keeps (n : Z) (level : bool) (r : receiver) :
  0 <= elapsed r + n ->
  let r' := coasted n level r in
  g_readDataState (cpu r') = g_readDataState (cpu r)
  /\ g_incomingCount (cpu r') = g_incomingCount (cpu r)
  /\ EIMSK (cpu r') = EIMSK (cpu r)
  /\ EICRA (cpu r') = EICRA (cpu r)
  /\ OCR0A (cpu r') = OCR0A (cpu r)
  /\ TCCR0B (cpu r') = TCCR0B (cpu r)
  /\ 0 <= TCNT0 (cpu r')
  /\ 0 <= prescaler r' < 256
  /\ last_level r' = level.
Proof.
  intros H r'. subst r'. unfold coasted. cbn [cpu prescaler last_level].
  destruct (cpu r). cbn [set_TCNT0 TCNT0 g_readDataState g_incomingCount EIMSK
                         EICRA OCR0A TCCR0B].
  repeat split; trivial.
  - apply Z.div_pos; lia.
  - apply Z.mod_pos_bound; lia.
  - apply Z.mod_pos_bound; lia.
Qed.

(** Any number of clocks on which nothing fires. *)
Lemma hold_coast (n : N) (level : bool) (r : receiver) :
  int0_blocked level r ->
  timer_counting r ->
  (0 < n)%N ->
  elapsed r + Z.of_N n < OCR0A (cpu r) * 256 ->
  hold_for n level r = coasted (Z.of_N n) level r.
Proof.
  intros Hint Htm. induction n as [|n IH] using N.peano_ind; [lia|].
  intros _ Hlt. rewrite hold_for_succ, N2Z.inj_succ in *.
  assert (He : 0 <= elapsed r)
    by (unfold elapsed; destruct Htm as (_ & ? & ? & _); lia).
  destruct (N.eq_dec n 0) as [->|Hn].
  - apply clock_coast; trivial.
  - rewrite IH by lia.
    destruct (coasted_keeps (Z.of_N n) level r ltac:(lia))
      as (_ & _ & E1 & E2 & E3 & E4 & E5 & E6 & E7).
    rewrite clock_coast.
    + rewrite coasted_coasted. f_equal; lia.
    + unfold int0_blocked. rewrite E1, E2, E7.
      destruct Hint as [H|(H1 & H2 & _)]; [now left | right].
      repeat split; trivial. destruct level; auto.
    + unfold timer_counting. rewrite E3, E4.
      destruct Htm as (T1 & _ & _ & T4). repeat split; trivial; lia.
    + rewrite elapsed_coasted, E3. lia.
Qed.

(** The clock on which TCNT0 reaches OCR0A. *)
Lemma clock_compare (level : bool) (r : receiver) :
  int0_blocked level r ->
  timer_counting r ->
  elapsed r + 1 = OCR0A (cpu r) * 256 ->
  clock level r
  = {| cpu := ISR_TIM0_COMPA (PINB_at level)
                (set_TCNT0 (OCR0A (cpu r)) (cpu r));
       prescaler := 0;
       last_level := level |}.
Proof.
  intros Hint Htm Heq. unfold clock. rewrite (int0_blocked_fires _ _ Hint).
  destruct r as [s p l].
    destruct s as [st ic lc th it pb dd pu tc oc tb ea em ad pr].
  unfold timer_counting, elapsed, timer_clock, timer_running in *.
  arith_cbn.
  destruct Htm as (Htb & Htc & Hp & Hoc). subst tb.
  change (Z.land 4 7 =? 4) with true. arith_cbn.
  assert (p = 255) by lia. subst p. assert (oc = tc + 1) by lia. subst oc.
  change ((255 + 1) mod 256 =? 0) with true.
  change ((255 + 1) mod 256) with 0. arith_cbn.
  unfold u16. rewrite (Z.mod_small (tc + 1)) by lia.
  replace (tc + 1 =? 0) with false by (symmetry; apply Z.eqb_neq; lia).
  arith_cbn. rewrite Z.eqb_refl. reflexivity.
Qed.

(** What [ISR_INT0] leaves when it finds the decoder idle. *)
Lemma ISR_INT0_idle (s : mcu) :
  g_readDataState s = Read_Idle ->
  TCCR0B s = 0x00 \/ TCCR0B s = 0x04 ->
  let s' := ISR_INT0 s in
  g_readDataState s' = Read_VerifyTrigger
  /\ g_incomingCount s' = g_incomingCount s
  /\ EIMSK s' = 0x00
  /\ OCR0A s' = VERIFYTRIGGERTIMEOUT
  /\ TCCR0B s' = 0x04
  /\ TCNT0 s' = 0.
Proof.
  intros Hst Htb. unfold ISR_INT0. rewrite Hst.
  destruct s as [st ic lc th it pb dd pu tc oc tb ea em ad pr].
  unfold stopTimer, resetAndStartTimer. arith_cbn.
  repeat split. destruct Htb as [->| ->]; reflexivity.
Qed.

(** The wire goes low on an idle, listening decoder: INT0 is served and
    the verification window opens. *)
Lemma trigger_seen (r : receiver) :
  listening r ->
  verifying (prescaler r + 1) (clock false r)
  /\ g_incomingCount (cpu (clock false r)) = g_incomingCount (cpu r).
Proof.
  intros (Hst & Hem & Hea & Htb & Hp).
  destruct (ISR_INT0_idle (cpu r) Hst Htb) as (A & B & C & D & E & F).
  set (r1 := {| cpu := ISR_INT0 (cpu r); prescaler := prescaler r;
                last_level := last_level r |}).
  assert (Hb : int0_blocked false r1) by (left; exact C).
  rewrite (clock_served false r) with (r1 := r1); trivial.
  - assert (Ht : timer_counting r1).
    { unfold timer_counting. subst r1. cbn [cpu prescaler].
      rewrite E, F, D. unfold VERIFYTRIGGERTIMEOUT. repeat split; trivial; lia.
        }
    assert (He : elapsed r1 = prescaler r)
      by (unfold elapsed; subst r1; cbn [cpu prescaler]; rewrite F; lia).
    rewrite clock_coast; trivial.
    + destruct (coasted_keeps 1 false r1 ltac:(lia))
        as (E0 & Ec & E1 & E2 & E3 & E4 & E5 & E6 & E7).
      unfold verifying. rewrite E0, Ec, E1, E3, E4, elapsed_coasted, He.
      subst r1. cbn [cpu]. rewrite A, B, C, D, E. now repeat split.
    + rewrite He. subst r1. cbn [cpu]. rewrite D. unfold VERIFYTRIGGERTIMEOUT.
      lia.
  - unfold int0_fires, int0_sense. now rewrite Hem, Hea.
  - now apply int0_blocked_fires.
Qed.

Lemma verifying_coast (n : N) (level : bool) (t : Z) (r : receiver) :
  verifying t r ->
  (0 < n)%N ->
  t + Z.of_N n < 1024 ->
  verifying (t + Z.of_N n) (hold_for n level r).
Proof.
  intros (Hst & Hem & Hoc & Htb & Htc & Hp & <-) Hn Hlt.
  assert (He : 0 <= elapsed r) by (unfold elapsed; lia).
  rewrite hold_coast; trivial.
  - destruct (coasted_keeps (Z.of_N n) level r ltac:(lia))
      as (E0 & _ & E1 & E2 & E3 & E4 & E5 & E6 & E7).
    unfold verifying. rewrite E0, E1, E3, E4, elapsed_coasted.
    repeat split; trivial; lia.
  - now left.
  - unfold timer_counting. rewrite Hoc. unfold VERIFYTRIGGERTIMEOUT.
    repeat split; trivial; lia.
  - rewrite Hoc. unfold VERIFYTRIGGERTIMEOUT. lia.
Qed.

(** The verification window closes with the wire still low: Reading
    begins with the edge counter at zero. *)
Lemma verifying_expires_low (r : receiver) :
  verifying 1023 r -> reading 0 0 false (clock false r).
Proof.
  intros (Hst & Hem & Hoc & Htb & Htc & Hp & He).
  rewrite clock_compare.
  - destruct r as [s p l].
    destruct s as [st ic lc th it pb dd pu tc oc tb ea em ad pr].
    arith_cbn. subst st em oc tb.
    unfold reading, elapsed, ISR_TIM0_COMPA. arith_cbn.
    unfold stopTimer, resetAndStartTimer. arith_cbn.
    unfold READINGTIMEOUT. repeat split; trivial; lia.
  - now left.
  - unfold timer_counting. rewrite Hoc. unfold VERIFYTRIGGERTIMEOUT.
    repeat split; trivial; lia.
  - rewrite Hoc, He. reflexivity.
Qed.

Lemma reading_coast (n : N) (level lvl : bool) (count t : Z) (r : receiver) :
  reading count t lvl r ->
  lvl = false \/ level = true ->
  (0 < n)%N ->
  t + Z.of_N n < READINGTIMEOUT * 256 ->
  reading count (t + Z.of_N n) level (hold_for n level r).
Proof.
  intros (Hst & Hic & Hem & Hea & Hoc & Htb & Htc & Hp & <- & Hl) Hedge Hn Hlt.
  assert (He : 0 <= elapsed r) by (unfold elapsed; lia).
  rewrite hold_coast; trivial.
  - destruct (coasted_keeps (Z.of_N n) level r ltac:(lia))
      as (E0 & Ec & E1 & E2 & E3 & E4 & E5 & E6 & E7).
    unfold reading. rewrite E0, Ec, E1, E2, E3, E4, elapsed_coasted.
    repeat split; trivial; lia.
  - right. rewrite Hl. now repeat split.
  - unfold timer_counting. rewrite Hoc. unfold READINGTIMEOUT.
    repeat split; trivial; lia.
  - now rewrite Hoc.
Qed.

(** Same, for a stretch that may be empty. *)
Lemma reading_coast0 (n : N) (level : bool) (count t : Z) (r : receiver) :
  reading count t level r ->
  t + Z.of_N n < READINGTIMEOUT * 256 ->
  reading count (t + Z.of_N n) level (hold_for n level r).
Proof.
  intros Hr Hlt. destruct (N.eq_dec n 0) as [->|Hn].
  - cbn. now rewrite Z.add_0_r.
  - apply reading_coast with level; trivial; [destruct level; auto | lia].
Qed.

(** A falling edge during Reading is counted. *)
Lemma reading_edge (count t : Z) (r : receiver) :
  reading count t true r ->
  0 <= count < 65535 ->
  t + 1 < READINGTIMEOUT * 256 ->
  reading (count + 1) (t + 1) false (clock false r).
Proof.
  intros Hr Hc Hlt.
  set (r1 := {| cpu := ISR_INT0 (cpu r); prescaler := prescaler r;
                last_level := false |}).
  assert (H1 : reading (count + 1) t false r1).
  { destruct Hr as (Hst & Hic & Hem & Hea & Hoc & Htb & Htc & Hp & He & Hl).
    destruct r as [s p l].
    destruct s as [st ic lc th it pb dd pu tc oc tb ea em ad pr].
    subst r1. arith_cbn. subst st ic em ea oc tb l.
    unfold reading, elapsed, ISR_INT0 in *. arith_cbn.
    unfold u16. rewrite Z.mod_small by lia. now repeat split. }
  rewrite (clock_served false r) with (r1 := r1); trivial.
  - apply (reading_coast 1 false false (count + 1) t r1 H1); auto; lia.
  - destruct Hr as (Hst & Hic & Hem & Hea & Hoc & Htb & Htc & Hp & He & Hl).
    unfold int0_fires, int0_sense. now rewrite Hem, Hea, Hl.
  - apply int0_blocked_fires. right.
    destruct H1 as (_ & _ & Hem & Hea & _). repeat split; trivial. now left.
Qed.

(** The reading window closes: Timeout if the wire is high, Error if it
    is low; either way the edge counter keeps what it has counted. *)
Lemma reading_expires (level lvl : bool) (count : Z) (r : receiver) :
  reading count (READINGTIMEOUT * 256 - 1) lvl r ->
  lvl = false \/ level = true ->
  finished (if level then Read_Timeout else Read_Error) count (clock level r).
Proof.
  intros (Hst & Hic & Hem & Hea & Hoc & Htb & Htc & Hp & He & Hl) Hedge.
  rewrite clock_compare.
  - destruct r as [s p l].
    destruct s as [st ic lc th it pb dd pu tc oc tb ea em ad pr].
    arith_cbn. subst st ic em ea oc tb.
    unfold finished, ISR_TIM0_COMPA. arith_cbn.
    unfold stopTimer. arith_cbn.
    destruct level; now repeat split.
  - right. rewrite Hl. now repeat split.
  - unfold timer_counting. rewrite Hoc. unfold READINGTIMEOUT.
    repeat split; trivial; lia.
  - rewrite Hoc, He. lia.
Qed.

(** Once finished, the decoder ignores the wire and the clock. *)
Lemma finished_clock (level : bool) (st : ReadDataState) (count : Z)
    (r : receiver) :
  finished st count r -> finished st count (clock level r).
Proof.
  intros (Hst & Hic & Hem & Htb).
  destruct r as [s p l].
  destruct s as [st' ic lc th it pb dd pu tc oc tb ea em ad pr].
  arith_cbn. subst st' ic em tb.
  unfold finished, clock, int0_fires, timer_clock, timer_running. arith_cbn.
  change (Z.testbit 0 0) with false. arith_cbn.
  change (Z.land 0 7 =? 4) with false. arith_cbn.
  now repeat split.
Qed.

Lemma finished_hold (n : N) (level : bool) (st : ReadDataState) (count : Z)
    (r : receiver) :
  finished st count r -> finished st count (hold_for n level r).
Proof.
  intros H. unfold hold_for.
  apply (N.iter_invariant n _ (clock level) (finished st count)); trivial.
  intros x Hx. now apply finished_clock.
Qed.

Lemma hold_for_1 (level : bool) (r : receiver) :
  hold_for 1 level r = clock level r.
Proof. reflexivity. Qed.

(** The whole trigger hold, seen from Idle: the verification window
    opens on the first clock, closes with the wire still low, and Reading
    has begun when the hold ends. *)
Lemma trigger_hold (n : N) (r : receiver) :
  listening r ->
  1024 <= Z.of_N n <= READINGTIMEOUT * 256 ->
  reading 0 (Z.of_N n - 1024 + prescaler r) false (hold_for n false r).
Proof.
  intros Hl Hn.
  assert (Hp : 0 <= prescaler r < 256) by apply Hl.
  set (k := Z.to_N (1022 - prescaler r)).
  set (m := Z.to_N (Z.of_N n - 1024 + prescaler r)).
  replace n with (1 + k + 1 + m)%N by (subst k m; lia).
  rewrite <- !hold_for_add, !hold_for_1.
  destruct (trigger_seen r Hl) as [Hv _].
  apply (verifying_coast k false) in Hv; [|subst k; lia..].
  replace (prescaler r + 1 + Z.of_N k) with 1023 in Hv by (subst k; lia).
  apply verifying_expires_low in Hv.
  apply (reading_coast0 m false) in Hv; [|subst m; lia].
  replace (Z.of_N (1 + k + 1 + m) - 1024 + prescaler r) with (0 + Z.of_N m)
    by (subst k m; lia).
  exact Hv.
Qed.

(** One tick of the frame: one more edge counted. *)
Lemma tick_received (c : N) (count t : Z) (r : receiver) :
  reading count t true r ->
  0 <= count < 65535 ->
  (0 < c)%N ->
  t + 256 * Z.of_N c < READINGTIMEOUT * 256 ->
  reading (count + 1) (t + 256 * Z.of_N c) true
    (receive c Client.tick_wave r).
Proof.
  intros Hr Hc Hpos Hlt.
  change (receive c Client.tick_wave r)
    with (hold_for (Client.TRANSMITDELAYCOUNT * c) true
            (hold_for (Client.TRANSMITDELAYCOUNT * c) false r)).
  unfold Client.TRANSMITDELAYCOUNT.
  replace (128 * c)%N with (N.succ (128 * c - 1)) at 2 by lia.
  rewrite hold_for_succ_r.
  apply reading_edge in Hr; [|lia..].
  apply (reading_coast0 (128 * c - 1) false) in Hr; [|lia].
  apply (reading_coast (128 * c) true false) in Hr; [|auto|lia..].
  replace (t + 256 * Z.of_N c)
    with (t + 1 + Z.of_N (128 * c - 1) + Z.of_N (128 * c)) by lia.
  exact Hr.
Qed.

Lemma ticks_received (c : N) (k : nat) :
  forall (count t : Z) (r : receiver),
    reading count t true r ->
    0 <= count ->
    count + Z.of_nat k <= 65535 ->
    (0 < c)%N ->
    t + Z.of_nat k * (256 * Z.of_N c) < READINGTIMEOUT * 256 ->
    reading (count + Z.of_nat k) (t + Z.of_nat k * (256 * Z.of_N c)) true
      (receive c (concat (repeat Client.tick_wave k)) r).
Proof.
  induction k as [|k IH]; intros count t r Hr Hc Hk Hpos Hlt.
  - cbn [repeat concat receive fold_left]. cbn [Z.of_nat].
    now rewrite Z.mul_0_l, !Z.add_0_r.
  - cbn [repeat concat]. rewrite receive_app.
    apply (tick_received c) in Hr; [|lia..].
    apply IH in Hr; [|lia..].
    replace (count + Z.of_nat (S k)) with (count + 1 + Z.of_nat k) by lia.
    replace (t + Z.of_nat (S k) * (256 * Z.of_N c))
      with (t + 256 * Z.of_N c + Z.of_nat k * (256 * Z.of_N c)) by lia.
    exact Hr.
Qed.

(** The wire stays at [level] until the reading window has closed. *)
Lemma reading_ends (n : N) (level : bool) (count t : Z) (r : receiver) :
  reading count t level r ->
  0 <= t < READINGTIMEOUT * 256 ->
  READINGTIMEOUT * 256 - t <= Z.of_N n ->
  finished (if level then Read_Timeout else Read_Error) count
    (hold_for n level r).
Proof.
  intros Hr Ht Hn.
  set (a := Z.to_N (READINGTIMEOUT * 256 - 1 - t)).
  set (b := Z.to_N (Z.of_N n - (READINGTIMEOUT * 256 - t))).
  replace n with (a + 1 + b)%N by (subst a b; lia).
  rewrite <- !hold_for_add, hold_for_1.
  apply (reading_coast0 a level) in Hr; [|subst a; lia].
  replace (t + Z.of_N a) with (READINGTIMEOUT * 256 - 1) in Hr
    by (subst a; lia).
  apply (reading_expires level) in Hr; [|destruct level; auto].
  now apply finished_hold.
Qed.

(** The frame of [k] ticks received from Idle under nominal timing, the
    wire then idling high for [rest] clocks. *)
Lemma frame_received (k : nat) (c rest : N) (r : receiver) :
  Z.of_nat k <= Client.MAXVOLTAGEADCVALUE ->
  nominal_timing c ->
  READINGTIMEOUT * 256 <= Z.of_N rest ->
  listening r ->
  finished Read_Timeout (Z.of_nat k)
    (hold_for rest true (receive c (Client.frame_wave k) r)).
Proof.
  unfold nominal_timing, Client.MAXVOLTAGEADCVALUE, Client.TRIGGERTIMEOUTCOUNT,
    Client.TRANSMITDELAYCOUNT, VERIFYTRIGGERTIMEOUT.
  intros Hk [Hc1 Hc2] Hrest Hl.
  assert (Hp : 0 <= prescaler r < 256) by apply Hl.
  unfold Client.frame_wave. rewrite !receive_app.
  change (receive c [(false, Client.Passes Client.TRIGGERTIMEOUTCOUNT);
                     (true, Client.Passes Client.TRANSMITDELAYCOUNT)] r)
    with (hold_for (Client.TRANSMITDELAYCOUNT * c) true
            (hold_for (Client.TRIGGERTIMEOUTCOUNT * c) false r)).
  unfold Client.TRIGGERTIMEOUTCOUNT, Client.TRANSMITDELAYCOUNT.
  pose proof (trigger_hold (256 * c) r Hl) as H1.
  change (Z.to_N 237) with 237%N in Hc2.
  unfold READINGTIMEOUT in Hc2, Hrest.
  feed H1 ltac:(unfold READINGTIMEOUT; lia).
  apply (reading_coast (128 * c) true false) in H1;
    [|auto|unfold READINGTIMEOUT; lia..].
  assert (Hkc : 0 <= Z.of_nat k * (256 * Z.of_N c) <= 237 * (256 * Z.of_N c)).
  { split; [apply Z.mul_nonneg_nonneg; lia|].
    apply Z.mul_le_mono_nonneg_r; lia. }
  apply (ticks_received c k) in H1; [|unfold READINGTIMEOUT; lia..].
  revert H1.
  generalize (receive c (concat (repeat Client.tick_wave k))
                (hold_for (128 * c) true (hold_for (256 * c) false r))).
  intros r3 H3.
  change (receive c [(true, Client.Millis Client.BRIEFBLINKDELAYMS)] r3)
    with (hold_for (Client.BRIEFBLINKDELAYMS * (F_CPU / 1000)) true r3).
  rewrite hold_for_add.
  change (Client.BRIEFBLINKDELAYMS * (F_CPU / 1000))%N with 400000%N.
  apply (reading_ends (400000 + rest) true _ _ r3 H3);
    unfold READINGTIMEOUT; lia.
Qed.

(** C1.  For every sample value V with 1 <= V <= 237 (the values the
    encoder does not classify as invalid): let the encoder report V on a
    fresh wire log, and clock a decoder that is listening in Idle against
    that waveform under nominal timing (one busy-loop pass of the sender
    taking c clocks, the trigger hold no shorter than the verification
    window, the longest frame fitting in the reading window), the wire
    then idling high until the reading window has closed.  The decoder
    ends in Timeout with its edge counter equal to V, the timer stopped
    and INT0 masked. *)
Theorem round_trip (V : Z) (c rest : N) (s : Client.mcu) (r : receiver) :
  1 <= V <= Client.MAXVOLTAGEADCVALUE ->
  Client.wire s = [] ->
  nominal_timing c ->
  READINGTIMEOUT * 256 <= Z.of_N rest ->
  listening r ->
  let r' := hold_for rest true
              (receive c (Client.wire (Client.report V s)) r) in
  Client.invalid V = false
  /\ g_readDataState (cpu r') = Read_Timeout
  /\ g_incomingCount (cpu r') = V
  /\ finished Read_Timeout V r'.
Proof.
  intros HV Hw Hc Hrest Hl r'.
  assert (Hinv : Client.invalid V = false).
  { unfold Client.invalid, Client.MAXVOLTAGEADCVALUE in *.
    apply orb_false_iff. split.
    - rewrite Z.gtb_ltb. apply Z.ltb_ge. lia.
    - apply Z.eqb_neq. lia. }
  assert (Hfin : finished Read_Timeout V r').
  { subst r'. unfold Client.report. rewrite Hinv.
    rewrite <- (Z2Nat.id V) by lia.
    destruct (transmit_spec (Z.to_nat V) s) as [_ Hwire].
    rewrite Hwire, Hw. cbn [app].
    apply frame_received; trivial. lia. }
  split; [exact Hinv|].
  destruct Hfin as (A & B & C & D). now repeat split.
Qed.

Lemma round_trip_witness :
  let r' := hold_for 4100000 true
              (receive 20
                 (Client.wire (Client.report 3 Client.initializeRegisters))
                 {| cpu := resetAndStartTimer
                             (resetReadStateToIdle initializeRegisters);
                    prescaler := 17;
                    last_level := true |}) in
  g_readDataState (cpu r') = Read_Timeout /\ g_incomingCount (cpu r') = 3.
Proof.
  intros r'.
  pose proof (round_trip 3 20 4100000 Client.initializeRegisters
                {| cpu := resetAndStartTimer
                             (resetReadStateToIdle initializeRegisters);
                   prescaler := 17;
                   last_level := true |}) as H.
  feed H ltac:(vm_compute; split; discriminate).
  feed H ltac:(reflexivity).
  feed H ltac:(vm_compute; split; discriminate).
  feed H ltac:(vm_compute; discriminate).
  feed H ltac:(vm_compute;
               split; [reflexivity|]; split; [reflexivity|];
               split; [reflexivity|]; split; [right; reflexivity|];
               split; [discriminate | reflexivity]).
  destruct H as (_ & A & B & _). split; [exact A | exact B].
Defined.

(** The wire held low from Idle until the reading window has closed. *)
Lemma low_hold_received (n : N) (r : receiver) :
  listening r ->
  (VERIFYTRIGGERTIMEOUT + READINGTIMEOUT) * 256 <= Z.of_N n ->
  finished Read_Error 0 (hold_for n false r).
Proof.
  unfold VERIFYTRIGGERTIMEOUT. intros Hl Hn.
  assert (Hp : 0 <= prescaler r < 256) by apply Hl.
  replace n with (1024 + (n - 1024))%N by (unfold READINGTIMEOUT in Hn; lia).
  rewrite <- hold_for_add.
  pose proof (trigger_hold 1024 r Hl) as H1.
  feed H1 ltac:(unfold READINGTIMEOUT; lia).
  apply (reading_ends (n - 1024) false _ _ _ H1);
    unfold READINGTIMEOUT in *; lia.
Qed.

(** C4.  An averaged sample is invalid exactly when it is zero or above
    237.  For such a sample the encoder's report drives PB2 low and leaves
    it low, through the sleep tail too: the only stretch it puts on the
    wire is a low hold, there is no trigger and no tick, and the LED is
    on.  In the decoder, a compare match in Reading that reads PB2 low
    sets the state to Error, whatever the edge counter holds.  Clocked
    against the wire: a decoder listening in Idle that sees the report of
    an invalid sample, the wire staying low until the reading window has
    closed, ends in Error with a count of zero. *)
Theorem invalid_sample_is_error :
  (forall adcvalue : Z,
      Client.invalid adcvalue = true
      <-> adcvalue = 0 \/ adcvalue > Client.MAXVOLTAGEADCVALUE)
  /\ (forall (adcvalue : Z) (s : Client.mcu),
        Client.invalid adcvalue = true ->
        let s' := Client.report adcvalue s in
        Client.wire s'
        = Client.wire s ++ [(false, Client.Millis Client.BRIEFBLINKDELAYMS)]
        /\ Client.line s' = false
        /\ Client.line (Client.sleep_tail s') = false
        /\ Client.led_on s' = true)
  /\ (forall (pinb : Z) (s : mcu),
        g_readDataState s = Read_Reading ->
        truthy (readPinB2 pinb) = false ->
        g_readDataState (ISR_TIM0_COMPA pinb s) = Read_Error)
  /\ (forall (adcvalue : Z) (c rest : N) (s : Client.mcu) (r : receiver),
        Client.invalid adcvalue = true ->
        Client.wire s = [] ->
        listening r ->
        (VERIFYTRIGGERTIMEOUT + READINGTIMEOUT) * 256 <= Z.of_N rest ->
        let r' := hold_for rest false
                    (receive c (Client.wire (Client.report adcvalue s)) r) in
        g_readDataState (cpu r') = Read_Error
        /\ g_incomingCount (cpu r') = 0).
Proof.
  assert (Hrep : forall (adcvalue : Z) (s : Client.mcu),
             Client.invalid adcvalue = true ->
             Client.wire (Client.report adcvalue s)
             = Client.wire s
               ++ [(false, Client.Millis Client.BRIEFBLINKDELAYMS)]
             /\ Client.line (Client.report adcvalue s) = false
             /\ Client.line (Client.sleep_tail (Client.report adcvalue s))
                = false
             /\ Client.led_on (Client.report adcvalue s) = true).
  { intros adcvalue s Hinv. unfold Client.report. rewrite Hinv.
    destruct (outputDataError_spec s) as (A & B & C).
    destruct (sleep_tail_line (Client.outputDataError s)) as [D _].
    rewrite D, A, B, C. now repeat split. }
  split; [|split; [|split]].
  - intros adcvalue. unfold Client.invalid, Client.MAXVOLTAGEADCVALUE.
    rewrite orb_true_iff, Z.eqb_eq, Z.gtb_ltb, Z.ltb_lt. lia.
  - exact Hrep.
  - intros pinb s Hst Hpin. unfold ISR_TIM0_COMPA. now rewrite Hst, Hpin.
  - intros adcvalue c rest s r Hinv Hw Hl Hrest r'.
    destruct (Hrep adcvalue s Hinv) as (Hwire & _).
    assert (Hfin : finished Read_Error 0 r').
    { subst r'. rewrite Hwire, Hw. cbn [app].
      change (receive c [(false, Client.Millis Client.BRIEFBLINKDELAYMS)] r)
        with (hold_for (Client.BRIEFBLINKDELAYMS * (F_CPU / 1000)) false r).
      rewrite hold_for_add.
      change (Client.BRIEFBLINKDELAYMS * (F_CPU / 1000))%N with 400000%N.
      apply low_hold_received; trivial. lia. }
    destruct Hfin as (A & B & _). now split.
Qed.

Lemma invalid_sample_is_error_witness :
  Client.line (Client.report 0 Client.initializeRegisters) = false
  /\ Client.line (Client.report 250 Client.initializeRegisters) = false
  /\ g_readDataState
       (cpu (hold_for 4100000 false
               (receive 20
                  (Client.wire (Client.report 0 Client.initializeRegisters))
                  {| cpu := resetAndStartTimer
                             (resetReadStateToIdle initializeRegisters);
                     prescaler := 17;
                     last_level := true |})))
     = Read_Error.
Proof.
  destruct invalid_sample_is_error as (_ & Hrep & _ & Hrun).
  split; [|split].
  - apply (Hrep 0 Client.initializeRegisters). reflexivity.
  - apply (Hrep 250 Client.initializeRegisters). reflexivity.
  - pose proof (Hrun 0 20%N 4100000%N Client.initializeRegisters
                  {| cpu := resetAndStartTimer
                             (resetReadStateToIdle initializeRegisters);
                     prescaler := 17;
                     last_level := true |}) as H.
    feed H ltac:(reflexivity).
    feed H ltac:(reflexivity).
    feed H ltac:(vm_compute;
                 split; [reflexivity|]; split; [reflexivity|];
                 split; [reflexivity|]; split; [right; reflexivity|];
                 split; [discriminate | reflexivity]).
    feed H ltac:(vm_compute; discriminate).
    apply H.
Defined.

End OnTheWire.

(** * Further properties *)

(** ** The decoder's routines as a state machine *)
Section DecoderMachine.

Import Master.

Lemma well_configured_serve (e : irq) (s : mcu) :
  well_configured s -> well_configured (serve e s).
Proof.
  destruct s as [st ic lc th it pb dd pu tc oc tb ea em ad pr].
  unfold well_configured, MAXTIMEOUTCOUNT, MAXTIMEOUT, VERIFYTRIGGERTIMEOUT,
    READINGTIMEOUT.
  cbn [g_incomingCount g_idleTimeoutCount g_readDataState EIMSK EICRA OCR0A
       TCCR0B].
  intros (Hic & Hit & Hst).
  destruct e as [|pinb| |]; destruct st; cbn [serve ISR_WDT];
    try (now repeat split).
  - (* line request in Idle *)
    destruct Hst as (_ & _ & _ & ->). unfold ISR_INT0. cbn. now repeat split.
  - (* line request in Reading *)
    unfold ISR_INT0. cbn -[Z.add]. unfold u16.
    repeat split; try apply Hst; try apply Hit;
      apply Z.mod_pos_bound; lia.
  - (* compare match in VerifyTrigger *)
    destruct Hst as (_ & _ & ->). unfold ISR_TIM0_COMPA.
    cbn -[truthy readPinB2]. destruct (truthy (readPinB2 pinb)); cbn;
      repeat split; try apply Hic; try apply Hit; discriminate.
  - (* compare match in Reading *)
    destruct Hst as (_ & _ & _ & ->). unfold ISR_TIM0_COMPA.
    cbn -[truthy readPinB2]. destruct (truthy (readPinB2 pinb)); cbn;
      repeat split; try apply Hic; try apply Hit.
  - (* overflow in Idle *)
    destruct Hst as (Hem & Hea & Hoc & ->). unfold ISR_TIM0_OVF.
    cbn -[Z.add Z.gtb]. unfold u16, MAXTIMEOUTCOUNT.
    rewrite Z.mod_small by lia.
    destruct (it + 1 >? 5) eqn:Hgt; cbn -[Z.add].
    + repeat split; try apply Hic; discriminate.
    + rewrite Z.gtb_ltb in Hgt. apply Z.ltb_ge in Hgt.
      repeat split; trivial; try apply Hic; lia.
Qed.

Lemma well_configured_control (s s' : mcu) :
  control s' = control s -> well_configured s -> well_configured s'.
Proof.
  intros H Hw.
  change (well_configured (control s')). rewrite H. exact Hw.
Qed.

Lemma well_configured_serve_all (es : list irq) :
  forall s : mcu, well_configured s -> well_configured (serve_all es s).
Proof.
  induction es as [|e es IH]; intros s Hw; [exact Hw|].
  cbn [serve_all fold_left]. apply IH. now apply well_configured_serve.
Qed.

(** X1.  The register discipline of the decoder.  The two calls with
    which [main] starts listening establish [well_configured]; every
    interrupt routine keeps it, whatever the request and whatever [PINB]
    reads; so it holds after any sequence of requests, and when the busy
    wait of [main] returns INT0 is masked and the timer is stopped. *)
Theorem decoder_discipline :
  (forall s : mcu,
      0 <= g_incomingCount s < 65536 ->
      TCCR0B s = 0x00 \/ TCCR0B s = 0x04 ->
      well_configured (resetAndStartTimer (resetReadStateToIdle s)))
  /\ (forall (es : list irq) (s : mcu),
        well_configured s -> well_configured (serve_all es s))
  /\ (forall (sched : list wait_step) (s s' : mcu),
        well_configured s ->
        busy_wait sched s = Some s' ->
        well_configured s' /\ EIMSK s' = 0x00 /\ TCCR0B s' = 0x00).
Proof.
  split; [|split].
  - intros s Hic Htb.
    destruct s as [st ic lc th it pb dd pu tc oc tb ea em ad pr].
    unfold well_configured, MAXTIMEOUTCOUNT. cbn in *.
    repeat split; try apply Hic; try discriminate.
    destruct Htb as [->| ->]; reflexivity.
  - intros es s. apply well_configured_serve_all.
  - intros sched. induction sched as [|w sched IH]; intros s s' Hw Hb;
      cbn [busy_wait] in Hb; destruct (reading_done s) eqn:Hd.
    + injection Hb as <-. split; [exact Hw|].
      unfold reading_done in Hd. apply orb_true_iff in Hd.
      destruct Hw as (_ & _ & Hst).
      destruct Hd as [Hd|Hd]; apply ReadDataState_eqb_eq in Hd;
        rewrite Hd in Hst; exact Hst.
    + discriminate.
    + injection Hb as <-. split; [exact Hw|].
      unfold reading_done in Hd. apply orb_true_iff in Hd.
      destruct Hw as (_ & _ & Hst).
      destruct Hd as [Hd|Hd]; apply ReadDataState_eqb_eq in Hd;
        rewrite Hd in Hst; exact Hst.
    + destruct w as [|e].
      * apply (IH _ _ (well_configured_control _ _
                         (control_incrementAndBlinkLed s) Hw) Hb).
      * apply (IH _ _ (well_configured_serve e s Hw) Hb).
Qed.

Lemma decoder_discipline_witness :
  well_configured
    (resetAndStartTimer (resetReadStateToIdle initializeRegisters))
  /\ well_configured
       (serve_all (frame_irqs 3)
          (resetAndStartTimer (resetReadStateToIdle initializeRegisters))).
Proof.
  destruct decoder_discipline as (He & Hs & _).
  assert (H : well_configured
                (resetAndStartTimer
                   (resetReadStateToIdle initializeRegisters))).
  { apply He; [vm_compute; split; [discriminate | reflexivity]
              | left; reflexivity]. }
  split; [exact H | apply Hs; exact H].
Defined.

(** Line requests in Reading add up modulo 2^16. *)
Lemma reading_counts (n : nat) :
  forall s : mcu,
    g_readDataState s = Read_Reading ->
    0 <= g_incomingCount s < 65536 ->
    let s' := serve_all (repeat INT0_vect n) s in
    g_readDataState s' = Read_Reading
    /\ g_incomingCount s' = (g_incomingCount s + Z.of_nat n) mod 65536
    /\ EIMSK s' = EIMSK s /\ TCCR0B s' = TCCR0B s.
Proof.
  induction n as [|n IH]; intros s Hst Hic.
  - cbn. rewrite Z.add_0_r, Z.mod_small by lia. now repeat split.
  - cbn [repeat serve_all fold_left serve].
    assert (H1 : ISR_INT0 s
                 = set_g_incomingCount (u16 (g_incomingCount s + 1)) s)
      by (unfold ISR_INT0; now rewrite Hst).
    rewrite H1.
    specialize (IH (set_g_incomingCount (u16 (g_incomingCount s + 1)) s)).
    cbn [g_readDataState g_incomingCount set_g_incomingCount EIMSK TCCR0B]
      in IH.
    destruct IH as (A & B & C & D); trivial.
    { unfold u16. apply Z.mod_pos_bound. lia. }
    unfold serve_all in *. rewrite A, B, C, D. repeat split.
    unfold u16. rewrite Zplus_mod_idemp_l. f_equal. lia.
Qed.

(** X2.  The edge counter is a 16-bit counter.  In Reading, [n] line
    requests leave the decoder in Reading with the counter at its old
    value plus [n] modulo 65536; in particular 65536 requests bring it
    back to where it was. *)
Theorem edge_counter_wraps (n : nat) (s : mcu) :
  g_readDataState s = Read_Reading ->
  0 <= g_incomingCount s < 65536 ->
  let s' := serve_all (repeat INT0_vect n) s in
  g_readDataState s' = Read_Reading
  /\ g_incomingCount s' = (g_incomingCount s + Z.of_nat n) mod 65536
  /\ (Z.of_nat n = 65536 -> g_incomingCount s' = g_incomingCount s).
Proof.
  intros Hst Hic s'.
  destruct (reading_counts n s Hst Hic) as (A & B & _).
  subst s'. repeat split; trivial.
  intros Hn. rewrite B, Hn.
  replace (g_incomingCount s + 65536) with (g_incomingCount s + 1 * 65536)
    by lia.
  rewrite Z.mod_add by lia. apply Z.mod_small. lia.
Qed.

Lemma edge_counter_wraps_witness :
  g_incomingCount
    (serve_all (repeat INT0_vect 5)
       (set_g_incomingCount 65534
          (set_g_readDataState Read_Reading initializeRegisters)))
  = 3.
Proof.
  destruct (edge_counter_wraps 5
              (set_g_incomingCount 65534
                 (set_g_readDataState Read_Reading initializeRegisters)))
    as (_ & B & _).
  - reflexivity.
  - vm_compute. split; [discriminate | reflexivity].
  - rewrite B. reflexivity.
Defined.

(** X3.  A frame as the routines see it.  From Idle, a line request, a
    compare match that reads PB2 low, [v] line requests and a closing
    compare match leave the edge counter at [v] modulo 65536 with INT0
    masked and the timer stopped; the decoder is in Timeout if the closing
    match reads PB2 high and in Error if it reads it low.  Only bit 2 of
    [PINB] matters. *)
Theorem frame_requests_decode (lo hi : Z) (v : nat) (s : mcu) :
  g_readDataState s = Read_Idle ->
  truthy (readPinB2 lo) = false ->
  let s' := serve_all ([INT0_vect; TIM0_COMPA_vect lo] ++ repeat INT0_vect v
                       ++ [TIM0_COMPA_vect hi]) s in
  g_incomingCount s' = Z.of_nat v mod 65536
  /\ g_readDataState s'
     = (if truthy (readPinB2 hi) then Read_Timeout else Read_Error)
  /\ EIMSK s' = 0x00
  /\ Z.testbit (TCCR0B s') 2 = false.
Proof.
  intros Hst Hlo s'. subst s'. rewrite !serve_all_app.
  set (s1 := serve_all [INT0_vect; TIM0_COMPA_vect lo] s).
  assert (H1 : g_readDataState s1 = Read_Reading /\ g_incomingCount s1 = 0).
  { subst s1. cbn [serve_all fold_left serve].
    unfold ISR_INT0. rewrite Hst. unfold ISR_TIM0_COMPA.
    cbn -[truthy readPinB2]. rewrite Hlo. cbn. now split. }
  destruct H1 as [A B].
  destruct (reading_counts v s1 A ltac:(rewrite B; lia)) as (C & D & _).
  rewrite B in D. cbn [Z.add] in D. revert C D.
  generalize (serve_all (repeat INT0_vect v) s1). intros s2 C D.
  cbn [serve_all fold_left serve]. unfold ISR_TIM0_COMPA. rewrite C.
  unfold stopTimer.
  cbn [g_incomingCount g_readDataState EIMSK TCCR0B set_EIMSK
       set_g_readDataState set_TCCR0B].
  repeat split; trivial.
  rewrite Z.land_spec. apply andb_false_r.
Qed.

Lemma frame_requests_decode_witness :
  let s' := serve_all ([INT0_vect; TIM0_COMPA_vect 0xFB] ++ repeat INT0_vect 7
                       ++ [TIM0_COMPA_vect 0x0F])
              (resetAndStartTimer (resetReadStateToIdle initializeRegisters)) in
  g_incomingCount s' = 7 /\ g_readDataState s' = Read_Timeout.
Proof.
  intros s'.
  destruct (frame_requests_decode 0xFB 0x0F 7
              (resetAndStartTimer (resetReadStateToIdle initializeRegisters))
              eq_refl eq_refl) as (A & B & _).
  split; [exact A | exact B].
Defined.

End DecoderMachine.

(** ** The master's helpers and main loop *)
Section MasterHelpers.

Import Master.

Lemma toggleLed_count (s : mcu) :
  g_ledBlinkCount (toggleLed s) = g_ledBlinkCount s.
Proof. unfold toggleLed. now destruct (truthy _). Qed.

Lemma incrementAndBlinkLed_step (s : mcu) :
  g_ledBlinkCount (incrementAndBlinkLed s) = u16 (g_ledBlinkCount s + 1)
  /\ led_on (incrementAndBlinkLed s)
     = xorb (led_on s) (u16 (g_ledBlinkCount s + 1) mod BLINKTOGGLEVALUE =? 0).
Proof.
  unfold incrementAndBlinkLed.
  cbn [g_ledBlinkCount set_g_ledBlinkCount].
  destruct (_ =? 0).
  - rewrite toggleLed_count, led_on_toggleLed. cbn [g_ledBlinkCount].
    split; [reflexivity|]. unfold led_on. cbn [PORTB set_g_ledBlinkCount].
    now rewrite xorb_true_r.
  - split; [reflexivity|]. unfold led_on. cbn [PORTB set_g_ledBlinkCount].
    now rewrite xorb_false_r.
Qed.

(** X4.  The blinking of the busy loops.  After [n] passes of a busy loop
    the blink counter has advanced by [n] modulo 65536, and the LED has
    been toggled once for every multiple of [BLINKTOGGLEVALUE] (16384) the
    count has passed: it differs from what it was exactly when that number
    is odd. *)
Theorem spin_blinks (n : N) (s : mcu) :
  0 <= g_ledBlinkCount s < 65536 ->
  g_ledBlinkCount (spin n s) = (g_ledBlinkCount s + Z.of_N n) mod 65536
  /\ led_on (spin n s)
     = xorb (led_on s)
         (Z.odd ((g_ledBlinkCount s + Z.of_N n) / BLINKTOGGLEVALUE
                 - g_ledBlinkCount s / BLINKTOGGLEVALUE)).
Proof.
  intros Hk. unfold spin, BLINKTOGGLEVALUE.
  induction n as [|n [IHc IHl]] using N.peano_ind.
  - cbn [N.iter Z.of_N]. rewrite Z.add_0_r, Z.sub_diag, Z.mod_small by lia.
    cbn. now rewrite xorb_false_r.
  - rewrite N.iter_succ, N2Z.inj_succ.
    destruct (incrementAndBlinkLed_step (N.iter n incrementAndBlinkLed s))
      as [Hc Hl].
    rewrite Hc, Hl, IHc, IHl. unfold u16, BLINKTOGGLEVALUE.
    set (k := g_ledBlinkCount s) in *. set (m := Z.of_N n).
    assert (Hm : 0 <= m) by (subst m; lia).
    rewrite Zplus_mod_idemp_l.
    replace (k + m + 1) with (k + Z.succ m) by lia.
    split; [reflexivity|].
    assert (Hmod : ((k + Z.succ m) mod 65536) mod 16384
                   = (k + Z.succ m) mod 16384).
    { pose proof (Z.div_mod (k + Z.succ m) 65536 ltac:(lia)).
      pose proof (Z.mod_pos_bound (k + Z.succ m) 65536 ltac:(lia)).
      apply Z.mod_unique with
        (4 * ((k + Z.succ m) / 65536)
         + ((k + Z.succ m) mod 65536) / 16384).
      - left. apply Z.mod_pos_bound. lia.
      - pose proof (Z.div_mod ((k + Z.succ m) mod 65536) 16384 ltac:(lia)).
        lia. }
    rewrite Hmod, xorb_assoc. f_equal.
    pose proof (Z.div_mod (k + m) 16384 ltac:(lia)) as Hd.
    pose proof (Z.mod_pos_bound (k + m) 16384 ltac:(lia)) as Hb.
    set (q := (k + m) / 16384) in *. set (r := (k + m) mod 16384) in *.
    destruct (Z.eq_dec r 16383) as [Hr|Hr].
    + assert (Hq : (k + Z.succ m) / 16384 = q + 1)
        by (symmetry; apply Z.div_unique with 0; lia).
      assert (Hz : (k + Z.succ m) mod 16384 = 0)
        by (symmetry; apply Z.mod_unique with (q + 1); lia).
      rewrite Hq, Hz. cbn [Z.eqb]. rewrite xorb_true_r.
      replace (q + 1 - k / 16384) with (Z.succ (q - k / 16384)) by lia.
      now rewrite Z.odd_succ, <- Z.negb_odd.
    + assert (Hq : (k + Z.succ m) / 16384 = q)
        by (symmetry; apply Z.div_unique with (r + 1); lia).
      assert (Hz : (k + Z.succ m) mod 16384 = r + 1)
        by (symmetry; apply Z.mod_unique with q; lia).
      rewrite Hq, Hz.
      replace (r + 1 =? 0) with false by (symmetry; apply Z.eqb_neq; lia).
      now rewrite xorb_false_r.
Qed.

Lemma spin_blinks_witness :
  g_ledBlinkCount (spin 40000 initializeRegisters) = 40000
  /\ led_on (spin 40000 initializeRegisters) = false.
Proof.
  destruct (spin_blinks 40000 initializeRegisters) as [A B].
  - vm_compute. split; [discriminate | reflexivity].
  - split; [exact A | exact B].
Defined.

Lemma bit3_set (x i : Z) :
  0 <= i ->
  Z.testbit (Z.lor x (_BV 3)) i = Z.testbit x i || (i =? 3).
Proof.
  intros Hi. rewrite Z.lor_spec. change (_BV 3) with (2 ^ 3).
  rewrite Z.pow2_bits_eqb by lia. now rewrite (Z.eqb_sym 3 i).
Qed.

Lemma bit3_clear (x i : Z) :
  0 <= i ->
  Z.testbit (Z.land x (Z.lnot (_BV 3))) i = Z.testbit x i && negb (i =? 3).
Proof.
  intros Hi. rewrite Z.land_spec, Z.lnot_spec by lia.
  change (_BV 3) with (2 ^ 3).
  rewrite Z.pow2_bits_eqb by lia. now rewrite (Z.eqb_sym 3 i).
Qed.

Lemma turnOnClient_fields (s t : mcu) :
  let s1 :=
    set_DDRB
      (Z.lor (DDRB (set_PUEB (Z.land (PUEB s) (Z.lnot (_BV 3))) s)) (_BV 3))
      (set_PUEB (Z.land (PUEB s) (Z.lnot (_BV 3))) s) in
  control t = control s1 ->
  DDRB t = Z.lor (DDRB s) (_BV 3)
  /\ PUEB t = Z.land (PUEB s) (Z.lnot (_BV 3))
  /\ decoder_view t = decoder_view s
  /\ g_adcThreshold t = g_adcThreshold s.
Proof.
  intros s1 Hc. destruct (control_fields _ _ Hc) as (A & B & C & D).
  rewrite A, B, C, D. subst s1. now repeat split.
Qed.

(** X5.  The client's supply switch.  [turnOnClient] drives PB3 (bit 3 of
    [DDRB] set) with its pull-up disabled (bit 3 of [PUEB] clear), and
    [turnOffClient] does the reverse; neither touches any other bit of the
    two registers, the decoder's variables and registers, or the
    threshold, and switching off after switching on gives the same two
    registers as switching off alone. *)
Theorem client_switch (s : mcu) :
  (forall i, 0 <= i ->
     Z.testbit (DDRB (turnOnClient s)) i = Z.testbit (DDRB s) i || (i =? 3))
  /\ (forall i, 0 <= i ->
        Z.testbit (PUEB (turnOnClient s)) i
        = Z.testbit (PUEB s) i && negb (i =? 3))
  /\ (forall i, 0 <= i ->
        Z.testbit (DDRB (turnOffClient s)) i
        = Z.testbit (DDRB s) i && negb (i =? 3))
  /\ (forall i, 0 <= i ->
        Z.testbit (PUEB (turnOffClient s)) i
        = Z.testbit (PUEB s) i || (i =? 3))
  /\ decoder_view (turnOnClient s) = decoder_view s
  /\ g_adcThreshold (turnOnClient s) = g_adcThreshold s
  /\ DDRB (turnOffClient (turnOnClient s)) = DDRB (turnOffClient s)
  /\ PUEB (turnOffClient (turnOnClient s)) = PUEB (turnOffClient s).
Proof.
  assert (Hon : DDRB (turnOnClient s) = Z.lor (DDRB s) (_BV 3)
                /\ PUEB (turnOnClient s) = Z.land (PUEB s) (Z.lnot (_BV 3))
                /\ decoder_view (turnOnClient s) = decoder_view s
                /\ g_adcThreshold (turnOnClient s) = g_adcThreshold s).
  { apply (turnOnClient_fields s (turnOnClient s)).
    unfold turnOnClient. apply control_spin. }
  destruct Hon as (A & B & C & D). revert A B C D.
  generalize (turnOnClient s). intros t A B C D.
  unfold turnOffClient. cbn [DDRB PUEB set_DDRB set_PUEB].
  rewrite A, B.
  split; [|split; [|split; [|split; [|split; [|split; [|split]]]]]]; trivial.
  - intros i Hi. now apply bit3_set.
  - intros i Hi. now apply bit3_clear.
  - intros i Hi. now apply bit3_clear.
  - intros i Hi. now apply bit3_set.
  - apply Z.bits_inj'. intros i Hi.
    rewrite !bit3_clear, bit3_set by lia.
    destruct (Z.testbit (DDRB s) i), (i =? 3); reflexivity.
  - apply Z.bits_inj'. intros i Hi.
    rewrite !bit3_set, bit3_clear by lia.
    destruct (Z.testbit (PUEB s) i), (i =? 3); reflexivity.
Qed.

(** X6.  The averaged reference.  [getAdcValueBusyWaitWithAveraging]
    returns the sum of four 8-bit readings divided by four, rounded down:
    a value from 0 to 255 that lies between the smallest and the largest
    of the four readings, and equals the reading when all four agree. *)
Theorem averaging_value (convs : nat -> conversion) (s : mcu) :
  let a := fun i => adcValue (convs i) in
  let r := fst (getAdcValueBusyWaitWithAveraging convs s) in
  r = (a 0%nat + a 1%nat + a 2%nat + a 3%nat) / 4
  /\ 0 <= r <= 255
  /\ Z.min (Z.min (a 0%nat) (a 1%nat)) (Z.min (a 2%nat) (a 3%nat)) <= r
  /\ r <= Z.max (Z.max (a 0%nat) (a 1%nat)) (Z.max (a 2%nat) (a 3%nat))
  /\ (a 1%nat = a 0%nat -> a 2%nat = a 0%nat -> a 3%nat = a 0%nat ->
      r = a 0%nat).
Proof.
  intros a r. subst r. rewrite averaging_sum. fold (a 0%nat) (a 1%nat)
    (a 2%nat) (a 3%nat).
  assert (Hb : forall i, 0 <= a i < 256)
    by (intros i; unfold a, adcValue, u8; apply Z.mod_pos_bound; lia).
  pose proof (Hb 0%nat). pose proof (Hb 1%nat).
  pose proof (Hb 2%nat). pose proof (Hb 3%nat).
  pose proof (Z.div_mod (a 0%nat + a 1%nat + a 2%nat + a 3%nat) 4 ltac:(lia)).
  pose proof (Z.mod_pos_bound (a 0%nat + a 1%nat + a 2%nat + a 3%nat) 4
                ltac:(lia)).
  repeat split; try lia.
Qed.

Lemma some_list_inj (h h' : list (branch * mcu)) :
  Some h = Some h' -> h = h'.
Proof. intros H. now injection H. Qed.

(** The branch [conclude] takes after a Timeout, by the numbers. *)
Lemma conclude_branch (convs : nat -> conversion) (s : mcu) :
  g_readDataState s = Read_Timeout ->
  0 <= g_adcThreshold s <= ADCTHRESHOLDHI ->
  let R := fst (getAdcValueBusyWaitWithAveraging convs s) in
  fst (conclude convs s)
  = if (g_incomingCount s <? R + g_adcThreshold s)
       && (g_incomingCount s <? MAXVOLTAGEADCVALUE)
    then KeepCharging else StopCharging.
Proof.
  intros Hst Hth R. rewrite (conclude_timeout convs s Hst). cbv zeta.
  fold R.
  destruct (averaging_spec convs s) as [_ HR]. fold R in HR.
  unfold u16, ADCTHRESHOLDHI in *. rewrite Z.mod_small by lia.
  now destruct (_ && _).
Qed.

Lemma averaging_ignores_threshold (convs : nat -> conversion) (v : Z)
    (s : mcu) :
  fst (getAdcValueBusyWaitWithAveraging convs (set_g_adcThreshold v s))
  = fst (getAdcValueBusyWaitWithAveraging convs s).
Proof. now rewrite !averaging_sum. Qed.

(** X7.  The dead band of the hysteresis.  For a decoder in Timeout with
    count V and a reference R (the floor of the mean of the four
    readings): a stored threshold of 7 makes the controller keep charging
    while a stored threshold of 4 makes it stop exactly when
    R + 4 <= V < R + 7 and V < 232.  Outside that band the decision does
    not depend on the stored threshold. *)
Theorem hysteresis_band (convs : nat -> conversion) (s : mcu) :
  g_readDataState s = Read_Timeout ->
  let V := g_incomingCount s in
  let R := (adcValue (convs 0%nat) + adcValue (convs 1%nat)
            + adcValue (convs 2%nat) + adcValue (convs 3%nat)) / 4 in
  let hi := fst (conclude convs (set_g_adcThreshold ADCTHRESHOLDHI s)) in
  let lo := fst (conclude convs (set_g_adcThreshold ADCTHRESHOLDLOW s)) in
  (hi = KeepCharging /\ lo = StopCharging
   <-> R + ADCTHRESHOLDLOW <= V < R + ADCTHRESHOLDHI
       /\ V < MAXVOLTAGEADCVALUE)
  /\ (~ (R + ADCTHRESHOLDLOW <= V < R + ADCTHRESHOLDHI
         /\ V < MAXVOLTAGEADCVALUE) -> hi = lo).
Proof.
  intros Hst V R hi lo. subst hi lo.
  rewrite !conclude_branch; trivial;
    try (unfold ADCTHRESHOLDHI, ADCTHRESHOLDLOW; cbn; lia).
  cbv zeta. rewrite !averaging_ignores_threshold, averaging_sum. fold R.
  cbn [g_incomingCount g_adcThreshold set_g_adcThreshold]. fold V.
  unfold ADCTHRESHOLDHI, ADCTHRESHOLDLOW, MAXVOLTAGEADCVALUE.
  destruct (V <? R + 7) eqn:H7; destruct (V <? R + 4) eqn:H4;
    destruct (V <? 232) eqn:Hm; cbn [andb];
    rewrite ?Z.ltb_lt, ?Z.ltb_ge in *;
    (split; [split; [intros [? ?]; try discriminate; lia
                    | intros ?; try lia; split; reflexivity]
            | intros ?; try reflexivity; lia]).
Qed.

Lemma hysteresis_band_witness :
  let s := set_g_incomingCount 109
             (set_g_readDataState Read_Timeout initializeRegisters) in
  let convs := fun _ : nat => mkConversion 2 104 in
  fst (conclude convs (set_g_adcThreshold ADCTHRESHOLDHI s)) = KeepCharging
  /\ fst (conclude convs (set_g_adcThreshold ADCTHRESHOLDLOW s))
     = StopCharging.
Proof.
  intros s convs.
  destruct (hysteresis_band convs s eq_refl) as [[_ H] _].
  apply H. vm_compute. repeat split; discriminate || reflexivity.
Defined.

(** X8.  Charging is only ever continued on a valid reading below the
    absolute maximum: when [conclude] takes the [continue] branch the
    decoder was in Timeout, the count is below [MAXVOLTAGEADCVALUE] (232),
    and the state comes back with that count, the threshold at its high
    value and the supply switch as it was. *)
Theorem keep_charging_is_bounded (convs : nat -> conversion) (s s' : mcu) :
  conclude convs s = (KeepCharging, s') ->
  g_readDataState s = Read_Timeout
  /\ g_incomingCount s < MAXVOLTAGEADCVALUE
  /\ g_incomingCount s' = g_incomingCount s
  /\ g_adcThreshold s' = ADCTHRESHOLDHI
  /\ DDRB s' = DDRB s.
Proof.
  intros H.
  destruct (ReadDataState_eqb (g_readDataState s) Read_Timeout) eqn:Hst.
  - apply ReadDataState_eqb_eq in Hst.
    rewrite (conclude_timeout convs s Hst) in H. cbv zeta in H.
    destruct (averaging_spec convs s) as [Hc _].
    pose proof (control_count _ _ Hc) as Hcnt.
    destruct (control_fields _ _ Hc) as (_ & Hd & _).
    revert H Hcnt Hd.
    generalize (snd (getAdcValueBusyWaitWithAveraging convs s)).
    intros t H Hcnt Hd.
    destruct (g_incomingCount s <? _) eqn:H1; cbn [andb] in H;
      [destruct (g_incomingCount s <? MAXVOLTAGEADCVALUE) eqn:H2|].
    + apply Z.ltb_lt in H2.
      assert (Hs : s' = set_g_adcThreshold ADCTHRESHOLDHI t)
        by (injection H as <-; reflexivity).
      subst s'. cbn [g_incomingCount g_adcThreshold DDRB set_g_adcThreshold].
      now repeat split.
    + revert H. generalize (sleep_tail
        (turnOffLed (set_g_adcThreshold ADCTHRESHOLDLOW t))).
      intros u H. discriminate.
    + revert H. generalize (sleep_tail
        (turnOffLed (set_g_adcThreshold ADCTHRESHOLDLOW t))).
      intros u H. discriminate.
  - unfold conclude in H. rewrite Hst in H. revert H.
    generalize (sleep_tail (turnOnLed s)). intros u H. discriminate.
Qed.

Lemma keep_charging_is_bounded_witness :
  let s := set_g_incomingCount 100
             (set_g_readDataState Read_Timeout initializeRegisters) in
  g_readDataState s = Read_Timeout /\ g_incomingCount s < MAXVOLTAGEADCVALUE.
Proof.
  intros s.
  destruct (keep_charging_is_bounded (fun _ => mkConversion 2 104) s
              (snd (conclude (fun _ => mkConversion 2 104) s)))
    as (A & B & _).
  - vm_compute. reflexivity.
  - split; [exact A | exact B].
Defined.

(** X9.  The threshold only ever holds one of its two values: started
    with 4 or 7, as [initializeRegisters] does, every pass of the main
    loop leaves 4 or 7. *)
Theorem threshold_two_valued (envs : list pass_env) (s0 : mcu)
    (h : list (branch * mcu)) :
  g_adcThreshold s0 = ADCTHRESHOLDHI \/ g_adcThreshold s0 = ADCTHRESHOLDLOW ->
  main_loop envs s0 = Some h ->
  Forall (fun p : branch * mcu =>
            g_adcThreshold (snd p) = ADCTHRESHOLDHI
            \/ g_adcThreshold (snd p) = ADCTHRESHOLDLOW) h.
Proof.
  revert s0 h. induction envs as [|env envs IH]; intros s0 h Hth Hrun.
  - cbn in Hrun. injection Hrun as <-. constructor.
  - cbn [main_loop] in Hrun.
    destruct (main_pass env s0) as [[b s']|] eqn:Hp; [|discriminate].
    destruct (main_loop envs s') as [h'|] eqn:Hl; [|discriminate].
    apply some_list_inj in Hrun. subst h.
    pose proof (main_pass_threshold _ _ _ _ Hp) as Hb.
    assert (Hth' : g_adcThreshold s' = ADCTHRESHOLDHI
                   \/ g_adcThreshold s' = ADCTHRESHOLDLOW).
    { destruct b; destruct Hb as [P _]; rewrite P; auto. }
    constructor; [exact Hth'|]. now apply (IH s').
Qed.

Lemma threshold_two_valued_witness :
  Forall (fun p : branch * mcu =>
            g_adcThreshold (snd p) = ADCTHRESHOLDHI
            \/ g_adcThreshold (snd p) = ADCTHRESHOLDLOW)
    (history_of (main_loop [sample_pass 150 [] 104; sample_pass 9 [] 0]
                   initializeRegisters)).
Proof.
  apply (threshold_two_valued [sample_pass 150 [] 104; sample_pass 9 [] 0]
           initializeRegisters).
  - left. reflexivity.
  - vm_compute. reflexivity.
Defined.

Lemma sleep_tail_power_fields (s t : mcu) :
  let s1 := turnOffClient s in
  let s2 := set_PRR 0x03 (set_ADCSRA (Z.land (ADCSRA s1) 0x7F) s1) in
  control t = control s2 ->
  let r := set_ADCSRA (Z.lor (ADCSRA (set_PRR 0x00 t)) 0x80) (set_PRR 0x00 t) in
  PRR r = 0x00
  /\ Z.testbit (ADCSRA r) 7 = true
  /\ Z.testbit (PUEB r) 3 = true.
Proof.
  intros s1 s2 Hc r. destruct (control_fields _ _ Hc) as (_ & _ & C & _).
  subst r. cbn [PRR ADCSRA PUEB set_ADCSRA set_PRR]. rewrite C.
  subst s2 s1. unfold turnOffClient. cbn [PUEB set_PRR set_ADCSRA set_DDRB
                                          set_PUEB].
  repeat split.
  - rewrite Z.lor_spec. apply orb_true_r.
  - rewrite Z.lor_spec. apply orb_true_r.
Qed.

Lemma sleep_tail_power (s : mcu) :
  PRR (sleep_tail s) = 0x00
  /\ Z.testbit (ADCSRA (sleep_tail s)) 7 = true
  /\ Z.testbit (PUEB (sleep_tail s)) 3 = true.
Proof.
  apply (sleep_tail_power_fields s
           (N.iter SLEEPDELAYCOUNT heartbeat
              (set_PRR 0x03
                 (set_ADCSRA (Z.land (ADCSRA (turnOffClient s)) 0x7F)
                    (turnOffClient s))))).
  apply heartbeats_spec.
Qed.

(** X10.  Going to sleep.  Every pass of the main loop that does not end
    by [continue] has gone through the sleep tail: it leaves the client
    switched off with the pull-up on PB3 enabled, power restored to the
    peripherals ([PRR] zero) and the converter enabled again, and the LED
    on exactly when the pass is a fault. *)
Theorem pass_ends_asleep (env : pass_env) (s s' : mcu) (b : branch) :
  main_pass env s = Some (b, s') ->
  b <> KeepCharging ->
  client_on s' = false
  /\ Z.testbit (PUEB s') 3 = true
  /\ PRR s' = 0x00
  /\ Z.testbit (ADCSRA s') 7 = true
  /\ (led_on s' = true <-> b = Fault).
Proof.
  intros Hp Hb.
  pose proof (main_pass_threshold _ _ _ _ Hp) as Hcl.
  assert (Hoff : client_on s' = false)
    by (destruct b; try apply Hcl; congruence).
  revert Hp. rewrite main_pass_unfold. cbv zeta.
  generalize (snd (getAdcValueBusyWait (input_read env) s)). intros s0.
  assert (Htail : forall x (b0 : branch),
             Some (b0, sleep_tail x) = Some (b, s') ->
             b0 = b
             /\ Z.testbit (PUEB s') 3 = true /\ PRR s' = 0x00
             /\ Z.testbit (ADCSRA s') 7 = true
             /\ led_on s' = led_on x).
  { intros x b0 E.
    destruct (sleep_tail_power x) as (P1 & P2 & P3).
    destruct (sleep_tail_spec x) as (_ & _ & _ & L).
    revert E P1 P2 P3 L. generalize (sleep_tail x). intros u E.
    apply some_pair_inj in E. destruct E as [<- <-]. now repeat split. }
  destruct (_ >? _).
  - generalize (start_listening s0). intros sl.
    destruct (busy_wait (schedule env) sl) as [s1|] eqn:Hw; [|discriminate].
    destruct (busy_wait_keeps _ _ _ Hw) as (_ & _ & Hd).
    unfold reading_done in Hd. apply orb_true_iff in Hd.
    destruct Hd as [Hd|Hd]; apply ReadDataState_eqb_eq in Hd.
    + rewrite (conclude_timeout _ _ Hd). cbv zeta.
      generalize
        (snd (getAdcValueBusyWaitWithAveraging (reference_reads env) s1)).
      intros s2. destruct (_ && _); intros E.
      * apply some_pair_inj in E. destruct E as [E _]. congruence.
      * apply Htail in E. destruct E as (<- & P1 & P2 & P3 & L).
        rewrite L, led_on_turnOffLed. repeat split; trivial; discriminate.
    + rewrite (conclude_error _ _ Hd). intros E.
      apply Htail in E. destruct E as (<- & P1 & P2 & P3 & L).
      rewrite L, led_on_turnOnLed. now repeat split.
  - intros E. apply Htail in E. destruct E as (<- & P1 & P2 & P3 & L).
    rewrite L, led_on_double_blink. repeat split; trivial; discriminate.
Qed.

Lemma pass_ends_asleep_witness :
  exists s',
    main_pass (sample_pass 150 [] 104) initializeRegisters
    = Some (LowInput, s')
    /\ client_on s' = false /\ PRR s' = 0x00.
Proof.
  exists (snd (history_of_pass
                 (main_pass (sample_pass 150 [] 104) initializeRegisters))).
  assert (H : main_pass (sample_pass 150 [] 104) initializeRegisters
              = Some (LowInput,
                      snd (history_of_pass
                             (main_pass (sample_pass 150 [] 104)
                                initializeRegisters))))
    by (vm_compute; reflexivity).
  split; [exact H|].
  destruct (pass_ends_asleep _ _ _ _ H) as (A & _ & B & _);
    [discriminate|]. split; [exact A | exact B].
Defined.

End MasterHelpers.

(** ** The client's sampling and its waveforms *)
Section ClientPass.

Import Client.

Lemma sample_sum (convs : nat -> conversion) (s : mcu) :
  fst (sample convs s)
  = (adcValue (convs 0%nat) + adcValue (convs 1%nat)
     + adcValue (convs 2%nat)) / 3.
Proof.
  assert (Hb : forall i, 0 <= adcValue (convs i) < 256)
    by (intros i; unfold adcValue, u8; apply Z.mod_pos_bound; lia).
  pose proof (Hb 0%nat). pose proof (Hb 1%nat). pose proof (Hb 2%nat).
  change (fst (sample convs s))
    with (u16 (u16 (u16 (0 + adcValue (convs 0%nat))
                    + adcValue (convs 1%nat))
               + adcValue (convs 2%nat)) / ADCITERATIONS).
  unfold u16, ADCITERATIONS.
  rewrite (Z.mod_small (0 + _)) by lia.
  rewrite (Z.mod_small (0 + _ + _)) by lia.
  rewrite (Z.mod_small (0 + _ + _ + _)) by lia.
  reflexivity.
Qed.

(** X11.  What the client reports as an error.  The sample is the sum of
    three 8-bit readings divided by three, rounded down, so at most 255;
    it is classified invalid exactly when the three readings add up to
    less than 3 (the mean rounds down to zero) or to 714 or more (the mean
    exceeds 237). *)
Theorem sample_classification (convs : nat -> conversion) (s : mcu) :
  let sum := adcValue (convs 0%nat) + adcValue (convs 1%nat)
             + adcValue (convs 2%nat) in
  fst (sample convs s) = sum / 3
  /\ 0 <= fst (sample convs s) <= 255
  /\ (invalid (fst (sample convs s)) = true <-> sum < 3 \/ 714 <= sum).
Proof.
  intros sum. rewrite sample_sum. fold sum.
  assert (Hb : forall i, 0 <= adcValue (convs i) < 256)
    by (intros i; unfold adcValue, u8; apply Z.mod_pos_bound; lia).
  pose proof (Hb 0%nat). pose proof (Hb 1%nat). pose proof (Hb 2%nat).
  pose proof (Z.div_mod sum 3 ltac:(lia)).
  pose proof (Z.mod_pos_bound sum 3 ltac:(lia)).
  assert (Hs : 0 <= sum < 768) by (subst sum; lia).
  split; [reflexivity|]. split; [lia|].
  unfold invalid, MAXVOLTAGEADCVALUE.
  rewrite orb_true_iff, Z.eqb_eq, Z.gtb_ltb, Z.ltb_lt. lia.
Qed.

(** One conversion on the wire: the line holds its level while the busy
    loop waits. *)
Lemma getAdcValueBusyWait_wire (c : conversion) (s : mcu) :
  line (snd (getAdcValueBusyWait c s)) = line s
  /\ wire (snd (getAdcValueBusyWait c s))
     = wire s ++ [(line s, Passes (wait_spins c))].
Proof.
  unfold getAdcValueBusyWait. cbn [snd].
  destruct (spin_spec (wait_spins c) (startADC s)) as [A B]. revert A B.
  generalize (spin (wait_spins c) (startADC s)). intros t A B.
  unfold line in *. cbn [PORTB wire set_ADCSRA startADC] in *.
  now rewrite A, B.
Qed.

Lemma adc_loop_wire (k : nat) :
  forall (i : nat) (convs : nat -> conversion) (acc : Z) (s : mcu),
    line (snd (adc_loop k i convs acc s)) = line s
    /\ exists pre,
         wire (snd (adc_loop k i convs acc s)) = wire s ++ pre
         /\ Forall (fun h => fst h = line s) pre.
Proof.
  induction k as [|k IH]; intros i convs acc s.
  - split; [reflexivity|]. exists []. now rewrite app_nil_r.
  - set (s1 := if (0 <? i)%nat then _delay_ms ADCREADDELAYMS s else s).
    change (adc_loop (S k) i convs acc s)
      with (adc_loop k (S i) convs (u16 (acc + adcValue (convs i)))
              (snd (getAdcValueBusyWait (convs i) s1))).
    assert (H1 : line s1 = line s
                 /\ exists p1, wire s1 = wire s ++ p1
                              /\ Forall (fun h => fst h = line s) p1).
    { subst s1. destruct (0 <? i)%nat.
      - split; [reflexivity|]. exists [(line s, Millis ADCREADDELAYMS)].
        split; [reflexivity|]. now repeat constructor.
      - split; [reflexivity|]. exists []. now rewrite app_nil_r. }
    destruct H1 as (L1 & p1 & W1 & F1).
    destruct (getAdcValueBusyWait_wire (convs i) s1) as [L2 W2].
    destruct (IH (S i) convs (u16 (acc + adcValue (convs i)))
                (snd (getAdcValueBusyWait (convs i) s1)))
      as (L3 & p3 & W3 & F3).
    split; [congruence|].
    exists (p1 ++ [(line s, Passes (wait_spins (convs i)))] ++ p3).
    split.
    + rewrite W3, W2, W1, L1, <- !app_assoc. reflexivity.
    + apply Forall_app. split; [exact F1|].
      apply Forall_app. split; [now repeat constructor|].
      rewrite L2, L1 in F3. exact F3.
Qed.

Lemma led_on_turnOffLed_client (s : mcu) : led_on (turnOffLed s) = false.
Proof.
  unfold led_on, turnOffLed, set_PORTB. cbn [PORTB].
  rewrite Z.land_spec. apply andb_false_r.
Qed.

(** X12.  One pass of the client on the wire.  Until the sample is
    reported the line stays at the level the pass found it at.  A valid
    sample V then puts exactly the frame of V ticks on the wire and the
    pass ends with the line high and the LED off; an invalid one puts a
    single low hold on it and the pass ends with the line low and the LED
    on. *)
Theorem client_pass_on_wire (convs : nat -> conversion) (s : mcu) :
  let V := (adcValue (convs 0%nat) + adcValue (convs 1%nat)
            + adcValue (convs 2%nat)) / 3 in
  exists pre,
    Forall (fun h => fst h = line s) pre
    /\ (invalid V = false ->
        wire (main_pass convs s) = wire s ++ pre ++ frame_wave (Z.to_nat V)
        /\ line (main_pass convs s) = true
        /\ led_on (main_pass convs s) = false)
    /\ (invalid V = true ->
        wire (main_pass convs s)
        = wire s ++ pre ++ [(false, Millis BRIEFBLINKDELAYMS)]
        /\ line (main_pass convs s) = false
        /\ led_on (main_pass convs s) = true).
Proof.
  intros V.
  assert (HV : 0 <= V).
  { subst V. apply Z.div_pos; [|lia].
    assert (Hb : forall i, 0 <= adcValue (convs i) < 256)
      by (intros i; unfold adcValue, u8; apply Z.mod_pos_bound; lia).
    pose proof (Hb 0%nat). pose proof (Hb 1%nat). pose proof (Hb 2%nat). lia. }
  set (s0 := resetAndStart s).
  assert (L0 : line s0 = line s)
    by (subst s0; unfold resetAndStart, turnOffLed, line; cbn [PORTB set_PORTB];
        apply line_led_off).
  assert (W0 : wire s0 = wire s) by reflexivity.
  assert (Hmp : main_pass convs s
                = sleep_tail (report (fst (sample convs s0))
                                (snd (sample convs s0)))).
  { unfold main_pass. fold s0. now destruct (sample convs s0). }
  assert (Hsam : fst (sample convs s0) = V)
    by (rewrite sample_sum; reflexivity).
  destruct (adc_loop_wire (Z.to_nat ADCITERATIONS) 0 convs 0 s0)
    as (L1 & pre & W1 & F1).
  assert (L1' : line (snd (sample convs s0)) = line s).
  { unfold sample. destruct (adc_loop _ _ _ _ _). cbn [snd] in *. congruence. }
  assert (W1' : wire (snd (sample convs s0)) = wire s ++ pre).
  { unfold sample. destruct (adc_loop _ _ _ _ _). cbn [snd] in *. congruence. }
  rewrite L0 in F1.
  exists pre. split; [exact F1|].
  rewrite Hmp, Hsam. revert L1' W1'.
  generalize (snd (sample convs s0)). intros t L1' W1'.
  unfold report. split; intros Hinv; rewrite Hinv.
  - destruct (transmit_spec (Z.to_nat V) t) as [A B].
    rewrite Z2Nat.id in A, B by lia.
    assert (C : led_on (transmit V t) = false)
      by (unfold transmit; apply led_on_turnOffLed_client).
    revert A B C. generalize (transmit V t). intros u A B C.
    destruct (sleep_tail_line u) as [D E].
    unfold led_on in *. cbn [PORTB sleep_tail set_ADCSRA set_PRR] in *.
    rewrite D, E, A, B, C, W1', <- app_assoc. now repeat split.
  - destruct (outputDataError_spec t) as (A & B & C).
    revert A B C. generalize (outputDataError t). intros u A B C.
    destruct (sleep_tail_line u) as [D E].
    unfold led_on in *. cbn [PORTB sleep_tail set_ADCSRA set_PRR] in *.
    rewrite D, E, A, B, C, W1', <- app_assoc. now repeat split.
Qed.

Lemma client_pass_on_wire_witness :
  let convs := fun _ : nat => mkConversion 5 3 in
  line (main_pass convs initializeRegisters) = true
  /\ led_on (main_pass convs initializeRegisters) = false.
Proof.
  intros convs.
  destruct (client_pass_on_wire convs initializeRegisters)
    as (pre & _ & H & _).
  destruct H as (_ & A & B); [reflexivity|]. split; [exact A | exact B].
Defined.

Lemma ticks_edges (n : nat) (rest : list hold) :
  falling_edges true (concat (repeat tick_wave n) ++ rest)
  = (n + falling_edges true rest)%nat
  /\ rising_edges true (concat (repeat tick_wave n) ++ rest)
     = (n + rising_edges true rest)%nat.
Proof.
  induction n as [|n [IHf IHr]]; [now split|].
  cbn [repeat concat]. unfold tick_wave at 1 3.
  cbn [app falling_edges rising_edges andb negb]. rewrite IHf, IHr.
  now split.
Qed.

Lemma frame_wave_edges (n : nat) :
  falling_edges true (frame_wave n) = S n
  /\ rising_edges true (frame_wave n) = S n.
Proof.
  unfold frame_wave. cbn [app falling_edges rising_edges andb negb].
  destruct (ticks_edges n [(true, Millis BRIEFBLINKDELAYMS)]) as [A B].
  rewrite A, B. cbn [falling_edges rising_edges andb negb]. lia.
Qed.

Lemma frame_wave_length (n : nat) : length (frame_wave n) = (3 + 2 * n)%nat.
Proof.
  unfold frame_wave. rewrite !length_app. cbn [length].
  assert (H : length (concat (repeat tick_wave n)) = (2 * n)%nat).
  { induction n as [|n IH]; [reflexivity|].
    cbn [repeat concat]. rewrite length_app, IH. cbn [tick_wave length]. lia. }
  rewrite H. lia.
Qed.

(** X13.  Edges of a report.  On a wire idling high, the report of a
    valid sample V (1 to 237) shows V + 1 falling and V + 1 rising edges:
    the trigger and one pair per count, ending high.  The report of an
    invalid sample shows one falling edge and no rising edge. *)
Theorem report_edges (V : Z) (s : mcu) :
  wire s = [] ->
  (1 <= V <= MAXVOLTAGEADCVALUE ->
     falling_edges true (wire (report V s)) = S (Z.to_nat V)
     /\ rising_edges true (wire (report V s)) = S (Z.to_nat V))
  /\ (invalid V = true ->
      falling_edges true (wire (report V s)) = 1%nat
      /\ rising_edges true (wire (report V s)) = O).
Proof.
  intros Hw. split.
  - intros HV.
    assert (Hinv : invalid V = false).
    { unfold invalid, MAXVOLTAGEADCVALUE in *. apply orb_false_iff. split.
      - rewrite Z.gtb_ltb. apply Z.ltb_ge. lia.
      - apply Z.eqb_neq. lia. }
    unfold report. rewrite Hinv.
    destruct (transmit_spec (Z.to_nat V) s) as [_ B].
    rewrite Z2Nat.id in B by lia. rewrite B, Hw. cbn [app].
    apply frame_wave_edges.
  - intros Hinv. unfold report. rewrite Hinv.
    destruct (outputDataError_spec s) as (_ & _ & C).
    rewrite C, Hw. now split.
Qed.

Lemma report_edges_witness :
  falling_edges true (wire (report 5 initializeRegisters)) = S (Z.to_nat 5)
  /\ rising_edges true (wire (report 0 initializeRegisters)) = O.
Proof.
  destruct (report_edges 5 initializeRegisters eq_refl) as [H _].
  destruct (report_edges 0 initializeRegisters eq_refl) as [_ K].
  feed H ltac:(vm_compute; split; discriminate).
  feed K ltac:(reflexivity).
  destruct H as [A _]. destruct K as [_ B]. split; [exact A | exact B].
Defined.

(** X14.  The waveform is a faithful code.  Started on an empty log, the
    reports of two valid samples are the same waveform exactly when the
    samples are equal, whatever else differs between the two states (the
    blink counter, the LED); and the report of a valid sample is never the
    waveform of an invalid one. *)
Theorem report_is_injective (V1 V2 : Z) (s1 s2 : mcu) :
  wire s1 = [] ->
  wire s2 = [] ->
  1 <= V1 <= MAXVOLTAGEADCVALUE ->
  (1 <= V2 <= MAXVOLTAGEADCVALUE ->
     (wire (report V1 s1) = wire (report V2 s2) <-> V1 = V2))
  /\ (invalid V2 = true -> wire (report V1 s1) <> wire (report V2 s2)).
Proof.
  intros Hw1 Hw2 HV1.
  assert (Hvalid : forall V, 1 <= V <= MAXVOLTAGEADCVALUE ->
                             invalid V = false).
  { intros V HV. unfold invalid, MAXVOLTAGEADCVALUE in *.
    apply orb_false_iff. split.
    - rewrite Z.gtb_ltb. apply Z.ltb_ge. lia.
    - apply Z.eqb_neq. lia. }
  assert (Hrep : forall V s, wire s = [] -> 1 <= V <= MAXVOLTAGEADCVALUE ->
                             wire (report V s) = frame_wave (Z.to_nat V)).
  { intros V s Hw HV. unfold report. rewrite (Hvalid V HV).
    destruct (transmit_spec (Z.to_nat V) s) as [_ B].
    rewrite Z2Nat.id in B by lia. now rewrite B, Hw. }
  rewrite (Hrep V1 s1 Hw1 HV1). split.
  - intros HV2. rewrite (Hrep V2 s2 Hw2 HV2). split.
    + intros E. apply (f_equal (@length hold)) in E.
      rewrite !frame_wave_length in E. lia.
    + now intros ->.
  - intros Hinv E. unfold report in E. rewrite Hinv in E.
    destruct (outputDataError_spec s2) as (_ & _ & C).
    rewrite C, Hw2 in E. apply (f_equal (@length hold)) in E.
    rewrite frame_wave_length in E. cbn in E. lia.
Qed.

Lemma report_is_injective_witness :
  wire (report 7 initializeRegisters)
  <> wire (report 8 (set_g_ledBlinkCount 99 initializeRegisters)).
Proof.
  destruct (report_is_injective 7 8 initializeRegisters
              (set_g_ledBlinkCount 99 initializeRegisters) eq_refl eq_refl)
    as [H _].
  - vm_compute. split; discriminate.
  - intros E. apply H in E; [discriminate|].
    vm_compute. split; discriminate.
Defined.

End ClientPass.

(** ** Glitches and silence on the wire, clock by clock *)
Section IdleOnTheWire.

Import Master Wire.

Ltac arith_cbn :=
  cbn -[Z.div Z.modulo Z.mul Z.add Z.sub Z.testbit Z.land Z.lor Z.lnot
        Z.eqb Z.ltb Z.gtb Z.leb] in *.

(** One clock of an idle decoder with the wire high and no overflow due:
    the timer counts on; a compare match at [MAXTIMEOUT] changes nothing. *)
Lemma idling_clock (k t : Z) (r : receiver) :
  idling k t r ->
  t + 1 < overflow_period ->
  idling k (t + 1) (clock true r)
  /\ g_incomingCount (cpu (clock true r)) = g_incomingCount (cpu r).
Proof.
  destruct r as [s p l].
  destruct s as [st ic lc th it pb dd pu tc oc tb ea em ad pr].
  unfold idling, overflow_period, elapsed, clock, int0_fires, int0_sense,
    timer_clock, timer_running, MAXTIMEOUT.
  arith_cbn.
  intros (-> & -> & -> & -> & -> & -> & Htc & Hp & <-) Hlt.
  change (Z.land 0 3) with 0. change (Z.testbit 1 0) with true. arith_cbn.
  change (Z.land 4 7 =? 4) with true. arith_cbn.
  destruct (Z.eq_dec p 255) as [->|Hne].
  - change ((255 + 1) mod 256 =? 0) with true.
    change ((255 + 1) mod 256) with 0. arith_cbn.
    unfold u16. rewrite (Z.mod_small (tc + 1)) by lia.
    replace (tc + 1 =? 0) with false by (symmetry; apply Z.eqb_neq; lia).
    arith_cbn.
    destruct (tc + 1 =? 65535); unfold ISR_TIM0_COMPA; arith_cbn;
      repeat split; trivial; lia.
  - rewrite (Z.mod_small (p + 1)) by lia.
    replace (p + 1 =? 0) with false by (symmetry; apply Z.eqb_neq; lia).
    arith_cbn. repeat split; trivial; lia.
Qed.

Lemma idling_hold (n : N) :
  forall (k t : Z) (r : receiver),
    idling k t r ->
    t + Z.of_N n < overflow_period ->
    idling k (t + Z.of_N n) (hold_for n true r)
    /\ g_incomingCount (cpu (hold_for n true r)) = g_incomingCount (cpu r).
Proof.
  induction n as [|n IH] using N.peano_ind; intros k t r Hi Hlt.
  - cbn. now rewrite Z.add_0_r.
  - rewrite hold_for_succ, N2Z.inj_succ in *.
    destruct (IH k t r Hi ltac:(lia)) as [A B].
    destruct (idling_clock k (t + Z.of_N n) _ A ltac:(lia)) as [C D].
    split; [|congruence].
    replace (t + Z.succ (Z.of_N n)) with (t + Z.of_N n + 1) by lia.
    exact C.
Qed.

(** The clock on which the timer overflows in Idle. *)
Lemma idling_overflow (k : Z) (r : receiver) :
  idling k (overflow_period - 1) r ->
  0 <= k <= MAXTIMEOUTCOUNT ->
  (k < MAXTIMEOUTCOUNT -> idling (k + 1) 0 (clock true r))
  /\ (k = MAXTIMEOUTCOUNT ->
      finished Read_Error (g_incomingCount (cpu r)) (clock true r)
      /\ g_idleTimeoutCount (cpu (clock true r)) = 0)
  /\ g_incomingCount (cpu (clock true r)) = g_incomingCount (cpu r).
Proof.
  destruct r as [s p l].
  destruct s as [st ic lc th it pb dd pu tc oc tb ea em ad pr].
  unfold idling, finished, overflow_period, elapsed, clock, int0_fires,
    int0_sense, timer_clock, timer_running, MAXTIMEOUT, MAXTIMEOUTCOUNT.
  arith_cbn.
  intros (-> & -> & -> & -> & -> & -> & Htc & Hp & He) Hk.
  assert (p = 255) by lia. assert (tc = 65535) by lia. subst p tc.
  change (Z.land 0 3) with 0. change (Z.testbit 1 0) with true. arith_cbn.
  change (Z.land 4 7 =? 4) with true. arith_cbn.
  change ((255 + 1) mod 256 =? 0) with true.
  change ((255 + 1) mod 256) with 0. arith_cbn.
  change (u16 (65535 + 1)) with 0. change (0 =? 0) with true. arith_cbn.
  unfold ISR_TIM0_OVF. arith_cbn. unfold u16, MAXTIMEOUTCOUNT.
  rewrite (Z.mod_small (k + 1)) by lia.
  destruct (k + 1 >? 5) eqn:Hgt; arith_cbn.
  - apply Z.gtb_lt in Hgt. unfold stopTimer. arith_cbn.
    change (0 =? 65535) with false. arith_cbn.
    split; [lia|]. split; [|reflexivity]. intros _. now repeat split.
  - rewrite Z.gtb_ltb in Hgt. apply Z.ltb_ge in Hgt.
    change (0 =? 65535) with false. arith_cbn.
    split; [|split; [lia | reflexivity]].
    intros _. repeat split; trivial; lia.
Qed.

(** A whole overflow period of silence. *)
Lemma idling_period (k t : Z) (r : receiver) :
  idling k t r ->
  0 <= k < MAXTIMEOUTCOUNT ->
  0 <= t < overflow_period ->
  idling (k + 1) 0 (hold_for (Z.to_N (overflow_period - t)) true r)
  /\ g_incomingCount (cpu (hold_for (Z.to_N (overflow_period - t)) true r))
     = g_incomingCount (cpu r).
Proof.
  intros Hi Hk Ht.
  replace (Z.to_N (overflow_period - t))
    with (Z.to_N (overflow_period - 1 - t) + 1)%N by lia.
  rewrite <- hold_for_add, hold_for_1.
  destruct (idling_hold (Z.to_N (overflow_period - 1 - t)) k t r Hi
              ltac:(lia)) as [A B].
  replace (t + Z.of_N (Z.to_N (overflow_period - 1 - t)))
    with (overflow_period - 1) in A by lia.
  destruct (idling_overflow k _ A ltac:(lia)) as (C & _ & D).
  split; [apply C; lia | congruence].
Qed.

(** With [j] more overflows tolerated, silence keeps the decoder idle
    for less than [j + 1] periods and has it in Error from then on. *)
Lemma silence_by_periods (j : nat) :
  forall (k t : Z) (r : receiver) (n : N),
    idling k t r ->
    k + Z.of_nat j = MAXTIMEOUTCOUNT ->
    0 <= k ->
    0 <= t < overflow_period ->
    (t + Z.of_N n < (Z.of_nat j + 1) * overflow_period ->
       g_readDataState (cpu (hold_for n true r)) = Read_Idle)
    /\ ((Z.of_nat j + 1) * overflow_period <= t + Z.of_N n ->
        finished Read_Error (g_incomingCount (cpu r)) (hold_for n true r)).
Proof.
  induction j as [|j IH]; intros k t r n Hi Hkj Hk Ht.
  - cbn [Z.of_nat] in *. rewrite Z.add_0_l, Z.mul_1_l.
    rewrite Z.add_0_r in Hkj. split; intros Hn.
    + destruct (idling_hold n k t r Hi Hn) as [A _]. apply A.
    + replace n with (Z.to_N (overflow_period - 1 - t) + 1
                      + Z.to_N (t + Z.of_N n - overflow_period))%N by lia.
      rewrite <- !hold_for_add, hold_for_1.
      destruct (idling_hold (Z.to_N (overflow_period - 1 - t)) k t r Hi
                  ltac:(lia)) as [A B].
      replace (t + Z.of_N (Z.to_N (overflow_period - 1 - t)))
        with (overflow_period - 1) in A by lia.
      destruct (idling_overflow k _ A ltac:(lia)) as (_ & C & _).
      destruct (C Hkj) as [D _]. rewrite B in D.
      now apply finished_hold.
  - rewrite Nat2Z.inj_succ in *.
    destruct (Z.lt_ge_cases (t + Z.of_N n) overflow_period) as [Hs|Hl].
    + split; intros Hn.
      * destruct (idling_hold n k t r Hi Hs) as [A _]. apply A.
      * unfold overflow_period in *. lia.
    + replace n with (Z.to_N (overflow_period - t)
                      + Z.to_N (t + Z.of_N n - overflow_period))%N by lia.
      rewrite <- hold_for_add.
      destruct (idling_period k t r Hi ltac:(lia) Ht) as [A B].
      destruct (IH (k + 1) 0 _ (Z.to_N (t + Z.of_N n - overflow_period)) A
                  ltac:(lia) ltac:(lia)
                  ltac:(unfold overflow_period; lia)) as [P Q].
      rewrite B in Q. split; intros Hn; [apply P | apply Q]; lia.
Qed.

(** X15.  A decoder that starts listening and hears nothing but a high
    wire stays in Idle until the sixth overflow of its timer, which comes
    six overflow periods after the timer started, and is in Error, with
    the timer stopped and the line interrupt masked, from that clock
    on. *)
Theorem silence_on_the_wire (t : Z) (r : receiver) (n : N) :
  idling 0 t r ->
  0 <= t < overflow_period ->
  (t + Z.of_N n < 6 * overflow_period ->
     g_readDataState (cpu (hold_for n true r)) = Read_Idle)
  /\ (6 * overflow_period <= t + Z.of_N n ->
      finished Read_Error (g_incomingCount (cpu r)) (hold_for n true r)).
Proof.
  intros Hi Ht.
  exact (silence_by_periods 5 0 t r n Hi eq_refl (Z.le_refl 0) Ht).
Qed.

Lemma silence_on_the_wire_witness :
  let r := {| cpu := resetAndStartTimer
                       (resetReadStateToIdle initializeRegisters);
              prescaler := 7; last_level := true |} in
  (7 + Z.of_N 1000 < 6 * overflow_period ->
     g_readDataState (cpu (hold_for 1000 true r)) = Read_Idle)
  /\ (6 * overflow_period <= 7 + Z.of_N 1000 ->
      finished Read_Error (g_incomingCount (cpu r)) (hold_for 1000 true r)).
Proof.
  intros r.
  apply (silence_on_the_wire 7 r 1000).
  - unfold idling. repeat split; try reflexivity; discriminate.
  - split; [discriminate | reflexivity].
Defined.

(** Clocks of the verification window keep the decoder verifying, whatever
    the wire does, and leave the edge count alone. *)
Lemma verifying_hold (n : N) (level : bool) (t : Z) (r : receiver) :
  verifying t r ->
  t + Z.of_N n < 1024 ->
  verifying (t + Z.of_N n) (hold_for n level r)
  /\ g_incomingCount (cpu (hold_for n level r)) = g_incomingCount (cpu r).
Proof.
  intros Hv Hlt. destruct (N.eq_dec n 0) as [->|Hn].
  - cbn. now rewrite Z.add_0_r.
  - split; [apply verifying_coast; trivial; lia|].
    destruct Hv as (Hst & Hem & Hoc & Htb & Htc & Hp & <-).
    assert (He : 0 <= elapsed r) by (unfold elapsed; lia).
    rewrite hold_coast.
    + apply (coasted_keeps (Z.of_N n) level r ltac:(lia)).
    + now left.
    + unfold timer_counting. rewrite Hoc. unfold VERIFYTRIGGERTIMEOUT.
      repeat split; trivial; lia.
    + lia.
    + rewrite Hoc. unfold VERIFYTRIGGERTIMEOUT. lia.
Qed.

(** The window closing on a wire that is high again. *)
Lemma verifying_expires_high (r : receiver) :
  verifying 1023 r ->
  idling 0 0 (clock true r)
  /\ g_incomingCount (cpu (clock true r)) = g_incomingCount (cpu r).
Proof.
  intros (Hst & Hem & Hoc & Htb & Htc & Hp & He).
  rewrite clock_compare.
  - destruct r as [s p l].
    destruct s as [st ic lc th it pb dd pu tc oc tb ea em ad pr].
    arith_cbn. subst st em oc tb.
    unfold idling, elapsed, ISR_TIM0_COMPA. arith_cbn.
    unfold stopTimer, resetReadStateToIdle, resetAndStartTimer. arith_cbn.
    repeat split; trivial; lia.
  - now left.
  - unfold timer_counting. rewrite Hoc. unfold VERIFYTRIGGERTIMEOUT.
    repeat split; trivial; lia.
  - rewrite Hoc, He. reflexivity.
Qed.

(** X16.  A low pulse that ends before the verification window closes is
    dropped: the window closes 1024 clocks after the prescaler last
    wrapped before the pulse began, so a pulse of [n] clocks with
    [n + prescaler < 1024] (any pulse of at most 768 clocks) followed by
    a high wire leaves the decoder in Idle, listening again, with a fresh
    overflow count, the timer restarted at the close of the window, and
    the edge count untouched. *)
Theorem short_pulse_rejected (n m : N) (r : receiver) :
  listening r ->
  (0 < n)%N ->
  Z.of_N n + prescaler r < 1024 ->
  1024 <= Z.of_N n + prescaler r + Z.of_N m ->
  Z.of_N m < overflow_period ->
  let r' := hold_for m true (hold_for n false r) in
  idling 0 (Z.of_N n + prescaler r + Z.of_N m - 1024) r'
  /\ g_incomingCount (cpu r') = g_incomingCount (cpu r).
Proof.
  intros Hl Hn Hshort Hlong Hm r'. subst r'.
  assert (Hp : 0 <= prescaler r < 256) by apply Hl.
  set (a := Z.to_N (1023 - prescaler r - Z.of_N n)).
  set (b := Z.to_N (Z.of_N n + prescaler r + Z.of_N m - 1024)).
  assert (En : hold_for n false r = hold_for (n - 1) false (clock false r)).
  { rewrite <- hold_for_1, hold_for_add. f_equal. lia. }
  assert (Em : forall x, hold_for m true x
                         = hold_for b true (clock true (hold_for a true x))).
  { intros x. rewrite <- (hold_for_1 true), !hold_for_add. f_equal.
    subst a b. lia. }
  rewrite Em, En.
  destruct (trigger_seen r Hl) as [Hv E0].
  destruct (verifying_hold (n - 1) false _ _ Hv ltac:(lia)) as [Hv1 E1].
  destruct (verifying_hold a true _ _ Hv1 ltac:(subst a; lia)) as [Hv2 E2].
  replace (prescaler r + 1 + Z.of_N (n - 1) + Z.of_N a) with 1023 in Hv2
    by (subst a; lia).
  destruct (verifying_expires_high _ Hv2) as [Hi E3].
  destruct (idling_hold b 0 0 _ Hi
              ltac:(subst b; unfold overflow_period in *; lia)) as [Hj E4].
  split; [|congruence].
  replace (Z.of_N n + prescaler r + Z.of_N m - 1024)
    with (0 + Z.of_N b) by (subst b; lia).
  exact Hj.
Qed.

Lemma short_pulse_rejected_witness :
  let r := {| cpu := resetAndStartTimer
                       (resetReadStateToIdle initializeRegisters);
              prescaler := 255; last_level := true |} in
  let r' := hold_for 1 true (hold_for 768 false r) in
  idling 0 (Z.of_N 768 + prescaler r + Z.of_N 1 - 1024) r'
  /\ g_incomingCount (cpu r') = g_incomingCount (cpu r).
Proof.
  intros r.
  apply (short_pulse_rejected 768 1 r).
  - unfold listening. repeat split; try reflexivity.
    + right; reflexivity.
    + discriminate.
  - reflexivity.
  - reflexivity.
  - discriminate.
  - reflexivity.
Defined.

(** X17.  A low hold still in place when the verification window closes is
    taken as a trigger: with [1024 <= n + prescaler] the decoder is in
    Reading after the [n] low clocks, its edge count zeroed, its timer
    restarted at the close of the window and the line interrupt set to
    falling edges. *)
Theorem long_pulse_accepted (n : N) (r : receiver) :
  listening r ->
  1024 <= Z.of_N n + prescaler r ->
  Z.of_N n <= READINGTIMEOUT * 256 ->
  reading 0 (Z.of_N n + prescaler r - 1024) false (hold_for n false r).
Proof.
  intros Hl Hlong Hn.
  assert (Hp : 0 <= prescaler r < 256) by apply Hl.
  set (k := Z.to_N (1022 - prescaler r)).
  set (m := Z.to_N (Z.of_N n + prescaler r - 1024)).
  replace n with (1 + k + 1 + m)%N by (subst k m; lia).
  rewrite <- !hold_for_add, !hold_for_1.
  destruct (trigger_seen r Hl) as [Hv _].
  destruct (verifying_hold k false _ _ Hv ltac:(subst k; lia)) as [Hv1 _].
  replace (prescaler r + 1 + Z.of_N k) with 1023 in Hv1 by (subst k; lia).
  apply verifying_expires_low in Hv1.
  apply (reading_coast0 m false) in Hv1;
    [|subst m; unfold READINGTIMEOUT in *; lia].
  replace (Z.of_N (1 + k + 1 + m) + prescaler r - 1024) with (0 + Z.of_N m)
    by (subst k m; lia).
  exact Hv1.
Qed.

Lemma long_pulse_accepted_witness :
  let r := {| cpu := resetAndStartTimer
                       (resetReadStateToIdle initializeRegisters);
              prescaler := 255; last_level := true |} in
  reading 0 (Z.of_N 769 + prescaler r - 1024) false (hold_for 769 false r).
Proof.
  intros r.
  apply (long_pulse_accepted 769 r).
  - unfold listening. repeat split; try reflexivity.
    + right; reflexivity.
    + discriminate.
  - discriminate.
  - discriminate.
Defined.

End IdleOnTheWire.
